(** * vmount: MAVLink input adapters (src/modules/vmount/input_mavlink.cpp)

    A shallow embedding of the three input adapters of the mount driver
    ([InputMavlinkROI], [InputMavlinkCmdMount], [InputMavlinkGimbalV2]) and
    the properties of their [update_impl] methods.

    - C++ [float] is IEEE binary32, taken from the Standard Library's
      [SpecFloat] (24 bits of precision, round to nearest even); [double] is
      binary64.
    - Integers are [Z]; where the source converts between integer types the
      wrap-around is written out.
    - uORB is modelled by explicit state passing: each call of [px4_poll] is
      answered by one record of the environment (what the poll returned, how
      long it took, and what [orb_copy] then reads on each topic); published
      messages are collected in lists.
    - [*control_data = &_control_data] hands out a pointer to the adapter's
      own record: the result of an update carries the flag "pointer set" and
      the record is read from the adapter state. *)

From Stdlib Require Import ZArith List Bool Lia.
From Stdlib Require Import Floats.SpecFloat.
Import ListNotations.
Local Open Scope Z_scope.

(** ** Single and double precision numbers *)

Module F32.

Definition prec : Z := 24.
Definition emax : Z := 128.

Definition float : Type := spec_float.

Definition fadd : float -> float -> float := SFadd prec emax.
Definition fsub : float -> float -> float := SFsub prec emax.
Definition fmul : float -> float -> float := SFmul prec emax.
Definition fneg : float -> float := SFopp.

(** [a < b], [a <= b], [a > b], [a >= b]: all false when an operand is NaN. *)
Definition flt (a b : float) : bool := SFltb a b.
Definition fle (a b : float) : bool := SFleb a b.
Definition fgt (a b : float) : bool := SFltb b a.
Definition fge (a b : float) : bool := SFleb b a.

(** Conversion of an integer constant ([2 * M_PI_F], [0.f]). *)
Definition of_Z (z : Z) : float := binary_normalize prec emax z 0 false.

Definition zero : float := S754_zero false.
Definition nan : float := S754_nan.

(** [PX4_ISFINITE]: neither NaN nor an infinity. *)
Definition PX4_ISFINITE (x : float) : bool :=
  match x with
  | S754_zero _ | S754_finite _ _ _ => true
  | S754_infinity _ | S754_nan => false
  end.

(** A well-formed binary32 value: the mantissa of a finite number has the
    length its exponent asks for.  Every value the hardware produces is
    well formed; [spec_float] also has terms that are not. *)
Definition is_valid (x : float) : bool := valid_binary prec emax x.

(** Modelled from the spec: the macros [M_PI_F] (3.14159265f) and
    [M_DEG_TO_RAD_F] (0.0174532925f) of px4_platform_common/defines.h, which
    is not part of the sources at hand: the binary32 numbers nearest to pi
    and to pi/180. *)
Definition M_PI_F : float := S754_finite false 13176795 (-22).
Definition M_DEG_TO_RAD_F : float := S754_finite false 9370165 (-29).

(** [2 * M_PI_F] *)
Definition TWO_PI_F : float := fmul (of_Z 2) M_PI_F.

(** [0.5f] and [-10.f] *)
Definition HALF : float := S754_finite false 8388608 (-24).
Definition MINUS_TEN : float := S754_finite true 10485760 (-20).

(** Truncation toward zero of a finite number, the value of [(int)x] when
    it is representable. *)
Definition trunc (x : float) : Z :=
  match x with
  | S754_finite s m e =>
      cond_Zopp s (match e with
                   | Zneg k => Z.shiftr (Zpos m) (Zpos k)
                   | _ => Z.shiftl (Zpos m) e
                   end)
  | _ => 0
  end.

(** The value of a finite number in units of 2^-149, the smallest positive
    binary32 number: an integer for every well-formed value. *)
Definition scaled (x : float) : Z :=
  match x with
  | S754_finite s m e => cond_Zopp s (Zpos m * 2 ^ (e + 149))
  | _ => 0
  end.

End F32.

Definition double : Type := spec_float.

Module F64.

Definition prec : Z := 53.
Definition emax : Z := 1024.

(** [(float)d]: rounded to nearest even. *)
Definition to_float (d : double) : F32.float :=
  match d with
  | S754_finite s m e => binary_round F32.prec F32.emax s m e
  | _ => d
  end.

(** [(double)f]: exact. *)
Definition of_float (f : F32.float) : double :=
  match f with
  | S754_finite s m e => binary_round prec emax s m e
  | _ => f
  end.

End F64.

Import F32.

(** [int] and [uint32_t] wrap-around. *)
Definition to_int32 (z : Z) : Z := (z + 2 ^ 31) mod 2 ^ 32 - 2 ^ 31.
Definition to_uint32 (z : Z) : Z := z mod 2 ^ 32.

(** ** The control record *)

(** Three-element C arrays ([angles[3]], [frames[3]], [stabilize_axis[3]]). *)
Record arr3 (A : Type) : Type := mk3 { a0 : A; a1 : A; a2 : A }.
Arguments mk3 {A} _ _ _.
Arguments a0 {A} _.
Arguments a1 {A} _.
Arguments a2 {A} _.

Definition get3 {A} (v : arr3 A) (i : nat) : A :=
  match i with
  | O => a0 v
  | S O => a1 v
  | _ => a2 v
  end.

Definition set3 {A} (v : arr3 A) (i : nat) (x : A) : arr3 A :=
  match i with
  | O => mk3 x (a1 v) (a2 v)
  | S O => mk3 (a0 v) x (a2 v)
  | S (S O) => mk3 (a0 v) (a1 v) x
  | _ => v
  end.

Inductive ControlType : Type := Neutral | Angle | LonLat.

Inductive Frame : Type := AngleBodyFrame | AngularRate | AngleAbsoluteFrame.

(** Modelled from the spec: [struct ControlData], declared in a header that
    is not part of the sources at hand.  Section 3 of the specification
    lists the tag, the angle payload (three values and three frames), the
    lon/lat payload (position, roll angle, fixed pitch, pitch and yaw
    offsets), the three stabilisation flags and the retract flag.

    The two payloads are the members of the union [type_data] (sections 3
    and 9), and they start at the same address: [angles[0]] and
    [angles[1]] lie in the bytes of [lon], [angles[2]] and the three
    [frames] in those of [lat].  The altitude, the roll angle, the fixed
    pitch and the two offsets lie behind [lat] and share no byte with the
    angle payload, which is why the source can read the fixed pitch and
    the offsets while it fills in the angles.

    A store through one member overwrites the members that share its
    bytes.  [lon] and [lat] hold [Some] number as long as the bytes hold
    what was stored as a [double], and [None] once one of their bytes was
    written through [angles] or [frames].  What [angles] and [frames] read
    once [lon] and [lat] were stored is left to the platform
    ([aliased_angles] and [aliased_frames] below). *)
Record ControlData : Type := mkControlData {
  type : ControlType;
  angles : arr3 float;
  frames : arr3 Frame;
  lon : option double;
  lat : option double;
  altitude : float;
  roll_angle : float;
  pitch_fixed_angle : float;
  pitch_angle_offset : float;
  yaw_angle_offset : float;
  stabilize_axis : arr3 bool;
  gimbal_shutter_retract : bool
}.

Definition set_type (cd : ControlData) (t : ControlType) : ControlData :=
  mkControlData t (angles cd) (frames cd) (lon cd) (lat cd) (altitude cd)
    (roll_angle cd) (pitch_fixed_angle cd) (pitch_angle_offset cd)
    (yaw_angle_offset cd) (stabilize_axis cd) (gimbal_shutter_retract cd).

(** The whole of [angles[]]: the bytes of [lon] and of [lat]. *)
Definition set_angles (cd : ControlData) (v : arr3 float) : ControlData :=
  mkControlData (type cd) v (frames cd) None None (altitude cd)
    (roll_angle cd) (pitch_fixed_angle cd) (pitch_angle_offset cd)
    (yaw_angle_offset cd) (stabilize_axis cd) (gimbal_shutter_retract cd).

(** The whole of [frames[]]: bytes of [lat]. *)
Definition set_frames (cd : ControlData) (v : arr3 Frame) : ControlData :=
  mkControlData (type cd) (angles cd) v (lon cd) None (altitude cd)
    (roll_angle cd) (pitch_fixed_angle cd) (pitch_angle_offset cd)
    (yaw_angle_offset cd) (stabilize_axis cd) (gimbal_shutter_retract cd).

(** [angles[i] = x]: bytes of [lon] for the first two, of [lat] for the
    third. *)
Definition set_angle (cd : ControlData) (i : nat) (x : float) : ControlData :=
  mkControlData (type cd) (set3 (angles cd) i x) (frames cd)
    (match i with O | S O => None | _ => lon cd end)
    (match i with S (S O) => None | _ => lat cd end)
    (altitude cd)
    (roll_angle cd) (pitch_fixed_angle cd) (pitch_angle_offset cd)
    (yaw_angle_offset cd) (stabilize_axis cd) (gimbal_shutter_retract cd).

(** [frames[i] = f]: a byte of [lat]. *)
Definition set_frame (cd : ControlData) (i : nat) (f : Frame) : ControlData :=
  mkControlData (type cd) (angles cd) (set3 (frames cd) i f) (lon cd)
    (match i with O | S O | S (S O) => None | _ => lat cd end)
    (altitude cd)
    (roll_angle cd) (pitch_fixed_angle cd) (pitch_angle_offset cd)
    (yaw_angle_offset cd) (stabilize_axis cd) (gimbal_shutter_retract cd).

Definition set_roll_angle (cd : ControlData) (x : float) : ControlData :=
  mkControlData (type cd) (angles cd) (frames cd) (lon cd) (lat cd) (altitude cd)
    x (pitch_fixed_angle cd) (pitch_angle_offset cd)
    (yaw_angle_offset cd) (stabilize_axis cd) (gimbal_shutter_retract cd).

Definition set_pitch_fixed_angle (cd : ControlData) (x : float) : ControlData :=
  mkControlData (type cd) (angles cd) (frames cd) (lon cd) (lat cd) (altitude cd)
    (roll_angle cd) x (pitch_angle_offset cd)
    (yaw_angle_offset cd) (stabilize_axis cd) (gimbal_shutter_retract cd).

Definition set_pitch_angle_offset (cd : ControlData) (x : float) : ControlData :=
  mkControlData (type cd) (angles cd) (frames cd) (lon cd) (lat cd) (altitude cd)
    (roll_angle cd) (pitch_fixed_angle cd) x
    (yaw_angle_offset cd) (stabilize_axis cd) (gimbal_shutter_retract cd).

Definition set_yaw_angle_offset (cd : ControlData) (x : float) : ControlData :=
  mkControlData (type cd) (angles cd) (frames cd) (lon cd) (lat cd) (altitude cd)
    (roll_angle cd) (pitch_fixed_angle cd) (pitch_angle_offset cd)
    x (stabilize_axis cd) (gimbal_shutter_retract cd).

Definition set_stabilize_axis (cd : ControlData) (v : arr3 bool) : ControlData :=
  mkControlData (type cd) (angles cd) (frames cd) (lon cd) (lat cd) (altitude cd)
    (roll_angle cd) (pitch_fixed_angle cd) (pitch_angle_offset cd)
    (yaw_angle_offset cd) v (gimbal_shutter_retract cd).

Definition set_gimbal_shutter_retract (cd : ControlData) (b : bool) : ControlData :=
  mkControlData (type cd) (angles cd) (frames cd) (lon cd) (lat cd) (altitude cd)
    (roll_angle cd) (pitch_fixed_angle cd) (pitch_angle_offset cd)
    (yaw_angle_offset cd) (stabilize_axis cd) b.

(** ** uORB messages (the fields the adapters read or write) *)

Record vehicle_roi_s : Type := mk_vehicle_roi {
  roi_mode : Z;
  roi_lon : double;
  roi_lat : double;
  roi_alt : float;
  roi_roll_offset : float;
  roi_pitch_offset : float;
  roi_yaw_offset : float
}.

(** [position_setpoint_triplet.current] *)
Record position_setpoint_s : Type := mk_position_setpoint {
  sp_lon : double;
  sp_lat : double;
  sp_alt : float
}.

Record vehicle_command_s : Type := mk_vehicle_command {
  command : Z;
  param1 : float;
  param2 : float;
  param3 : float;
  param4 : float;
  param5 : double;
  param6 : double;
  param7 : float;
  target_system : Z;
  target_component : Z;
  source_system : Z;
  source_component : Z
}.

(** The acknowledgement; its time stamp is the clock's and is left out. *)
Record vehicle_command_ack_s : Type := mk_vehicle_command_ack {
  ack_command : Z;
  ack_result : Z;
  ack_target_system : Z;
  ack_target_component : Z
}.

Definition quat : Type := (float * float * float * float)%type.

Record gimbal_manager_set_attitude_s : Type := mk_set_attitude {
  sa_flags : Z;
  sa_q : quat;
  angular_velocity_x : float;
  angular_velocity_y : float;
  angular_velocity_z : float
}.

Record vehicle_global_position_s : Type := mk_global_position {
  gpos_lat : double;
  gpos_lon : double;
  gpos_alt : float;
  gpos_yaw : float
}.

Record gimbal_manager_status_s : Type := mk_manager_status {
  status_flags : Z;
  status_gimbal_device_id : Z
}.

(** ** What the rest of the code base provides *)

(** The constants of the generated message headers, which are not part of
    the sources at hand; they are parameters of the development. *)
Class Constants : Type := {
  ROI_NONE : Z;
  ROI_WPNEXT : Z;
  ROI_LOCATION : Z;
  ROI_TARGET : Z;
  VEHICLE_CMD_DO_MOUNT_CONFIGURE : Z;
  VEHICLE_CMD_DO_MOUNT_CONTROL : Z;
  VEHICLE_CMD_DO_GIMBAL_MANAGER_ATTITUDE : Z;
  VEHICLE_CMD_RESULT_ACCEPTED : Z;
  VEHICLE_MOUNT_MODE_RETRACT : Z;
  VEHICLE_MOUNT_MODE_NEUTRAL : Z;
  VEHICLE_MOUNT_MODE_MAVLINK_TARGETING : Z;
  VEHICLE_MOUNT_MODE_RC_TARGETING : Z;
  VEHICLE_MOUNT_MODE_GPS_POINT : Z;
  GIMBAL_MANAGER_FLAGS_RETRACT : Z;
  GIMBAL_MANAGER_FLAGS_NEUTRAL : Z;
  GIMBAL_MANAGER_FLAGS_ROLL_LOCK : Z;
  GIMBAL_MANAGER_FLAGS_PITCH_LOCK : Z;
  GIMBAL_MANAGER_FLAGS_YAW_LOCK : Z;
  GIMBAL_MANAGER_FLAGS_NUDGE : Z;
  GIMBAL_MANAGER_FLAGS_OVERRIDE : Z;
  GIMBAL_MANAGER_FLAGS_NONE : Z
}.

(** Library routines and declarations used by input_mavlink.cpp and defined
    elsewhere: conversions to integers (whose result C++ leaves open for
    NaN and for values out of range), libm, the geo and matrix libraries,
    [InputBase::control_data_set_lon_lat], the default arguments declared
    for the last two parameters of [_set_control_data_from_set_attitude],
    and what the bytes of a longitude and a latitude read as the angle
    payload: [aliased_angles lo la] as [angles[]] and [aliased_frames la]
    as [frames[]]. *)
Class Platform : Type := {
  float_to_int : float -> Z;
  double_to_uint32 : double -> Z;
  atan2f : float -> float -> float;
  sqrtf : float -> float;
  map_projection_reference_s : Type;
  map_projection_initialized : map_projection_reference_s -> bool;
  map_projection_init :
    map_projection_reference_s -> double -> double -> map_projection_reference_s;
  map_projection_project :
    map_projection_reference_s -> double -> double -> float * float;
  get_bearing_to_next_waypoint : double -> double -> double -> double -> float;
  wrap_pi : float -> float;
  euler_phi : quat -> float;
  euler_theta : quat -> float;
  euler_psi : quat -> float;
  control_data_set_lon_lat : ControlData -> double -> double -> float -> ControlData;
  aliased_angles : double -> double -> arr3 float;
  aliased_frames : double -> arr3 Frame;
  default_roll_angle : float;
  default_roll_rate : float
}.

(** [lonlat.lon = lo; lonlat.lat = la; lonlat.altitude = al]: the two
    numbers fill the bytes of the angle payload. *)
Definition set_lonlat_position {P : Platform} (cd : ControlData) (lo la : double)
  (al : float) : ControlData :=
  mkControlData (type cd) (aliased_angles lo la) (aliased_frames la)
    (Some lo) (Some la) al
    (roll_angle cd) (pitch_fixed_angle cd) (pitch_angle_offset cd)
    (yaw_angle_offset cd) (stabilize_axis cd) (gimbal_shutter_retract cd).


(** [(flags & mask) != 0] *)
Definition flag_set (flags mask : Z) : bool := negb (Z.land flags mask =? 0).

(** ** InputMavlinkROI *)

Module InputMavlinkROI.
Section WithPlatform.
Context {K : Constants} {P : Platform}.

Record State : Type := mkState {
  _control_data : ControlData;
  _cur_roi_mode : Z
}.

(** One answer of [px4_poll]: its return value, [errno], and for each of the
    two descriptors whether POLLIN is set; [orb_copy] reads [vehicle_roi]
    (present when POLLIN is set) and the current position setpoint. *)
Record Poll : Type := mkPoll {
  ret : Z;
  errno : Z;
  vehicle_roi : option vehicle_roi_s;
  position_setpoint_pollin : bool;
  position_setpoint_triplet : position_setpoint_s
}.

Definition _read_control_data_from_position_setpoint_sub
  (cd : ControlData) (sp : position_setpoint_s) : ControlData :=
  set_lonlat_position cd (sp_lon sp) (sp_lat sp) (sp_alt sp).

(** Lines 113-143: the [polls[0]] branch.  The flag says whether
    [*control_data] has been set. *)
Definition on_vehicle_roi (s : State) (roi : vehicle_roi_s) (sp : position_setpoint_s)
  : State * bool :=
  let cd := set_gimbal_shutter_retract (_control_data s) false in
  let '(cd, out) :=
    if roi_mode roi =? ROI_NONE then
      (set_type cd Neutral, true)
    else if roi_mode roi =? ROI_WPNEXT then
      let cd := set_type cd LonLat in
      let cd := _read_control_data_from_position_setpoint_sub cd sp in
      let cd := set_pitch_fixed_angle cd MINUS_TEN in
      let cd := set_roll_angle cd (roi_roll_offset roi) in
      let cd := set_pitch_angle_offset cd (roi_pitch_offset roi) in
      let cd := set_yaw_angle_offset cd (roi_yaw_offset roi) in
      (cd, true)
    else if roi_mode roi =? ROI_LOCATION then
      (control_data_set_lon_lat cd (roi_lon roi) (roi_lat roi) (roi_alt roi), true)
    else
      (cd, false) in
  (mkState cd (roi_mode roi), out).

(** Lines 147-156: the [polls[1]] branch. *)
Definition on_position_setpoint (s : State) (out : bool) (sp : position_setpoint_s)
  : State * bool :=
  if _cur_roi_mode s =? ROI_WPNEXT then
    (mkState (_read_control_data_from_position_setpoint_sub (_control_data s) sp)
       (_cur_roi_mode s), true)
  else (s, out).

(** [update_impl]: the return value, whether [*control_data] is set, and
    the new state. *)
Definition update_impl (s : State) (timeout_ms : Z) (p : Poll) : Z * bool * State :=
  if ret p <? 0 then (- errno p, false, s)
  else if ret p =? 0 then (0, false, s)
  else
    let '(s, out) :=
      match vehicle_roi p with
      | Some roi => on_vehicle_roi s roi (position_setpoint_triplet p)
      | None => (s, false)
      end in
    let '(s, out) :=
      if position_setpoint_pollin p
      then on_position_setpoint s out (position_setpoint_triplet p)
      else (s, out) in
    (0, out, s).

(** The poll makes the adapter handle an ROI event. *)
Definition roi_event (p : Poll) : bool :=
  (0 <? ret p) && match vehicle_roi p with Some _ => true | None => false end.

End WithPlatform.
End InputMavlinkROI.

(** ** InputMavlinkCmdMount *)

Module InputMavlinkCmdMount.
Section WithPlatform.
Context {K : Constants} {P : Platform}.

Record State : Type := mkState {
  _control_data : ControlData;
  _mav_sys_id : Z;
  _mav_comp_id : Z
}.

(** One answer of [px4_poll]: the microseconds it took on the [hrt] clock,
    its return value, [errno], and the command [orb_copy] reads when POLLIN
    is set on the only descriptor. *)
Record Poll : Type := mkPoll {
  elapsed_us : Z;
  ret : Z;
  errno : Z;
  vehicle_command : option vehicle_command_s
}.

(** The outcome of [update_impl]: the return value, whether
    [*control_data] is set, the state, the acknowledgements published, and
    the answers of the environment that were not asked for. *)
Record Result : Type := mkResult {
  r_ret : Z;
  r_control_data : bool;
  r_state : State;
  r_acks : list vehicle_command_ack_s;
  r_pending : list Poll
}.

Definition _ack_vehicle_command (cmd : vehicle_command_s) : vehicle_command_ack_s :=
  mk_vehicle_command_ack (command cmd) VEHICLE_CMD_RESULT_ACCEPTED
    (source_system cmd) (source_component cmd).

(** Lines 251-253. *)
Definition sysid_correct (s : State) (cmd : vehicle_command_s) : bool :=
  target_system cmd =? _mav_sys_id s.

Definition compid_correct (s : State) (cmd : vehicle_command_s) : bool :=
  (target_component cmd =? _mav_comp_id s) || (target_component cmd =? 0).

(** Lines 288-291: [if (yaw > M_PI_F) yaw -= 2 * M_PI_F]. *)
Definition yaw_to_pi_range (yaw : float) : float :=
  if fgt yaw M_PI_F then fsub yaw TWO_PI_F else yaw.

(** Lines 264-304: the [switch] over [(int)param7]; the case labels of a
    [switch] are pairwise different, so testing them in order selects the
    same case.  The flag says whether [*control_data] is set. *)
Definition do_mount_control (cd : ControlData) (out : bool) (cmd : vehicle_command_s)
  : ControlData * bool :=
  let mode := float_to_int (param7 cmd) in
  if mode =? VEHICLE_MOUNT_MODE_RETRACT then
    (set_type (set_gimbal_shutter_retract cd true) Neutral, true)
  else if mode =? VEHICLE_MOUNT_MODE_NEUTRAL then
    (set_type cd Neutral, true)
  else if mode =? VEHICLE_MOUNT_MODE_MAVLINK_TARGETING then
    let cd := set_type cd Angle in
    let cd := set_frame cd 0 AngleBodyFrame in
    let cd := set_frame cd 1 AngleBodyFrame in
    let cd := set_frame cd 2 AngleBodyFrame in
    let cd := set_angle cd 0 (fmul (param2 cmd) M_DEG_TO_RAD_F) in
    let cd := set_angle cd 1 (fmul (param1 cmd) M_DEG_TO_RAD_F) in
    let cd := set_angle cd 2 (fmul (param3 cmd) M_DEG_TO_RAD_F) in
    let cd := set_angle cd 2 (yaw_to_pi_range (get3 (angles cd) 2)) in
    (cd, true)
  else if mode =? VEHICLE_MOUNT_MODE_RC_TARGETING then
    (cd, out)
  else if mode =? VEHICLE_MOUNT_MODE_GPS_POINT then
    (control_data_set_lon_lat cd (param6 cmd) (param5 cmd) (param4 cmd), true)
  else
    (cd, out).

(** Lines 323-339: the frame selected by one rounded parameter. *)
Definition frame_of_param (p : Z) : Frame :=
  if p =? 0 then AngleBodyFrame
  else if p =? 1 then AngularRate
  else if p =? 2 then AngleAbsoluteFrame
  else AngleBodyFrame.

(** Lines 310-344. *)
Definition do_mount_configure (cd : ControlData) (cmd : vehicle_command_s) : ControlData :=
  let cd := set_stabilize_axis cd
    (mk3 (float_to_int (fadd (param2 cmd) HALF) =? 1)
         (float_to_int (fadd (param3 cmd) HALF) =? 1)
         (float_to_int (fadd (param4 cmd) HALF) =? 1)) in
  let params0 := float_to_int (fadd (F64.to_float (param5 cmd)) HALF) in
  let params1 := float_to_int (fadd (F64.to_float (param6 cmd)) HALF) in
  let params2 := float_to_int (fadd (param7 cmd) HALF) in
  let cd := set_frame cd 0 (frame_of_param params0) in
  let cd := set_frame cd 1 (frame_of_param params1) in
  let cd := set_frame cd 2 (frame_of_param params2) in
  set_type cd Neutral.

(** Lines 228-353: the [while] loop, one answer of the environment per
    iteration.  [None]: the environment has no answer left for a poll the
    loop asks for. *)
Fixpoint update_loop (env : list Poll) (s : State) (poll_timeout : Z) (out : bool)
  (acks : list vehicle_command_ack_s) : option Result :=
  if poll_timeout <? 0 then Some (mkResult 0 out s acks env)
  else
    match env with
    | [] => None
    | p :: env' =>
        if ret p <? 0 then Some (mkResult (- errno p) out s acks env')
        else
          let poll_timeout := to_int32 (poll_timeout - (elapsed_us p mod 2 ^ 64) / 1000) in
          if ret p =? 0 then Some (mkResult 0 out s acks env')
          else
            match vehicle_command p with
            | None => Some (mkResult 0 out s acks env')
            | Some cmd =>
                if negb (sysid_correct s cmd) || negb (compid_correct s cmd) then
                  update_loop env' s poll_timeout out acks
                else
                  let cd := set_gimbal_shutter_retract (_control_data s) false in
                  if command cmd =? VEHICLE_CMD_DO_MOUNT_CONTROL then
                    let '(cd, out) := do_mount_control cd out cmd in
                    Some (mkResult 0 out (mkState cd (_mav_sys_id s) (_mav_comp_id s))
                            (acks ++ [_ack_vehicle_command cmd]) env')
                  else if command cmd =? VEHICLE_CMD_DO_MOUNT_CONFIGURE then
                    let cd := do_mount_configure cd cmd in
                    Some (mkResult 0 true (mkState cd (_mav_sys_id s) (_mav_comp_id s))
                            (acks ++ [_ack_vehicle_command cmd]) env')
                  else
                    update_loop env' (mkState cd (_mav_sys_id s) (_mav_comp_id s))
                      poll_timeout out acks
            end
    end.

(** [update_impl]: [*control_data = nullptr], [poll_timeout = (int)timeout_ms],
    then the loop. *)
Definition update_impl (s : State) (timeout_ms : Z) (env : list Poll) : option Result :=
  update_loop env s (to_int32 timeout_ms) false [].

(** The time left after a poll (line 237). *)
Definition remaining (poll_timeout : Z) (p : Poll) : Z :=
  to_int32 (poll_timeout - (elapsed_us p mod 2 ^ 64) / 1000).

(** A command is addressed to the adapter (lines 251-253). *)
Definition addressed (s : State) (cmd : vehicle_command_s) : Prop :=
  target_system cmd = _mav_sys_id s
  /\ (target_component cmd = _mav_comp_id s \/ target_component cmd = 0).

(** The case labels of the [switch] over the mount mode are pairwise
    different (C++ rejects a [switch] otherwise). *)
Definition mount_modes_distinct : Prop :=
  NoDup [VEHICLE_MOUNT_MODE_RETRACT; VEHICLE_MOUNT_MODE_NEUTRAL;
         VEHICLE_MOUNT_MODE_MAVLINK_TARGETING; VEHICLE_MOUNT_MODE_RC_TARGETING;
         VEHICLE_MOUNT_MODE_GPS_POINT].

End WithPlatform.
End InputMavlinkCmdMount.

(** ** InputMavlinkGimbalV2 *)

Module InputMavlinkGimbalV2.
Section WithPlatform.
Context {K : Constants} {P : Platform}.

Record State : Type := mkState {
  _control_data : ControlData;
  _mav_sys_id : Z;
  _mav_comp_id : Z;
  _projection_reference : map_projection_reference_s;
  _cur_roi_mode : Z;
  _is_roi_set : bool;
  _gimbal_device_attitude_status : Z
}.

Definition with_control_data (s : State) (cd : ControlData) : State :=
  mkState cd (_mav_sys_id s) (_mav_comp_id s) (_projection_reference s)
    (_cur_roi_mode s) (_is_roi_set s) (_gimbal_device_attitude_status s).

Definition with_roi (s : State) (mode : Z) (is_set : bool) : State :=
  mkState (_control_data s) (_mav_sys_id s) (_mav_comp_id s) (_projection_reference s)
    mode is_set (_gimbal_device_attitude_status s).

(** One answer of [px4_poll] on the four descriptors: the microseconds it
    took, its return value, [errno], the message read on each descriptor
    whose POLLIN is set, and what the two topics that are copied without
    being polled hold at that moment. *)
Record Poll : Type := mkPoll {
  elapsed_us : Z;
  ret : Z;
  errno : Z;
  gimbal_manager_set_attitude : option gimbal_manager_set_attitude_s;
  vehicle_roi : option vehicle_roi_s;
  position_setpoint_pollin : bool;
  position_setpoint_triplet : position_setpoint_s;
  vehicle_command : option vehicle_command_s;
  vehicle_global_position : vehicle_global_position_s
}.

Record Result : Type := mkResult {
  r_ret : Z;
  r_control_data : bool;
  r_state : State;
  r_acks : list vehicle_command_ack_s;
  r_status : gimbal_manager_status_s;
  r_pending : list Poll
}.

Definition _ack_vehicle_command (cmd : vehicle_command_s) : vehicle_command_ack_s :=
  mk_vehicle_command_ack (command cmd) VEHICLE_CMD_RESULT_ACCEPTED
    (source_system cmd) (source_component cmd).

(** Lines 695-710.  The projection reference is initialised on the first
    call and kept afterwards. *)
Definition _calculate_pitch (ref : map_projection_reference_s)
  (lo la : double) (alt : float) (global_position : vehicle_global_position_s)
  : map_projection_reference_s * float :=
  let ref :=
    if map_projection_initialized ref then ref
    else map_projection_init ref (gpos_lat global_position) (gpos_lon global_position) in
  let '(x1, y1) := map_projection_project ref la lo in
  let '(x2, y2) :=
    map_projection_project ref (gpos_lat global_position) (gpos_lon global_position) in
  let dx := fsub x1 x2 in
  let dy := fsub y1 y2 in
  let target_distance := sqrtf (fadd (fmul dx dx) (fmul dy dy)) in
  let z := fsub alt (gpos_alt global_position) in
  (ref, atan2f z target_distance).

(** Lines 661-693. *)
Definition _transform_lon_lat_to_angle (s : State)
  (vehicle_global_position : vehicle_global_position_s)
  (roi_lon roi_lat roi_alt : double) : State :=
  let vlat := gpos_lat vehicle_global_position in
  let vlon := gpos_lon vehicle_global_position in
  let cd := _control_data s in
  let cd := set_type cd Angle in
  let cd := set_frame cd 0 AngleBodyFrame in
  let cd := set_frame cd 1 AngleBodyFrame in
  let cd := set_frame cd 2 AngleBodyFrame in
  let cd := set_angle cd 0 zero in
  let '(ref, pitch) :=
    if fge (pitch_fixed_angle cd) (fneg M_PI_F)
    then (_projection_reference s, pitch_fixed_angle cd)
    else _calculate_pitch (_projection_reference s) roi_lon roi_lat
           (F64.to_float roi_alt) vehicle_global_position in
  let cd := set_angle cd 1 pitch in
  let cd := set_angle cd 2
    (fsub (get_bearing_to_next_waypoint vlat vlon roi_lat roi_lon)
          (gpos_yaw vehicle_global_position)) in
  let cd := set_angle cd 1 (fadd (get3 (angles cd) 1) (pitch_angle_offset cd)) in
  let cd := set_angle cd 2 (fadd (get3 (angles cd) 2) (yaw_angle_offset cd)) in
  let cd := set_angle cd 2 (wrap_pi (get3 (angles cd) 2)) in
  mkState cd (_mav_sys_id s) (_mav_comp_id s) ref
    (_cur_roi_mode s) (_is_roi_set s) (_gimbal_device_attitude_status s).

(** Lines 733-756: type, body frames, and the three angle values (added to
    the present ones for a nudge on a set target, stored otherwise; stored
    again for an override on a set target). *)
Definition assign_angles (is_roi_set : bool) (cd : ControlData) (flags : Z)
  (pitch_angle yaw_angle roll_angle : float) : ControlData :=
  let cd := set_type cd Angle in
  let cd := set_frame cd 0 AngleBodyFrame in
  let cd := set_frame cd 1 AngleBodyFrame in
  let cd := set_frame cd 2 AngleBodyFrame in
  let cd :=
    if is_roi_set && flag_set flags GIMBAL_MANAGER_FLAGS_NUDGE then
      let cd := set_angle cd 0 (fadd (get3 (angles cd) 0) pitch_angle) in
      let cd := set_angle cd 1 (fadd (get3 (angles cd) 1) roll_angle) in
      set_angle cd 2 (fadd (get3 (angles cd) 2) yaw_angle)
    else
      let cd := set_angle cd 0 pitch_angle in
      let cd := set_angle cd 1 roll_angle in
      set_angle cd 2 yaw_angle in
  if is_roi_set && flag_set flags GIMBAL_MANAGER_FLAGS_OVERRIDE then
    let cd := set_angle cd 0 pitch_angle in
    let cd := set_angle cd 1 roll_angle in
    set_angle cd 2 yaw_angle
  else cd.

(** Lines 758-771: a finite rate replaces the value of its axis. *)
Definition apply_rates (cd : ControlData) (pitch_rate yaw_rate roll_rate : float)
  : ControlData :=
  let cd :=
    if PX4_ISFINITE roll_rate
    then set_angle (set_frame cd 0 AngularRate) 0 roll_rate else cd in
  let cd :=
    if PX4_ISFINITE pitch_rate
    then set_angle (set_frame cd 1 AngularRate) 1 pitch_rate else cd in
  if PX4_ISFINITE yaw_rate
  then set_angle (set_frame cd 2 AngularRate) 2 yaw_rate else cd.

(** Lines 773-784: a lock flag makes the frame of its axis absolute. *)
Definition apply_locks (cd : ControlData) (flags : Z) : ControlData :=
  let cd :=
    if flag_set flags GIMBAL_MANAGER_FLAGS_ROLL_LOCK
    then set_frame cd 0 AngleAbsoluteFrame else cd in
  let cd :=
    if flag_set flags GIMBAL_MANAGER_FLAGS_PITCH_LOCK
    then set_frame cd 1 AngleAbsoluteFrame else cd in
  if flag_set flags GIMBAL_MANAGER_FLAGS_YAW_LOCK
  then set_frame cd 2 AngleAbsoluteFrame else cd.

(** Lines 721-786. *)
Definition _set_control_data_from_set_attitude (is_roi_set : bool) (cd : ControlData)
  (flags : Z) (pitch_angle pitch_rate yaw_angle yaw_rate roll_angle roll_rate : float)
  : ControlData :=
  if flag_set flags GIMBAL_MANAGER_FLAGS_RETRACT then cd
  else if flag_set flags GIMBAL_MANAGER_FLAGS_NEUTRAL then set_type cd Neutral
  else if flag_set flags GIMBAL_MANAGER_FLAGS_NONE then cd
  else
    apply_locks
      (apply_rates (assign_angles is_roi_set cd flags pitch_angle yaw_angle roll_angle)
         pitch_rate yaw_rate roll_rate)
      flags.

(** What one iteration of the loop hands to the next: the state, whether
    [*control_data] is set, the acknowledgements, and [exit_loop]. *)
Record Iter : Type := mkIter {
  i_state : State;
  i_control_data : bool;
  i_acks : list vehicle_command_ack_s;
  i_exit_loop : bool
}.

(** Lines 559-570: the [polls[0]] branch. *)
Definition on_set_attitude (it : Iter) (set_attitude : gimbal_manager_set_attitude_s)
  : Iter :=
  let s := i_state it in
  let pitch := euler_phi (sa_q set_attitude) in
  let roll := euler_theta (sa_q set_attitude) in
  let yaw := euler_psi (sa_q set_attitude) in
  let cd :=
    _set_control_data_from_set_attitude (_is_roi_set s) (_control_data s)
      (sa_flags set_attitude) pitch (angular_velocity_y set_attitude) yaw
      (angular_velocity_z set_attitude) roll (angular_velocity_x set_attitude) in
  mkIter (with_control_data s cd) true (i_acks it) (i_exit_loop it).

(** Lines 572-614: the [polls[1]] branch. *)
Definition on_vehicle_roi (it : Iter) (roi : vehicle_roi_s)
  (sp : position_setpoint_s) (gpos : vehicle_global_position_s) : Iter :=
  let s := i_state it in
  let s := with_control_data s (set_gimbal_shutter_retract (_control_data s) false) in
  if roi_mode roi =? ROI_NONE then
    let s := with_control_data s (set_type (_control_data s) Neutral) in
    mkIter (with_roi s (roi_mode roi) false) true (i_acks it) (i_exit_loop it)
  else if roi_mode roi =? ROI_WPNEXT then
    let cd := _control_data s in
    let cd := set_pitch_fixed_angle cd MINUS_TEN in
    let cd := set_roll_angle cd (roi_roll_offset roi) in
    let cd := set_pitch_angle_offset cd (roi_pitch_offset roi) in
    let cd := set_yaw_angle_offset cd (roi_yaw_offset roi) in
    let s := with_control_data s cd in
    let s := _transform_lon_lat_to_angle s gpos (sp_lon sp) (sp_lat sp)
               (F64.of_float (sp_alt sp)) in
    mkIter (with_roi s (roi_mode roi) true) true (i_acks it) (i_exit_loop it)
  else if roi_mode roi =? ROI_LOCATION then
    let s := _transform_lon_lat_to_angle s gpos (roi_lon roi) (roi_lat roi)
               (F64.of_float (roi_alt roi)) in
    mkIter (with_roi s (roi_mode roi) true) true (i_acks it) (i_exit_loop it)
  else
    mkIter s (i_control_data it) (i_acks it) false.

(** Lines 617-629: the [polls[2]] branch. *)
Definition on_position_setpoint (it : Iter)
  (sp : position_setpoint_s) (gpos : vehicle_global_position_s) : Iter :=
  let s := i_state it in
  if _cur_roi_mode s =? ROI_WPNEXT then
    let s := _transform_lon_lat_to_angle s gpos (sp_lon sp) (sp_lat sp)
               (F64.of_float (sp_alt sp)) in
    mkIter s true (i_acks it) (i_exit_loop it)
  else
    mkIter s (i_control_data it) (i_acks it) false.

(** Lines 636-638. *)
Definition sysid_correct (s : State) (cmd : vehicle_command_s) : bool :=
  (target_system cmd =? _mav_sys_id s) || (target_system cmd =? 0).

Definition compid_correct (s : State) (cmd : vehicle_command_s) : bool :=
  (target_component cmd =? _mav_comp_id s) || (target_component cmd =? 0).

(** Lines 631-654: the [polls[3]] branch.  It is the last one of the
    iteration, so its [continue] comes to leaving [exit_loop] false. *)
Definition on_vehicle_command (it : Iter) (cmd : vehicle_command_s) : Iter :=
  let s := i_state it in
  if negb (sysid_correct s cmd) || negb (compid_correct s cmd) then
    mkIter s (i_control_data it) (i_acks it) false
  else if command cmd =? VEHICLE_CMD_DO_GIMBAL_MANAGER_ATTITUDE then
    let cd :=
      _set_control_data_from_set_attitude (_is_roi_set s) (_control_data s)
        (to_uint32 (double_to_uint32 (param5 cmd)))
        (param3 cmd) (param1 cmd) (param3 cmd) (param2 cmd)
        default_roll_angle default_roll_rate in
    mkIter (with_control_data s cd) true
      (i_acks it ++ [_ack_vehicle_command cmd]) (i_exit_loop it)
  else
    mkIter s (i_control_data it) (i_acks it) false.

(** Lines 559-654: the four branches of one iteration whose poll returned
    a positive value; [exit_loop] is true when they start. *)
Definition on_poll (s : State) (out : bool) (acks : list vehicle_command_ack_s)
  (p : Poll) : Iter :=
  let it := mkIter s out acks true in
  let it :=
    match gimbal_manager_set_attitude p with
    | Some sa => on_set_attitude it sa
    | None => it
    end in
  let it :=
    match vehicle_roi p with
    | Some roi =>
        on_vehicle_roi it roi (position_setpoint_triplet p) (vehicle_global_position p)
    | None => it
    end in
  let it :=
    if position_setpoint_pollin p
    then on_position_setpoint it (position_setpoint_triplet p) (vehicle_global_position p)
    else it in
  match vehicle_command p with
  | Some cmd => on_vehicle_command it cmd
  | None => it
  end.

(** Lines 541-656: the [while] loop. *)
Fixpoint update_loop (env : list Poll) (status : gimbal_manager_status_s)
  (s : State) (poll_timeout : Z) (out : bool)
  (acks : list vehicle_command_ack_s) : option Result :=
  if poll_timeout <? 0 then Some (mkResult 0 out s acks status env)
  else
    match env with
    | [] => None
    | p :: env' =>
        if ret p <? 0 then Some (mkResult (- errno p) out s acks status env')
        else
          let poll_timeout := to_int32 (poll_timeout - (elapsed_us p mod 2 ^ 64) / 1000) in
          if ret p =? 0 then Some (mkResult 0 out s acks status env')
          else
            let it := on_poll s out acks p in
            if i_exit_loop it
            then Some (mkResult 0 (i_control_data it) (i_state it) (i_acks it) status env')
            else update_loop env' status (i_state it) poll_timeout
                   (i_control_data it) (i_acks it)
    end.

(** Lines 458-471: the device status is copied when the topic has an
    update, and the manager status is published. *)
Definition _stream_gimbal_manager_status (s : State) (device_flags : option Z)
  : State * gimbal_manager_status_s :=
  let flags :=
    match device_flags with
    | Some f => f
    | None => _gimbal_device_attitude_status s
    end in
  (mkState (_control_data s) (_mav_sys_id s) (_mav_comp_id s) (_projection_reference s)
     (_cur_roi_mode s) (_is_roi_set s) flags,
   mk_manager_status flags 0).

Definition update_impl (s : State) (device_flags : option Z) (timeout_ms : Z)
  (env : list Poll) : option Result :=
  let '(s, status) := _stream_gimbal_manager_status s device_flags in
  update_loop env status s (to_int32 timeout_ms) false [].

(** An attitude-set event that asks for a nudge only: the nudge flag and
    none of retract, neutral, none and override, and no finite rate. *)
Definition nudge_only (sa : gimbal_manager_set_attitude_s) : Prop :=
  flag_set (sa_flags sa) GIMBAL_MANAGER_FLAGS_NUDGE = true
  /\ flag_set (sa_flags sa) GIMBAL_MANAGER_FLAGS_RETRACT = false
  /\ flag_set (sa_flags sa) GIMBAL_MANAGER_FLAGS_NEUTRAL = false
  /\ flag_set (sa_flags sa) GIMBAL_MANAGER_FLAGS_NONE = false
  /\ flag_set (sa_flags sa) GIMBAL_MANAGER_FLAGS_OVERRIDE = false
  /\ PX4_ISFINITE (angular_velocity_x sa) = false
  /\ PX4_ISFINITE (angular_velocity_y sa) = false
  /\ PX4_ISFINITE (angular_velocity_z sa) = false.

(** A poll that delivers an attitude-set event and nothing else. *)
Definition attitude_only (p : Poll) (sa : gimbal_manager_set_attitude_s) : Prop :=
  0 < ret p
  /\ gimbal_manager_set_attitude p = Some sa
  /\ vehicle_roi p = None
  /\ position_setpoint_pollin p = false
  /\ vehicle_command p = None.

(** A command is addressed to the adapter (lines 636-638). *)
Definition addressed (s : State) (cmd : vehicle_command_s) : Prop :=
  (target_system cmd = _mav_sys_id s \/ target_system cmd = 0)
  /\ (target_component cmd = _mav_comp_id s \/ target_component cmd = 0).

(** The ROI mode an event makes the adapter accept, if any: one of the
    three the adapter acts on. *)
Definition accepted_mode (roi : vehicle_roi_s) : option Z :=
  if (roi_mode roi =? ROI_NONE) || (roi_mode roi =? ROI_WPNEXT)
     || (roi_mode roi =? ROI_LOCATION)
  then Some (roi_mode roi) else None.

(** The poll makes the adapter handle an ROI event, of whatever mode. *)
Definition roi_event (p : Poll) : bool :=
  (0 <? ret p) && match vehicle_roi p with Some _ => true | None => false end.

(** The ROI mode a poll makes the adapter accept, if any: the poll
    returned a positive value with POLLIN on the ROI descriptor. *)
Definition accepted_roi (p : Poll) : option Z :=
  if 0 <? ret p then
    match vehicle_roi p with
    | Some roi => accepted_mode roi
    | None => None
    end
  else None.

(** The mode of the most recently accepted ROI event of a run of polls,
    [fallback] when there is none. *)
Fixpoint last_accepted_roi (fallback : option Z) (ps : list Poll) : option Z :=
  match ps with
  | [] => fallback
  | p :: ps' =>
      last_accepted_roi
        (match accepted_roi p with Some m => Some m | None => fallback end) ps'
  end.

(** The part of the state the invariants are about. *)
Definition same_roi_state (s s' : State) : Prop :=
  gimbal_shutter_retract (_control_data s') = gimbal_shutter_retract (_control_data s)
  /\ _cur_roi_mode s' = _cur_roi_mode s
  /\ _is_roi_set s' = _is_roi_set s.

(** Modelled from the spec: the members [_cur_roi_mode] and [_is_roi_set]
    are declared, with their initial values, in a header that is not part
    of the sources at hand; by section 3 of the specification both are
    reset only by a "no ROI" event, so a fresh adapter has no target.  The
    states of an adapter's life: a fresh one, and those its updates lead
    to. *)
Inductive reachable : State -> Prop :=
| reachable_fresh (s : State) :
    _is_roi_set s = false -> _cur_roi_mode s = ROI_NONE -> reachable s
| reachable_update (s : State) (device_flags : option Z) (timeout_ms : Z)
    (env : list Poll) (r : Result) :
    reachable s -> update_impl s device_flags timeout_ms env = Some r ->
    reachable (r_state r).

End WithPlatform.
End InputMavlinkGimbalV2.

(** ** Subscriptions: [initialize] and the destructors *)

(** The topics the adapters subscribe to with [orb_subscribe]. *)
Inductive Topic : Type :=
| ORB_vehicle_roi
| ORB_position_setpoint_triplet
| ORB_gimbal_manager_set_attitude
| ORB_vehicle_command.

(** What [orb_subscribe] answers: the descriptor, negative when the call
    failed, and the value [errno] has after the call. *)
Record Subscribed : Type := mkSubscribed { sub_fd : Z; sub_errno : Z }.

(** The uORB calls of [initialize] and of the destructors, in the order
    they are made. *)
Inductive OrbCall : Type :=
| orb_subscribe (t : Topic)
| orb_set_interval (fd : Z) (interval_ms : Z)
| orb_unsubscribe (fd : Z).

(** The descriptors of [InputMavlinkROI]. *)
Module ROIHandles.

Record Handles : Type := mkHandles {
  _vehicle_roi_sub : Z;
  _position_setpoint_triplet_sub : Z
}.

(** Lines 71-86: the return value, the descriptors, and the calls made. *)
Definition initialize (orb : Topic -> Subscribed) (h : Handles)
  : Z * Handles * list OrbCall :=
  let roi := orb ORB_vehicle_roi in
  let h := mkHandles (sub_fd roi) (_position_setpoint_triplet_sub h) in
  let calls := [orb_subscribe ORB_vehicle_roi] in
  if _vehicle_roi_sub h <? 0 then (- sub_errno roi, h, calls)
  else
    let triplet := orb ORB_position_setpoint_triplet in
    let h := mkHandles (_vehicle_roi_sub h) (sub_fd triplet) in
    let calls := calls ++ [orb_subscribe ORB_position_setpoint_triplet] in
    if _position_setpoint_triplet_sub h <? 0 then (- sub_errno triplet, h, calls)
    else (0, h, calls).

(** Lines 60-69. *)
Definition destructor (h : Handles) : list OrbCall :=
  (if 0 <=? _vehicle_roi_sub h
   then [orb_unsubscribe (_vehicle_roi_sub h)] else [])
  ++ (if 0 <=? _position_setpoint_triplet_sub h
      then [orb_unsubscribe (_position_setpoint_triplet_sub h)] else []).

End ROIHandles.

(** The descriptor of [InputMavlinkCmdMount]. *)
Module CmdMountHandles.

Record Handles : Type := mkHandles {
  _vehicle_command_sub : Z
}.

(** Lines 199-211. *)
Definition initialize (orb : Topic -> Subscribed) (h : Handles)
  : Z * Handles * list OrbCall :=
  let command := orb ORB_vehicle_command in
  let h := mkHandles (sub_fd command) in
  let calls := [orb_subscribe ORB_vehicle_command] in
  if _vehicle_command_sub h <? 0 then (- sub_errno command, h, calls)
  else (0, h, calls ++ [orb_set_interval (_vehicle_command_sub h) 10]).

(** Lines 192-197. *)
Definition destructor (h : Handles) : list OrbCall :=
  if 0 <=? _vehicle_command_sub h
  then [orb_unsubscribe (_vehicle_command_sub h)] else [].

End CmdMountHandles.

(** The descriptors of [InputMavlinkGimbalV2]. *)
Module GimbalV2Handles.

Record Handles : Type := mkHandles {
  _vehicle_roi_sub : Z;
  _position_setpoint_triplet_sub : Z;
  _gimbal_manager_set_attitude_sub : Z;
  _vehicle_command_sub : Z
}.

(** Lines 426-456. *)
Definition initialize (orb : Topic -> Subscribed) (h : Handles)
  : Z * Handles * list OrbCall :=
  let roi := orb ORB_vehicle_roi in
  let h := mkHandles (sub_fd roi) (_position_setpoint_triplet_sub h)
             (_gimbal_manager_set_attitude_sub h) (_vehicle_command_sub h) in
  let calls := [orb_subscribe ORB_vehicle_roi] in
  if _vehicle_roi_sub h <? 0 then (- sub_errno roi, h, calls)
  else
    let triplet := orb ORB_position_setpoint_triplet in
    let h := mkHandles (_vehicle_roi_sub h) (sub_fd triplet)
               (_gimbal_manager_set_attitude_sub h) (_vehicle_command_sub h) in
    let calls := calls ++ [orb_subscribe ORB_position_setpoint_triplet] in
    if _position_setpoint_triplet_sub h <? 0 then (- sub_errno triplet, h, calls)
    else
      let attitude := orb ORB_gimbal_manager_set_attitude in
      let h := mkHandles (_vehicle_roi_sub h) (_position_setpoint_triplet_sub h)
                 (sub_fd attitude) (_vehicle_command_sub h) in
      let calls := calls ++ [orb_subscribe ORB_gimbal_manager_set_attitude] in
      if _gimbal_manager_set_attitude_sub h <? 0 then (- sub_errno attitude, h, calls)
      else
        let command := orb ORB_vehicle_command in
        let h := mkHandles (_vehicle_roi_sub h) (_position_setpoint_triplet_sub h)
                   (_gimbal_manager_set_attitude_sub h) (sub_fd command) in
        let calls := calls ++ [orb_subscribe ORB_vehicle_command] in
        if _vehicle_command_sub h <? 0 then (- sub_errno command, h, calls)
        else (0, h, calls ++ [orb_set_interval (_vehicle_command_sub h) 10]).

(** Lines 401-418. *)
Definition destructor (h : Handles) : list OrbCall :=
  (if 0 <=? _vehicle_roi_sub h
   then [orb_unsubscribe (_vehicle_roi_sub h)] else [])
  ++ (if 0 <=? _position_setpoint_triplet_sub h
      then [orb_unsubscribe (_position_setpoint_triplet_sub h)] else [])
  ++ (if 0 <=? _gimbal_manager_set_attitude_sub h
      then [orb_unsubscribe (_gimbal_manager_set_attitude_sub h)] else [])
  ++ (if 0 <=? _vehicle_command_sub h
      then [orb_unsubscribe (_vehicle_command_sub h)] else []).

End GimbalV2Handles.

(** The topics [initialize] gets to, given the answers of [orb_subscribe]:
    it stops behind the first subscription that fails. *)
Fixpoint attempted (orb : Topic -> Subscribed) (topics : list Topic) : list Topic :=
  match topics with
  | [] => []
  | t :: topics' =>
      t :: (if sub_fd (orb t) <? 0 then [] else attempted orb topics')
  end.

(** The descriptors a run of calls has obtained, and those it has given
    back. *)
Definition acquired (orb : Topic -> Subscribed) (calls : list OrbCall) : list Z :=
  flat_map (fun c =>
              match c with
              | orb_subscribe t =>
                  if 0 <=? sub_fd (orb t) then [sub_fd (orb t)] else []
              | _ => []
              end) calls.

Definition released (calls : list OrbCall) : list Z :=
  flat_map (fun c =>
              match c with
              | orb_unsubscribe fd => [fd]
              | _ => []
              end) calls.

(** ** The request for the gimbal device information *)

(** The constants of the generated message headers that only the request
    uses. *)
Class RequestConstants : Type := {
  VEHICLE_CMD_REQUEST_MESSAGE : Z;
  VEHICLE_CMD_GIMBAL_DEVICE_INFORMATION : Z
}.

(** A command as the adapter publishes it: the fields of [vehicle_command_s]
    listed above and the two the request sets besides; the time stamp is
    the clock's and is left out. *)
Record vehicle_command_published : Type := mk_vehicle_command_published {
  published_command : vehicle_command_s;
  confirmation : Z;
  from_external : bool
}.

(** Lines 502-517: [vehicle_cmd{}] starts out with every field zero. *)
Definition _request_gimbal_device_information {K : Constants} {P : Platform}
  {R : RequestConstants} (s : InputMavlinkGimbalV2.State)
  : vehicle_command_published :=
  mk_vehicle_command_published
    (mk_vehicle_command VEHICLE_CMD_REQUEST_MESSAGE
       (of_Z VEHICLE_CMD_GIMBAL_DEVICE_INFORMATION) zero zero zero
       (S754_zero false) (S754_zero false) zero
       0 0 (InputMavlinkGimbalV2._mav_sys_id s) (InputMavlinkGimbalV2._mav_comp_id s))
    0 false.

(** ** Notions used by the statements about the polling loops *)

(** Two records that differ at most in the type, the angles and the
    frames, the longitude and the latitude of the second being those of
    the first unless they are overwritten. *)
Definition same_payload (cd cd' : ControlData) : Prop :=
  (lon cd' = lon cd \/ lon cd' = None)
  /\ (lat cd' = lat cd \/ lat cd' = None)
  /\ altitude cd' = altitude cd
  /\ roll_angle cd' = roll_angle cd
  /\ pitch_fixed_angle cd' = pitch_fixed_angle cd
  /\ pitch_angle_offset cd' = pitch_angle_offset cd
  /\ yaw_angle_offset cd' = yaw_angle_offset cd
  /\ stabilize_axis cd' = stabilize_axis cd
  /\ gimbal_shutter_retract cd' = gimbal_shutter_retract cd.

(** A poll that takes at least a millisecond, and at most as long as the
    32-bit budget can hold. *)
Definition takes_a_millisecond (elapsed_us : Z) : Prop :=
  1000 <= elapsed_us <= 2 ^ 31 * 1000.

(** A poll that returns within a millisecond. *)
Definition within_a_millisecond (elapsed_us : Z) : Prop :=
  0 <= elapsed_us < 1000.

Module CmdMountPolls.
Section WithPlatform.
Context {K : Constants} {P : Platform}.
Import InputMavlinkCmdMount.

(** A poll that delivers a command for somebody else. *)
Definition for_somebody_else (s : State) (p : Poll) : Prop :=
  0 < ret p
  /\ exists cmd, vehicle_command p = Some cmd
                 /\ negb (sysid_correct s cmd) || negb (compid_correct s cmd) = true.

End WithPlatform.
End CmdMountPolls.

Module GimbalV2Polls.
Section WithPlatform.
Context {K : Constants} {P : Platform}.
Import InputMavlinkGimbalV2.

(** A poll that delivers nothing but a command for somebody else. *)
Definition for_somebody_else (s : State) (p : Poll) : Prop :=
  0 < ret p
  /\ gimbal_manager_set_attitude p = None
  /\ vehicle_roi p = None
  /\ position_setpoint_pollin p = false
  /\ exists cmd, vehicle_command p = Some cmd
                 /\ negb (sysid_correct s cmd) || negb (compid_correct s cmd) = true.

(** The acknowledgement a poll makes the adapter publish, if any: the
    poll returned a positive value with a [DO_GIMBAL_MANAGER_ATTITUDE]
    command addressed to the adapter. *)
Definition acknowledged (s : State) (p : Poll) : list vehicle_command_ack_s :=
  if 0 <? ret p then
    match vehicle_command p with
    | Some cmd =>
        if sysid_correct s cmd && compid_correct s cmd
           && (command cmd =? VEHICLE_CMD_DO_GIMBAL_MANAGER_ATTITUDE)
        then [_ack_vehicle_command cmd] else []
    | None => []
    end
  else [].

(** The poll returned a positive value with an attitude-set event. *)
Definition delivers_attitude (p : Poll) : bool :=
  (0 <? ret p)
  && match gimbal_manager_set_attitude p with Some _ => true | None => false end.

(** What no iteration changes in the state: the two ids, the device
    status, the altitude and the stabilisation flags of the record; the
    bytes of the longitude and the latitude are written as angles and
    frames only, so that neither comes to hold a number it did not hold
    before; a record that is not of type [LonLat] does not become one;
    the fixed pitch stays, or becomes [-10.f]; a projection reference
    that is initialised stays as it is. *)
Definition kept (s s' : State) : Prop :=
  _mav_sys_id s' = _mav_sys_id s
  /\ _mav_comp_id s' = _mav_comp_id s
  /\ _gimbal_device_attitude_status s' = _gimbal_device_attitude_status s
  /\ (lon (_control_data s') = lon (_control_data s) \/ lon (_control_data s') = None)
  /\ (lat (_control_data s') = lat (_control_data s) \/ lat (_control_data s') = None)
  /\ altitude (_control_data s') = altitude (_control_data s)
  /\ stabilize_axis (_control_data s') = stabilize_axis (_control_data s)
  /\ (type (_control_data s') = LonLat -> type (_control_data s) = LonLat)
  /\ (pitch_fixed_angle (_control_data s') = pitch_fixed_angle (_control_data s)
      \/ pitch_fixed_angle (_control_data s') = MINUS_TEN)
  /\ (map_projection_initialized (_projection_reference s) = true ->
      _projection_reference s' = _projection_reference s).

(** The ROI mode the adapter remembers when the ROI branch of an
    iteration is through. *)
Definition mode_after_roi (s : State) (p : Poll) : Z :=
  match vehicle_roi p with
  | Some roi =>
      match accepted_mode roi with
      | Some m => m
      | None => _cur_roi_mode s
      end
  | None => _cur_roi_mode s
  end.

(** The command of the poll is a [DO_GIMBAL_MANAGER_ATTITUDE] command
    addressed to the adapter. *)
Definition attitude_command_for_us (s : State) (p : Poll) : bool :=
  match vehicle_command p with
  | Some cmd =>
      sysid_correct s cmd && compid_correct s cmd
      && (command cmd =? VEHICLE_CMD_DO_GIMBAL_MANAGER_ATTITUDE)
  | None => false
  end.

(** What makes an iteration ask for another poll: an ROI event whose mode
    is not accepted, a changed position setpoint while the next waypoint
    is not followed, a command that is not an attitude command for the
    adapter. *)
Definition asks_for_more (s : State) (p : Poll) : bool :=
  match vehicle_roi p with
  | Some roi => match accepted_mode roi with Some _ => false | None => true end
  | None => false
  end
  || (position_setpoint_pollin p && negb (mode_after_roi s p =? ROI_WPNEXT))
  || match vehicle_command p with
     | Some _ => negb (attitude_command_for_us s p)
     | None => false
     end.

(** What makes an iteration set [*control_data]: an attitude-set event,
    an ROI event whose mode is accepted, a changed position setpoint while
    the next waypoint is followed, an attitude command for the adapter. *)
Definition hands_out (s : State) (p : Poll) : bool :=
  match gimbal_manager_set_attitude p with Some _ => true | None => false end
  || match vehicle_roi p with
     | Some roi => match accepted_mode roi with Some _ => true | None => false end
     | None => false
     end
  || (position_setpoint_pollin p && (mode_after_roi s p =? ROI_WPNEXT))
  || attitude_command_for_us s p.

(** The poll without its attitude-set event. *)
Definition without_set_attitude (p : Poll) : Poll :=
  mkPoll (elapsed_us p) (ret p) (errno p) None (vehicle_roi p)
    (position_setpoint_pollin p) (position_setpoint_triplet p)
    (vehicle_command p) (vehicle_global_position p).

(** What the iterations of the loop make of a run of polls: the state,
    whether [*control_data] is set, and the acknowledgements.  A poll
    that times out or fails changes nothing. *)
Definition after_poll (acc : State * bool * list vehicle_command_ack_s) (p : Poll)
  : State * bool * list vehicle_command_ack_s :=
  let '(s, out, acks) := acc in
  if 0 <? ret p then
    let it := on_poll s out acks p in
    (i_state it, i_control_data it, i_acks it)
  else acc.

Definition after_polls (acc : State * bool * list vehicle_command_ack_s)
  (ps : list Poll) : State * bool * list vehicle_command_ack_s :=
  fold_left after_poll ps acc.

End WithPlatform.
End GimbalV2Polls.

(** ** The states the updates of an adapter lead to *)

Module ROILife.
Section WithPlatform.
Context {K : Constants} {P : Platform}.
Import InputMavlinkROI.

(** [leads_to s0 s]: some number of updates, none included, takes the ROI
    adapter from the state [s0] to the state [s]. *)
Inductive leads_to (s0 : State) : State -> Prop :=
| leads_to_start : leads_to s0 s0
| leads_to_update (s : State) (timeout_ms : Z) (p : Poll) :
    leads_to s0 s -> leads_to s0 (snd (update_impl s timeout_ms p)).

End WithPlatform.
End ROILife.

Module GimbalV2Life.
Section WithPlatform.
Context {K : Constants} {P : Platform}.
Import InputMavlinkGimbalV2.

(** The same for the gimbal-manager adapter. *)
Inductive leads_to (s0 : State) : State -> Prop :=
| leads_to_start : leads_to s0 s0
| leads_to_update (s : State) (device_flags : option Z) (timeout_ms : Z)
    (env : list Poll) (r : Result) :
    leads_to s0 s -> update_impl s device_flags timeout_ms env = Some r ->
    leads_to s0 (r_state r).

End WithPlatform.
End GimbalV2Life.

(** ** An instance for the examples

    The message constants have the values of the MAVLink definitions the
    message headers are generated from; the conversions to integers
    truncate and wrap; [control_data_set_lon_lat] and the two default
    arguments are those of the vmount headers.  The libm, geo and matrix
    routines, and what the angle payload reads in the bytes of a
    longitude and a latitude, are stand-ins: the statements below hold
    for every [Platform]. *)

Definition px4_constants : Constants := {|
  ROI_NONE := 0;
  ROI_WPNEXT := 1;
  ROI_LOCATION := 3;
  ROI_TARGET := 4;
  VEHICLE_CMD_DO_MOUNT_CONFIGURE := 204;
  VEHICLE_CMD_DO_MOUNT_CONTROL := 205;
  VEHICLE_CMD_DO_GIMBAL_MANAGER_ATTITUDE := 1000;
  VEHICLE_CMD_RESULT_ACCEPTED := 0;
  VEHICLE_MOUNT_MODE_RETRACT := 0;
  VEHICLE_MOUNT_MODE_NEUTRAL := 1;
  VEHICLE_MOUNT_MODE_MAVLINK_TARGETING := 2;
  VEHICLE_MOUNT_MODE_RC_TARGETING := 3;
  VEHICLE_MOUNT_MODE_GPS_POINT := 4;
  GIMBAL_MANAGER_FLAGS_RETRACT := 1;
  GIMBAL_MANAGER_FLAGS_NEUTRAL := 2;
  GIMBAL_MANAGER_FLAGS_ROLL_LOCK := 4;
  GIMBAL_MANAGER_FLAGS_PITCH_LOCK := 8;
  GIMBAL_MANAGER_FLAGS_YAW_LOCK := 16;
  GIMBAL_MANAGER_FLAGS_NUDGE := 2097152;
  GIMBAL_MANAGER_FLAGS_OVERRIDE := 4194304;
  GIMBAL_MANAGER_FLAGS_NONE := 8388608
|}.

Definition px4_aliased_angles (lo la : double) : arr3 float := mk3 nan nan nan.

Definition px4_aliased_frames (la : double) : arr3 Frame :=
  mk3 AngleBodyFrame AngleBodyFrame AngleBodyFrame.

Definition px4_control_data_set_lon_lat (cd : ControlData) (lo la : double) (al : float)
  : ControlData :=
  mkControlData LonLat (px4_aliased_angles lo la) (px4_aliased_frames la)
    (Some lo) (Some la) al zero MINUS_TEN zero zero
    (stabilize_axis cd) (gimbal_shutter_retract cd).

Definition px4_platform : Platform := {|
  float_to_int := fun x => to_int32 (trunc x);
  double_to_uint32 := fun x => to_uint32 (trunc x);
  atan2f := fun _ _ => nan;
  sqrtf := SFsqrt prec emax;
  map_projection_reference_s := option (double * double);
  map_projection_initialized := fun r => match r with Some _ => true | None => false end;
  map_projection_init := fun _ la lo => Some (la, lo);
  map_projection_project := fun _ la lo => (F64.to_float la, F64.to_float lo);
  get_bearing_to_next_waypoint := fun _ _ _ _ => zero;
  wrap_pi := fun x => x;
  euler_phi := fun q => snd (fst (fst q));
  euler_theta := fun q => snd (fst q);
  euler_psi := fun q => snd q;
  control_data_set_lon_lat := px4_control_data_set_lon_lat;
  aliased_angles := px4_aliased_angles;
  aliased_frames := px4_aliased_frames;
  default_roll_angle := zero;
  default_roll_rate := zero
|}.

(** Inputs of the examples. *)

Definition cd0 : ControlData :=
  mkControlData Neutral (mk3 zero zero zero)
    (mk3 AngleBodyFrame AngleBodyFrame AngleBodyFrame)
    (Some (S754_zero false)) (Some (S754_zero false)) zero zero zero zero zero
    (mk3 false false false) false.

(** 1.0f, 2.0f, 3.0f, 10.0f, 20.0f, 270.0f *)
Definition f_1 : float := S754_finite false 8388608 (-23).
Definition f_2 : float := S754_finite false 8388608 (-22).
Definition f_3 : float := S754_finite false 12582912 (-22).
Definition f_10 : float := S754_finite false 10485760 (-20).
Definition f_20 : float := S754_finite false 10485760 (-19).
Definition f_270 : float := S754_finite false 8847360 (-15).

(** A command with the given number, sub-mode (param7), first three
    parameters and target component, sent by system 255, component 190 to
    system 1. *)
Definition mount_cmd (c : Z) (mode p1 p2 p3 : float) (comp : Z) : vehicle_command_s :=
  mk_vehicle_command c p1 p2 p3 zero (S754_zero false) (S754_zero false) mode
    1 comp 255 190.

Definition cm_state0 : InputMavlinkCmdMount.State :=
  InputMavlinkCmdMount.mkState cd0 1 1.

(** A poll that returns after 2 ms with a command, and one that times out
    after 10 ms. *)
Definition cm_poll (cmd : vehicle_command_s) : InputMavlinkCmdMount.Poll :=
  InputMavlinkCmdMount.mkPoll 2000 1 0 (Some cmd).

Definition cm_poll_timeout : InputMavlinkCmdMount.Poll :=
  InputMavlinkCmdMount.mkPoll 10000 0 0 None.

(** A [DO_MOUNT_CONTROL] command (205) for component 5; one with sub-mode
    [MAVLINK_TARGETING] (2), param1 = 10, param2 = 20 and param3 = 270
    degrees; one with sub-mode [RC_TARGETING] (3); one with sub-mode
    [RETRACT] (0). *)
Definition cmd_for_component_5 : vehicle_command_s := mount_cmd 205 f_2 f_10 f_20 f_270 5.
Definition cmd_mavlink_targeting : vehicle_command_s := mount_cmd 205 f_2 f_10 f_20 f_270 1.
Definition cmd_rc_targeting : vehicle_command_s := mount_cmd 205 f_3 f_10 f_20 f_270 1.
Definition cmd_retract : vehicle_command_s := mount_cmd 205 zero zero zero zero 1.

(** The gimbal-manager adapter of system 1, component 1, without and with
    a target ([ROI_LOCATION]). *)
Definition gv_state0 : InputMavlinkGimbalV2.State (P := px4_platform) :=
  InputMavlinkGimbalV2.mkState (P := px4_platform) cd0 1 1 None 0 false 0.

Definition gv_state_target : InputMavlinkGimbalV2.State (P := px4_platform) :=
  InputMavlinkGimbalV2.mkState (P := px4_platform)
    (mkControlData Angle (mk3 f_1 f_2 f_3)
       (mk3 AngleBodyFrame AngleBodyFrame AngleBodyFrame)
       None None zero zero MINUS_TEN zero zero
       (mk3 false false false) false)
    1 1 None 3 true 0.

(** An attitude-set event with the nudge flag, the quaternion components
    (1, 10, 20, 3) and no rate, and the poll that delivers it alone. *)
Definition sa_nudge : gimbal_manager_set_attitude_s :=
  mk_set_attitude 2097152 (f_1, f_10, f_20, f_3) nan nan nan.

Definition gv_position0 : vehicle_global_position_s :=
  mk_global_position (S754_zero false) (S754_zero false) zero zero.

Definition gv_poll_attitude (sa : gimbal_manager_set_attitude_s)
  : InputMavlinkGimbalV2.Poll :=
  InputMavlinkGimbalV2.mkPoll 2000 1 0 (Some sa) None false
    (mk_position_setpoint (S754_zero false) (S754_zero false) zero) None gv_position0.

(** A [DO_GIMBAL_MANAGER_ATTITUDE] command (1000) for system 1, component
    1, with param3 = 1.0, no rates (NaN) and no flag. *)
Definition cmd_gimbal_attitude : vehicle_command_s :=
  mk_vehicle_command 1000 nan nan f_1 zero (S754_zero false) (S754_zero false) zero
    1 1 255 190.

(** An ROI event with mode [ROI_NONE] and the polls that deliver it. *)
Definition roi_none : vehicle_roi_s :=
  mk_vehicle_roi 0 (S754_zero false) (S754_zero false) zero zero zero zero.

Definition gv_poll_roi (roi : vehicle_roi_s) : InputMavlinkGimbalV2.Poll :=
  InputMavlinkGimbalV2.mkPoll 2000 1 0 None (Some roi) false
    (mk_position_setpoint (S754_zero false) (S754_zero false) zero) None gv_position0.

(** The poll that delivers the [ROI_NONE] event together with the attitude
    command. *)
Definition gv_poll_roi_none_and_command : InputMavlinkGimbalV2.Poll :=
  InputMavlinkGimbalV2.mkPoll 2000 2 0 None (Some roi_none) false
    (mk_position_setpoint (S754_zero false) (S754_zero false) zero)
    (Some cmd_gimbal_attitude) gv_position0.

(** What the legacy adapter returns for the retract request. *)
Definition cm_result_retract : InputMavlinkCmdMount.Result :=
  InputMavlinkCmdMount.mkResult 0 true
    (InputMavlinkCmdMount.mkState
       (set_type (set_gimbal_shutter_retract cd0 true) Neutral) 1 1)
    [mk_vehicle_command_ack 205 0 255 190] [].

(** More inputs of the examples. *)

(** 4.0f, and the doubles 1.0 and 2.0. *)
Definition f_4 : float := S754_finite false 8388608 (-21).
Definition d_1 : double := S754_finite false 4503599627370496 (-52).
Definition d_2 : double := S754_finite false 4503599627370496 (-51).

(** A poll of the legacy adapter that returns after half a millisecond
    with a command. *)
Definition cm_poll_quick (cmd : vehicle_command_s) : InputMavlinkCmdMount.Poll :=
  InputMavlinkCmdMount.mkPoll 500 1 0 (Some cmd).

(** A [DO_MOUNT_CONFIGURE] command (204) that asks for the stabilisation
    of the second axis (param3 = 1), an angular-rate frame for the first
    axis (param5 = 1) and an absolute frame for the second (param6 = 2);
    a [DO_MOUNT_CONTROL] command with sub-mode [GPS_POINT] (4), latitude
    param5 = 1, longitude param6 = 2 and altitude param4 = 10; a command
    that is neither (number 42), addressed to the adapter. *)
Definition cmd_configure : vehicle_command_s :=
  mk_vehicle_command 204 zero zero f_1 zero d_1 d_2 zero 1 1 255 190.

Definition cmd_gps_point : vehicle_command_s :=
  mk_vehicle_command 205 zero zero zero f_10 d_1 d_2 f_4 1 1 255 190.

Definition cmd_other : vehicle_command_s :=
  mk_vehicle_command 42 zero zero zero zero (S754_zero false) (S754_zero false) zero
    1 1 255 190.

(** The legacy adapter whose record has the retract flag set. *)
Definition cm_state_retracted : InputMavlinkCmdMount.State :=
  InputMavlinkCmdMount.mkState (set_gimbal_shutter_retract cd0 true) 1 1.

(** The ROI adapter, two setpoints, an ROI event with mode [ROI_WPNEXT]
    and offsets (1, 2, 3), one with mode [ROI_TARGET], and the polls that
    deliver an ROI event or a changed setpoint. *)
Definition roi_state0 : InputMavlinkROI.State := InputMavlinkROI.mkState cd0 0.

Definition setpoint_a : position_setpoint_s := mk_position_setpoint d_2 d_1 f_10.
Definition setpoint_b : position_setpoint_s := mk_position_setpoint d_1 d_2 f_20.

Definition roi_wpnext : vehicle_roi_s :=
  mk_vehicle_roi 1 (S754_zero false) (S754_zero false) zero f_1 f_2 f_3.

Definition roi_location : vehicle_roi_s := mk_vehicle_roi 3 d_2 d_1 f_20 zero zero zero.

Definition roi_target : vehicle_roi_s :=
  mk_vehicle_roi 4 (S754_zero false) (S754_zero false) zero zero zero zero.

Definition roi_poll_event (roi : vehicle_roi_s) (sp : position_setpoint_s)
  : InputMavlinkROI.Poll :=
  InputMavlinkROI.mkPoll 1 0 (Some roi) false sp.

Definition roi_poll_setpoint (sp : position_setpoint_s) : InputMavlinkROI.Poll :=
  InputMavlinkROI.mkPoll 1 0 None true sp.

(** Polls of the gimbal-manager adapter: one that delivers a command and
    nothing else after 2 ms, one that does so within half a millisecond,
    one that delivers an attitude-set event together with an ROI event,
    one that delivers an attitude-set event together with a command, one
    that times out and one that fails with [errno] 4. *)
Definition gv_poll_command (cmd : vehicle_command_s) : InputMavlinkGimbalV2.Poll :=
  InputMavlinkGimbalV2.mkPoll 2000 1 0 None None false
    (mk_position_setpoint (S754_zero false) (S754_zero false) zero) (Some cmd)
    gv_position0.

Definition gv_poll_command_quick (cmd : vehicle_command_s) : InputMavlinkGimbalV2.Poll :=
  InputMavlinkGimbalV2.mkPoll 500 1 0 None None false
    (mk_position_setpoint (S754_zero false) (S754_zero false) zero) (Some cmd)
    gv_position0.

Definition gv_poll_attitude_and_roi (sa : gimbal_manager_set_attitude_s)
  (roi : vehicle_roi_s) : InputMavlinkGimbalV2.Poll :=
  InputMavlinkGimbalV2.mkPoll 2000 2 0 (Some sa) (Some roi) false setpoint_a None
    gv_position0.

Definition gv_poll_attitude_and_command (sa : gimbal_manager_set_attitude_s)
  (cmd : vehicle_command_s) : InputMavlinkGimbalV2.Poll :=
  InputMavlinkGimbalV2.mkPoll 2000 2 0 (Some sa) None false setpoint_a (Some cmd)
    gv_position0.

Definition gv_poll_timeout : InputMavlinkGimbalV2.Poll :=
  InputMavlinkGimbalV2.mkPoll 10000 0 0 None None false setpoint_a None gv_position0.

Definition gv_poll_failure : InputMavlinkGimbalV2.Poll :=
  InputMavlinkGimbalV2.mkPoll 0 (-1) 4 None None false setpoint_a None gv_position0.

(** A [DO_GIMBAL_MANAGER_ATTITUDE] command for component 5. *)
Definition cmd_gimbal_attitude_for_5 : vehicle_command_s :=
  mk_vehicle_command 1000 nan nan f_1 zero (S754_zero false) (S754_zero false) zero
    1 5 255 190.

(** Attitude-set events with the angles (1, 10, 20): without a flag and
    with a finite [angular_velocity_z]; with the nudge and the override
    flag; with the retract flag. *)
Definition sa_yaw_rate : gimbal_manager_set_attitude_s :=
  mk_set_attitude 0 (f_1, f_1, f_10, f_20) nan nan f_2.

Definition sa_nudge_override : gimbal_manager_set_attitude_s :=
  mk_set_attitude (2097152 + 4194304) (f_1, f_1, f_10, f_20) nan nan nan.

Definition sa_retract : gimbal_manager_set_attitude_s :=
  mk_set_attitude 1 (f_1, f_1, f_10, f_20) nan nan nan.

(** The gimbal-manager adapter whose projection reference is
    initialised. *)
Definition gv_state_anchored : InputMavlinkGimbalV2.State (P := px4_platform) :=
  InputMavlinkGimbalV2.mkState (P := px4_platform)
    (set_pitch_fixed_angle cd0 MINUS_TEN) 1 1 (Some (d_1, d_2)) 0 false 0.

(** The numbers of the request: [VEHICLE_CMD_REQUEST_MESSAGE] and the id
    of the [GIMBAL_DEVICE_INFORMATION] message. *)
Definition px4_request_constants : RequestConstants := {|
  VEHICLE_CMD_REQUEST_MESSAGE := 512;
  VEHICLE_CMD_GIMBAL_DEVICE_INFORMATION := 283
|}.

(** Answers of [orb_subscribe]: every subscription succeeds, with the
    descriptors 3 to 6; and the third one fails with [errno] 12. *)
Definition orb_succeeds (t : Topic) : Subscribed :=
  match t with
  | ORB_vehicle_roi => mkSubscribed 3 0
  | ORB_position_setpoint_triplet => mkSubscribed 4 0
  | ORB_gimbal_manager_set_attitude => mkSubscribed 5 0
  | ORB_vehicle_command => mkSubscribed 6 0
  end.

Definition orb_third_fails (t : Topic) : Subscribed :=
  match t with
  | ORB_gimbal_manager_set_attitude => mkSubscribed (-1) 12
  | _ => orb_succeeds t
  end.

(** Descriptors before [initialize]. *)
Definition roi_handles0 : ROIHandles.Handles := ROIHandles.mkHandles (-1) (-1).
Definition gv_handles0 : GimbalV2Handles.Handles :=
  GimbalV2Handles.mkHandles (-1) (-1) (-1) (-1).

(** A poll of the gimbal-manager adapter that delivers an ROI event
    together with a command. *)
Definition gv_poll_roi_and_command (roi : vehicle_roi_s) (cmd : vehicle_command_s)
  : InputMavlinkGimbalV2.Poll :=
  InputMavlinkGimbalV2.mkPoll 2000 2 0 None (Some roi) false setpoint_a (Some cmd)
    gv_position0.

(** What the legacy adapter returns, from a record with the retract flag
    set, for a command that is no mount command followed by a poll that
    times out. *)
Definition cm_result_other : InputMavlinkCmdMount.Result :=
  InputMavlinkCmdMount.mkResult 0 false
    (InputMavlinkCmdMount.mkState
       (set_gimbal_shutter_retract (set_gimbal_shutter_retract cd0 true) false) 1 1)
    [] [].

(** * Properties *)

(** ** Binary32 arithmetic around [M_PI_F] *)

Lemma TWO_PI_F_eq : TWO_PI_F = S754_finite false 13176795 (-21).
Proof. reflexivity. Qed.

Lemma digits2_pos_bounds (p : positive) :
  2 ^ (Z.pos (digits2_pos p) - 1) <= Z.pos p < 2 ^ Z.pos (digits2_pos p).
Proof.
  induction p as [p IH|p IH|]; cbn [digits2_pos].
  - rewrite Pos2Z.inj_succ. change (Z.pos p~1) with (2 * Z.pos p + 1).
    replace (Z.succ (Z.pos (digits2_pos p)) - 1)
      with (Z.succ (Z.pos (digits2_pos p) - 1)) by lia.
    rewrite !Z.pow_succ_r by lia. lia.
  - rewrite Pos2Z.inj_succ. change (Z.pos p~0) with (2 * Z.pos p).
    replace (Z.succ (Z.pos (digits2_pos p)) - 1)
      with (Z.succ (Z.pos (digits2_pos p) - 1)) by lia.
    rewrite !Z.pow_succ_r by lia. lia.
  - cbn. lia.
Qed.

Lemma digits2_pos_unique (p : positive) (d : Z) :
  2 ^ (d - 1) <= Z.pos p < 2 ^ d -> Z.pos (digits2_pos p) = d.
Proof.
  intros [Hlo Hhi]. pose proof (digits2_pos_bounds p) as [Blo Bhi].
  set (n := Z.pos (digits2_pos p)) in *.
  assert (0 < n) by (subst n; lia).
  destruct (Z.lt_trichotomy n d) as [Hlt|[Heq|Hgt]]; auto; exfalso.
  - assert (2 ^ n <= 2 ^ (d - 1)) by (apply Z.pow_le_mono_r; lia). lia.
  - assert (d < 0 \/ 0 <= d) as [Hd|Hd] by lia.
    + rewrite (Z.pow_neg_r 2 d) in Hhi by lia. lia.
    + assert (2 ^ d <= 2 ^ (n - 1)) by (apply Z.pow_le_mono_r; lia). lia.
Qed.

Lemma iter_xO_val (k p : positive) : Z.pos (Pos.iter xO p k) = Z.pos p * 2 ^ Z.pos k.
Proof.
  revert p. induction k using Pos.peano_ind; intros p.
  - simpl. lia.
  - rewrite Pos.iter_succ.
    change (Z.pos (Pos.iter xO p k)~0) with (2 * Z.pos (Pos.iter xO p k)).
    rewrite IHk, Pos2Z.inj_succ, Z.pow_succ_r by lia. lia.
Qed.

Lemma digits2_iter_xO (k p : positive) :
  digits2_pos (Pos.iter xO p k) = (digits2_pos p + k)%positive.
Proof.
  induction k using Pos.peano_ind.
  - simpl. lia.
  - rewrite Pos.iter_succ. cbn [digits2_pos]. rewrite IHk. lia.
Qed.

(** A mantissa that fills the 24 bits is left as it is by the rounding. *)
Lemma binary_round_canonical (s : bool) (m : positive) (e : Z) :
  Z.pos (digits2_pos m) = 24 -> -149 <= e <= 104 ->
  binary_round prec emax s m e = S754_finite s m e.
Proof.
  intros Hd He.
  assert (Hf : fexp prec emax (Z.pos (digits2_pos m) + e) - e = 0)
    by (unfold fexp, emin, prec, emax; lia).
  unfold binary_round, shl_align. rewrite Hf.
  unfold binary_round_aux, shr_fexp.
  cbn [Zdigits2 shr_record_of_loc]. rewrite Hf.
  cbn [shr shr_m loc_of_shr_record round_nearest_even Zdigits2]. rewrite Hf.
  cbn [shr shr_m].
  replace (e <=? emax - prec) with true
    by (symmetry; apply Z.leb_le; unfold prec, emax; lia).
  reflexivity.
Qed.

(** A shorter mantissa is shifted to the left until it fills them. *)
Lemma binary_round_shift (s : bool) (m : positive) (e : Z) (k : positive) :
  Z.pos (digits2_pos m) + Z.pos k = 24 -> -149 <= e - Z.pos k -> e <= 104 ->
  binary_round prec emax s m e = S754_finite s (Pos.iter xO m k) (e - Z.pos k).
Proof.
  intros Hd Hlo Hhi.
  assert (Hd' : Z.pos (digits2_pos (Pos.iter xO m k)) = 24)
    by (rewrite digits2_iter_xO; lia).
  rewrite <- (binary_round_canonical s (Pos.iter xO m k) (e - Z.pos k) Hd') by lia.
  unfold binary_round at 1 2. unfold shl_align, fexp, emin, prec, emax.
  rewrite Hd'.
  replace (Z.max (Z.pos (digits2_pos m) + e - 24) (3 - 128 - 24) - e)
    with (Z.neg k) by lia.
  replace (Z.max (24 + (e - Z.pos k) - 24) (3 - 128 - 24) - (e - Z.pos k))
    with 0 by lia.
  replace (Z.max (Z.pos (digits2_pos m) + e - 24) (3 - 128 - 24))
    with (e - Z.pos k) by lia.
  reflexivity.
Qed.

Lemma valid_finite_digits (s : bool) (m : positive) (e : Z) :
  is_valid (S754_finite s m e) = true -> -149 < e -> Z.pos (digits2_pos m) = 24.
Proof.
  unfold is_valid, valid_binary, bounded, canonical_mantissa, fexp, emin, prec, emax.
  intros H He. apply andb_prop in H as [H _]. apply Z.eqb_eq in H. lia.
Qed.

(** Subtracting [2 * M_PI_F] from a number of [(M_PI_F, 4)] is exact. *)
Lemma fsub_two_pi_upper_binade (m : positive) :
  13176795 < Z.pos m < 2 ^ 24 ->
  fsub (S754_finite false m (-22)) TWO_PI_F = S754_finite true (26353590 - m) (-22).
Proof.
  intros Hm. rewrite TWO_PI_F_eq. unfold fsub, SFsub.
  change (Z.min (-22) (-21)) with (-22).
  change (shl_align m (-22) (-22)) with (m, -22).
  change (shl_align 13176795 (-21) (-22)) with (26353590%positive, -22).
  cbn [fst cond_Zopp].
  replace (Z.pos m - 26353590) with (Z.neg (26353590 - m)) by lia.
  cbn [binary_normalize].
  apply binary_round_canonical; [|lia].
  apply digits2_pos_unique. lia.
Qed.

(** Subtracting it from a number of [[4, 2 * M_PI_F)] gives a negative
    number above [- M_PI_F]. *)
Lemma fsub_two_pi_lower_binade (m : positive) :
  2 ^ 23 <= Z.pos m < 13176795 ->
  exists m' e',
    fsub (S754_finite false m (-21)) TWO_PI_F = S754_finite true m' e'
    /\ (e' < -22 \/ (e' = -22 /\ Z.pos m' < 13176795)).
Proof.
  intros Hm. rewrite TWO_PI_F_eq. unfold fsub, SFsub.
  change (Z.min (-21) (-21)) with (-21).
  change (shl_align m (-21) (-21)) with (m, -21).
  change (shl_align 13176795 (-21) (-21)) with (13176795%positive, -21).
  cbn [fst cond_Zopp].
  replace (Z.pos m - 13176795) with (Z.neg (13176795 - m)) by lia.
  cbn [binary_normalize].
  set (p := (13176795 - m)%positive).
  assert (Hp : 1 <= Z.pos p <= 4788187) by (subst p; lia).
  pose proof (digits2_pos_bounds p) as Hb.
  assert (Hd : Z.pos (digits2_pos p) <= 23).
  { destruct (Z_le_gt_dec (Z.pos (digits2_pos p)) 23) as [|Hgt]; auto.
    assert (2 ^ 23 <= 2 ^ (Z.pos (digits2_pos p) - 1))
      by (apply Z.pow_le_mono_r; lia).
    lia. }
  set (k := Z.to_pos (24 - Z.pos (digits2_pos p))).
  assert (Hk : Z.pos k = 24 - Z.pos (digits2_pos p)) by (subst k; lia).
  exists (Pos.iter xO p k), (-21 - Z.pos k). split.
  - apply binary_round_shift; lia.
  - destruct (Z.eq_dec (Z.pos (digits2_pos p)) 23) as [E|E].
    + right. split; [lia|]. rewrite iter_xO_val.
      replace (Z.pos k) with 1 by lia. lia.
    + left. lia.
Qed.

(** Both subtractions are exact: no rounding takes place. *)
Lemma fsub_two_pi_exact (m : positive) (e : Z) :
  (e = -22 /\ 13176795 < Z.pos m < 2 ^ 24)
  \/ (e = -21 /\ 2 ^ 23 <= Z.pos m < 13176795) ->
  scaled (fsub (S754_finite false m e) TWO_PI_F)
  = scaled (S754_finite false m e) - scaled TWO_PI_F.
Proof.
  rewrite TWO_PI_F_eq at 2. intros [[-> Hm]|[-> Hm]].
  - rewrite fsub_two_pi_upper_binade by exact Hm.
    cbn [scaled cond_Zopp].
    replace (Z.pos (26353590 - m)) with (26353590 - Z.pos m) by lia.
    change (2 ^ (-22 + 149)) with (2 ^ 127).
    change (2 ^ (-21 + 149)) with (2 * 2 ^ 127).
    generalize (2 ^ 127). intros w. lia.
  - rewrite TWO_PI_F_eq. unfold fsub, SFsub.
    change (Z.min (-21) (-21)) with (-21).
    change (shl_align m (-21) (-21)) with (m, -21).
    change (shl_align 13176795 (-21) (-21)) with (13176795%positive, -21).
    cbn [fst cond_Zopp].
    replace (Z.pos m - 13176795) with (Z.neg (13176795 - m)) by lia.
    cbn [binary_normalize].
    set (p := (13176795 - m)%positive).
    assert (Hp : 1 <= Z.pos p <= 4788187) by (subst p; lia).
    pose proof (digits2_pos_bounds p) as Hb.
    assert (Hd : Z.pos (digits2_pos p) <= 23).
    { destruct (Z_le_gt_dec (Z.pos (digits2_pos p)) 23) as [|Hgt]; auto.
      assert (2 ^ 23 <= 2 ^ (Z.pos (digits2_pos p) - 1))
        by (apply Z.pow_le_mono_r; lia).
      lia. }
    set (k := Z.to_pos (24 - Z.pos (digits2_pos p))).
    assert (Hk : Z.pos k = 24 - Z.pos (digits2_pos p)) by (subst k; lia).
    rewrite (binary_round_shift true p (-21) k) by lia.
    cbn [scaled cond_Zopp]. rewrite iter_xO_val.
    replace (Z.pos p) with (13176795 - Z.pos m) by (subst p; lia).
    change (2 ^ (-21 + 149)) with (2 ^ 128).
    replace (2 ^ 128) with (2 ^ Z.pos k * 2 ^ (-21 - Z.pos k + 149))
      by (rewrite <- Z.pow_add_r by lia; f_equal; lia).
    generalize (2 ^ Z.pos k) (2 ^ (-21 - Z.pos k + 149)). intros u v. lia.
Qed.

(** Comparisons of finite numbers of one sign, by exponent and mantissa. *)
Lemma flt_finite_pos (m1 m2 : positive) (e1 e2 : Z) :
  flt (S754_finite false m1 e1) (S754_finite false m2 e2) = true
  <-> e1 < e2 \/ (e1 = e2 /\ Z.pos m1 < Z.pos m2).
Proof.
  unfold flt, SFltb, SFcompare. fold (Pos.compare m1 m2).
  destruct (Z.compare_spec e1 e2) as [E|E|E].
  - destruct (Pos.compare_spec m1 m2) as [F|F|F]; split; intros H;
      try discriminate; try tauto; try lia.
  - split; auto.
  - split; [discriminate|lia].
Qed.

Lemma fle_finite_pos (m1 m2 : positive) (e1 e2 : Z) :
  fle (S754_finite false m1 e1) (S754_finite false m2 e2) = true
  <-> e1 < e2 \/ (e1 = e2 /\ Z.pos m1 <= Z.pos m2).
Proof.
  unfold fle, SFleb, SFcompare. fold (Pos.compare m1 m2).
  destruct (Z.compare_spec e1 e2) as [E|E|E].
  - destruct (Pos.compare_spec m1 m2) as [F|F|F]; split; intros H;
      try discriminate; try tauto; try lia.
  - split; auto.
  - split; [discriminate|lia].
Qed.

Lemma flt_finite_neg (m1 m2 : positive) (e1 e2 : Z) :
  flt (S754_finite true m1 e1) (S754_finite true m2 e2) = true
  <-> e2 < e1 \/ (e1 = e2 /\ Z.pos m2 < Z.pos m1).
Proof.
  unfold flt, SFltb, SFcompare. fold (Pos.compare m1 m2).
  destruct (Z.compare_spec e1 e2) as [E|E|E].
  - destruct (Pos.compare_spec m1 m2) as [F|F|F]; cbn [CompOpp]; split; intros H;
      try discriminate; try tauto; try lia.
  - split; [discriminate|lia].
  - split; auto.
Qed.

(** The yaw step of the legacy adapter maps [[0, 2 * M_PI_F)] into
    [(- M_PI_F, M_PI_F]]. *)
Lemma yaw_to_pi_range_bounds (y : float) :
  is_valid y = true -> fle zero y = true -> flt y TWO_PI_F = true ->
  flt (fneg M_PI_F) (InputMavlinkCmdMount.yaw_to_pi_range y) = true
  /\ fle (InputMavlinkCmdMount.yaw_to_pi_range y) M_PI_F = true.
Proof.
  intros Hv H0 H2. rewrite TWO_PI_F_eq in H2.
  destruct y as [s|s| |s m e]; try discriminate.
  - destruct s; split; reflexivity.
  - destruct s; discriminate.
  - destruct s; [discriminate|]. clear H0.
    apply flt_finite_pos in H2.
    unfold InputMavlinkCmdMount.yaw_to_pi_range.
    destruct (fgt (S754_finite false m e) M_PI_F) eqn:Hgt.
    + unfold fgt, M_PI_F in Hgt. apply flt_finite_pos in Hgt.
      assert (Hcase : (e = -22 /\ 13176795 < Z.pos m)
                      \/ (e = -21 /\ Z.pos m < 13176795)) by lia.
      clear Hgt H2.
      assert (Hd : Z.pos (digits2_pos m) = 24)
        by (apply (valid_finite_digits false m e Hv); lia).
      pose proof (digits2_pos_bounds m) as Hb. rewrite Hd in Hb.
      change (2 ^ (24 - 1)) with 8388608 in Hb. clear Hv Hd.
      destruct Hcase as [[-> Hm]|[-> Hm]].
      * rewrite fsub_two_pi_upper_binade by lia. split; [|reflexivity].
        apply flt_finite_neg. lia.
      * destruct (fsub_two_pi_lower_binade m) as (m' & e' & -> & He'); [lia|].
        split; [|reflexivity].
        apply flt_finite_neg. lia.
    + split; [reflexivity|].
      unfold M_PI_F in *. apply fle_finite_pos.
      destruct (Z.lt_trichotomy e (-22)) as [L|[L|L]]; [lia| |].
      * right. split; [exact L|]. subst e.
        destruct (Z.le_gt_cases (Z.pos m) 13176795) as [Hle|Hlt]; [exact Hle|].
        exfalso.
        assert (Ht : fgt (S754_finite false m (-22)) (S754_finite false 13176795 (-22))
                     = true)
          by (unfold fgt; apply flt_finite_pos; right; split; [reflexivity|exact Hlt]).
        rewrite Ht in Hgt. discriminate.
      * exfalso.
        assert (Ht : fgt (S754_finite false m e) (S754_finite false 13176795 (-22))
                     = true)
          by (unfold fgt; apply flt_finite_pos; left; lia).
        rewrite Ht in Hgt. discriminate.
Qed.

(** When the yaw step subtracts, the result is the yaw less [2 * M_PI_F]
    exactly. *)
Lemma yaw_to_pi_range_exact (y : float) :
  is_valid y = true -> fgt y M_PI_F = true -> flt y TWO_PI_F = true ->
  scaled (InputMavlinkCmdMount.yaw_to_pi_range y) = scaled y - scaled TWO_PI_F.
Proof.
  intros Hv Hgt H2. unfold InputMavlinkCmdMount.yaw_to_pi_range. rewrite Hgt.
  rewrite TWO_PI_F_eq in H2.
  destruct y as [s|s| |s m e]; try discriminate; try (destruct s; discriminate).
  destruct s; [discriminate|].
  apply flt_finite_pos in H2. unfold fgt, M_PI_F in Hgt.
  apply flt_finite_pos in Hgt.
  assert (Hd : Z.pos (digits2_pos m) = 24)
    by (apply (valid_finite_digits false m e Hv); lia).
  pose proof (digits2_pos_bounds m) as Hb. rewrite Hd in Hb.
  change (2 ^ (24 - 1)) with 8388608 in Hb. change (2 ^ 24) with 16777216 in Hb.
  apply fsub_two_pi_exact.
  change (2 ^ 24) with 16777216. change (2 ^ 23) with 8388608. lia.
Qed.
(** ** The legacy mount-command adapter *)

Section CmdMountProperties.
Context {K : Constants} {P : Platform}.
Import InputMavlinkCmdMount.

Lemma addressed_filter (s : State) (cmd : vehicle_command_s) :
  addressed s cmd ->
  negb (sysid_correct s cmd) || negb (compid_correct s cmd) = false.
Proof.
  intros [Hs Hc]. unfold sysid_correct, compid_correct.
  apply Z.eqb_eq in Hs. rewrite Hs. cbn [negb orb].
  destruct Hc as [Hc|Hc]; apply Z.eqb_eq in Hc; rewrite Hc;
    [reflexivity | now rewrite orb_true_r].
Qed.

Lemma misaddressed_filter (s : State) (cmd : vehicle_command_s) :
  target_system cmd <> _mav_sys_id s
  \/ (target_component cmd <> _mav_comp_id s /\ target_component cmd <> 0) ->
  negb (sysid_correct s cmd) || negb (compid_correct s cmd) = true.
Proof.
  unfold sysid_correct, compid_correct. intros [Hs|[Hc Hb]].
  - apply Z.eqb_neq in Hs. now rewrite Hs.
  - apply Z.eqb_neq in Hc, Hb. rewrite Hc, Hb. cbn. now rewrite orb_true_r.
Qed.

(** One iteration whose poll delivers a command. *)
Lemma update_loop_command (s : State) (t : Z) (out : bool)
  (acks : list vehicle_command_ack_s) (p : Poll) (cmd : vehicle_command_s)
  (env : list Poll) :
  0 <= t -> 0 < ret p -> vehicle_command p = Some cmd ->
  update_loop (p :: env) s t out acks =
  if negb (sysid_correct s cmd) || negb (compid_correct s cmd) then
    update_loop env s (remaining t p) out acks
  else
    let cd := set_gimbal_shutter_retract (_control_data s) false in
    if command cmd =? VEHICLE_CMD_DO_MOUNT_CONTROL then
      let '(cd, out) := do_mount_control cd out cmd in
      Some (mkResult 0 out (mkState cd (_mav_sys_id s) (_mav_comp_id s))
              (acks ++ [_ack_vehicle_command cmd]) env)
    else if command cmd =? VEHICLE_CMD_DO_MOUNT_CONFIGURE then
      let cd := do_mount_configure cd cmd in
      Some (mkResult 0 true (mkState cd (_mav_sys_id s) (_mav_comp_id s))
              (acks ++ [_ack_vehicle_command cmd]) env)
    else
      update_loop env (mkState cd (_mav_sys_id s) (_mav_comp_id s))
        (remaining t p) out acks.
Proof.
  intros Ht Hr Hc. cbn [update_loop].
  replace (t <? 0) with false by (symmetry; apply Z.ltb_ge; lia).
  replace (ret p <? 0) with false by (symmetry; apply Z.ltb_ge; lia).
  replace (ret p =? 0) with false by (symmetry; apply Z.eqb_neq; lia).
  rewrite Hc. reflexivity.
Qed.

(** C1.  A polled command whose target system is not the configured
    system id, or whose target component is neither the configured
    component id nor 0, is skipped: the loop goes on with the next poll
    in the same state, with the same (unset) output and the same list of
    acknowledgements, and with the time the poll took taken off the
    budget.  When the next poll times out, or no time is left, the update
    returns 0 with no control record, no acknowledgement and the state it
    started from. *)
Theorem C1_misaddressed_command_skipped
  (s : State) (p : Poll) (cmd : vehicle_command_s) :
  0 < ret p -> vehicle_command p = Some cmd ->
  target_system cmd <> _mav_sys_id s
  \/ (target_component cmd <> _mav_comp_id s /\ target_component cmd <> 0) ->
  (forall t out acks env, 0 <= t ->
     update_loop (p :: env) s t out acks
     = update_loop env s (remaining t p) out acks)
  /\ (forall timeout_ms q env, ret q = 0 ->
        exists pending,
          update_impl s timeout_ms (p :: q :: env)
          = Some (mkResult 0 false s [] pending)).
Proof.
  intros Hr Hc Hm. split.
  - intros t out acks env Ht.
    rewrite (update_loop_command s t out acks p cmd env Ht Hr Hc).
    now rewrite misaddressed_filter.
  - intros timeout_ms q env Hq. unfold update_impl.
    destruct (Z_lt_ge_dec (to_int32 timeout_ms) 0) as [Hneg|Hpos].
    + exists (p :: q :: env). cbn [update_loop].
      now replace (to_int32 timeout_ms <? 0) with true
        by (symmetry; apply Z.ltb_lt; lia).
    + rewrite (update_loop_command s _ false [] p cmd (q :: env)) by (lia || assumption).
      rewrite misaddressed_filter by assumption.
      destruct (Z_lt_ge_dec (remaining (to_int32 timeout_ms) p) 0) as [Hn|Hp].
      * exists (q :: env). cbn [update_loop].
        now replace (remaining (to_int32 timeout_ms) p <? 0) with true
          by (symmetry; apply Z.ltb_lt; lia).
      * exists env. cbn [update_loop].
        replace (remaining (to_int32 timeout_ms) p <? 0) with false
          by (symmetry; apply Z.ltb_ge; lia).
        rewrite Hq. reflexivity.
Qed.

Lemma mount_mode_mavlink_targeting (cd : ControlData) (out : bool)
  (cmd : vehicle_command_s) :
  mount_modes_distinct ->
  float_to_int (param7 cmd) = VEHICLE_MOUNT_MODE_MAVLINK_TARGETING ->
  do_mount_control cd out cmd =
  (set_angles
     (set_frames (set_type cd Angle)
        (mk3 AngleBodyFrame AngleBodyFrame AngleBodyFrame))
     (mk3 (fmul (param2 cmd) M_DEG_TO_RAD_F)
          (fmul (param1 cmd) M_DEG_TO_RAD_F)
          (yaw_to_pi_range (fmul (param3 cmd) M_DEG_TO_RAD_F))),
   true).
Proof.
  intros Hd Hm. unfold do_mount_control. rewrite Hm.
  unfold mount_modes_distinct in Hd.
  inversion Hd as [|x1 l1 N1 D1]; subst. inversion D1 as [|x2 l2 N2 D2]; subst.
  replace (VEHICLE_MOUNT_MODE_MAVLINK_TARGETING =? VEHICLE_MOUNT_MODE_RETRACT)
    with false by (symmetry; apply Z.eqb_neq; intros E; apply N1; rewrite <- E; cbn; auto).
  replace (VEHICLE_MOUNT_MODE_MAVLINK_TARGETING =? VEHICLE_MOUNT_MODE_NEUTRAL)
    with false by (symmetry; apply Z.eqb_neq; intros E; apply N2; rewrite <- E; cbn; auto).
  rewrite Z.eqb_refl. reflexivity.
Qed.

(** C2.  A [DO_MOUNT_CONTROL] command addressed to the adapter with
    sub-mode [MAVLINK_TARGETING] ends the update with an acknowledgement
    and a record of type [Angle] whose three frames are body-relative,
    whose channel 0 is param2 times [M_DEG_TO_RAD_F], whose channel 1 is
    param1 times [M_DEG_TO_RAD_F], and whose channel 2 is param3 times
    [M_DEG_TO_RAD_F] brought into the range around zero. *)
Theorem C2_mavlink_targeting_swaps_roll_and_pitch
  (s : State) (t : Z) (out : bool) (acks : list vehicle_command_ack_s)
  (p : Poll) (cmd : vehicle_command_s) (env : list Poll) :
  mount_modes_distinct ->
  0 <= t -> 0 < ret p -> vehicle_command p = Some cmd ->
  addressed s cmd ->
  command cmd = VEHICLE_CMD_DO_MOUNT_CONTROL ->
  float_to_int (param7 cmd) = VEHICLE_MOUNT_MODE_MAVLINK_TARGETING ->
  exists cd,
    update_loop (p :: env) s t out acks
    = Some (mkResult 0 true (mkState cd (_mav_sys_id s) (_mav_comp_id s))
              (acks ++ [_ack_vehicle_command cmd]) env)
    /\ type cd = Angle
    /\ frames cd = mk3 AngleBodyFrame AngleBodyFrame AngleBodyFrame
    /\ get3 (angles cd) 0 = fmul (param2 cmd) M_DEG_TO_RAD_F
    /\ get3 (angles cd) 1 = fmul (param1 cmd) M_DEG_TO_RAD_F
    /\ get3 (angles cd) 2 = yaw_to_pi_range (fmul (param3 cmd) M_DEG_TO_RAD_F).
Proof.
  intros Hd Ht Hr Hc Ha Hcmd Hm.
  rewrite (update_loop_command s t out acks p cmd env Ht Hr Hc).
  rewrite (addressed_filter s cmd Ha).
  apply Z.eqb_eq in Hcmd. cbv zeta. rewrite Hcmd.
  rewrite (mount_mode_mavlink_targeting _ out cmd Hd Hm).
  eexists. split; [reflexivity|]. repeat split.
Qed.

(** C3.  When the yaw of a [MAVLINK_TARGETING] command, param3 times
    [M_DEG_TO_RAD_F], is a binary32 number of [[0, 2 * M_PI_F)], the yaw of
    the record produced is that number less [2 * M_PI_F] when it exceeds
    [M_PI_F] (the subtraction is exact, it does not round) and that number
    otherwise, and it lies in [(- M_PI_F, M_PI_F]]. *)
Theorem C3_mavlink_targeting_yaw_range
  (s : State) (t : Z) (out : bool) (acks : list vehicle_command_ack_s)
  (p : Poll) (cmd : vehicle_command_s) (env : list Poll) :
  mount_modes_distinct ->
  0 <= t -> 0 < ret p -> vehicle_command p = Some cmd ->
  addressed s cmd ->
  command cmd = VEHICLE_CMD_DO_MOUNT_CONTROL ->
  float_to_int (param7 cmd) = VEHICLE_MOUNT_MODE_MAVLINK_TARGETING ->
  is_valid (fmul (param3 cmd) M_DEG_TO_RAD_F) = true ->
  fle zero (fmul (param3 cmd) M_DEG_TO_RAD_F) = true ->
  flt (fmul (param3 cmd) M_DEG_TO_RAD_F) TWO_PI_F = true ->
  exists r,
    update_loop (p :: env) s t out acks = Some r
    /\ r_control_data r = true
    /\ get3 (angles (_control_data (r_state r))) 2
       = (if fgt (fmul (param3 cmd) M_DEG_TO_RAD_F) M_PI_F
          then fsub (fmul (param3 cmd) M_DEG_TO_RAD_F) TWO_PI_F
          else fmul (param3 cmd) M_DEG_TO_RAD_F)
    /\ (fgt (fmul (param3 cmd) M_DEG_TO_RAD_F) M_PI_F = true ->
        scaled (get3 (angles (_control_data (r_state r))) 2)
        = scaled (fmul (param3 cmd) M_DEG_TO_RAD_F) - scaled TWO_PI_F)
    /\ flt (fneg M_PI_F) (get3 (angles (_control_data (r_state r))) 2) = true
    /\ fle (get3 (angles (_control_data (r_state r))) 2) M_PI_F = true.
Proof.
  intros Hd Ht Hr Hc Ha Hcmd Hm Hv H0 H2.
  rewrite (update_loop_command s t out acks p cmd env Ht Hr Hc).
  rewrite (addressed_filter s cmd Ha).
  apply Z.eqb_eq in Hcmd. cbv zeta. rewrite Hcmd.
  rewrite (mount_mode_mavlink_targeting _ out cmd Hd Hm).
  eexists. split; [reflexivity|]. cbn [r_control_data r_state _control_data].
  split; [reflexivity|].
  destruct (yaw_to_pi_range_bounds _ Hv H0 H2) as [Hlo Hhi].
  split; [reflexivity|].
  split; [intros Hgt; now apply yaw_to_pi_range_exact|].
  split; assumption.
Qed.

Lemma mount_mode_without_record (cd : ControlData) (out : bool)
  (cmd : vehicle_command_s) :
  mount_modes_distinct ->
  float_to_int (param7 cmd) = VEHICLE_MOUNT_MODE_RC_TARGETING
  \/ (float_to_int (param7 cmd) <> VEHICLE_MOUNT_MODE_RETRACT
      /\ float_to_int (param7 cmd) <> VEHICLE_MOUNT_MODE_NEUTRAL
      /\ float_to_int (param7 cmd) <> VEHICLE_MOUNT_MODE_MAVLINK_TARGETING
      /\ float_to_int (param7 cmd) <> VEHICLE_MOUNT_MODE_RC_TARGETING
      /\ float_to_int (param7 cmd) <> VEHICLE_MOUNT_MODE_GPS_POINT) ->
  do_mount_control cd out cmd = (cd, out).
Proof.
  intros Hd Hm. unfold do_mount_control.
  assert (H : float_to_int (param7 cmd) <> VEHICLE_MOUNT_MODE_RETRACT
              /\ float_to_int (param7 cmd) <> VEHICLE_MOUNT_MODE_NEUTRAL
              /\ float_to_int (param7 cmd) <> VEHICLE_MOUNT_MODE_MAVLINK_TARGETING).
  { destruct Hm as [Hm|Hm]; [|tauto]. rewrite Hm.
    unfold mount_modes_distinct in Hd.
    inversion Hd as [|x1 l1 N1 D1]; subst. inversion D1 as [|x2 l2 N2 D2]; subst.
    inversion D2 as [|x3 l3 N3 D3]; subst.
    repeat split; intros E; [apply N1|apply N2|apply N3]; rewrite <- E; cbn; auto. }
  destruct H as (H1 & H2 & H3).
  apply Z.eqb_neq in H1, H2, H3. rewrite H1, H2, H3.
  destruct (float_to_int (param7 cmd) =? VEHICLE_MOUNT_MODE_RC_TARGETING) eqn:E4;
    [reflexivity|].
  destruct Hm as [Hm|Hm].
  - apply Z.eqb_neq in E4. contradiction.
  - destruct Hm as (_ & _ & _ & _ & H5). apply Z.eqb_neq in H5. now rewrite H5.
Qed.

(** C7, as the code has it.  A [DO_MOUNT_CONTROL] command addressed to the
    adapter whose sub-mode is [RC_TARGETING] or none of the five known ones
    produces no control record, but it is acknowledged and the update
    returns 0 at once, without another poll; the retract flag of the
    adapter's record is cleared.  A command addressed to the adapter that
    is neither [DO_MOUNT_CONTROL] nor [DO_MOUNT_CONFIGURE] is the one that
    is skipped without acknowledgement, the loop polling on with the time
    that is left. *)
Theorem C7_unsupported_mount_control_is_acknowledged
  (s : State) (t : Z) (out : bool) (acks : list vehicle_command_ack_s)
  (p : Poll) (cmd : vehicle_command_s) (env : list Poll) :
  mount_modes_distinct ->
  0 <= t -> 0 < ret p -> vehicle_command p = Some cmd ->
  addressed s cmd ->
  (command cmd = VEHICLE_CMD_DO_MOUNT_CONTROL ->
   float_to_int (param7 cmd) = VEHICLE_MOUNT_MODE_RC_TARGETING
   \/ (float_to_int (param7 cmd) <> VEHICLE_MOUNT_MODE_RETRACT
       /\ float_to_int (param7 cmd) <> VEHICLE_MOUNT_MODE_NEUTRAL
       /\ float_to_int (param7 cmd) <> VEHICLE_MOUNT_MODE_MAVLINK_TARGETING
       /\ float_to_int (param7 cmd) <> VEHICLE_MOUNT_MODE_RC_TARGETING
       /\ float_to_int (param7 cmd) <> VEHICLE_MOUNT_MODE_GPS_POINT) ->
   update_loop (p :: env) s t out acks
   = Some (mkResult 0 out
             (mkState (set_gimbal_shutter_retract (_control_data s) false)
                (_mav_sys_id s) (_mav_comp_id s))
             (acks ++ [_ack_vehicle_command cmd]) env))
  /\ (command cmd <> VEHICLE_CMD_DO_MOUNT_CONTROL ->
      command cmd <> VEHICLE_CMD_DO_MOUNT_CONFIGURE ->
      update_loop (p :: env) s t out acks
      = update_loop env
          (mkState (set_gimbal_shutter_retract (_control_data s) false)
             (_mav_sys_id s) (_mav_comp_id s))
          (remaining t p) out acks).
Proof.
  intros Hd Ht Hr Hc Ha.
  rewrite (update_loop_command s t out acks p cmd env Ht Hr Hc).
  rewrite (addressed_filter s cmd Ha). cbv zeta. split.
  - intros Hcmd Hm. apply Z.eqb_eq in Hcmd. rewrite Hcmd.
    now rewrite (mount_mode_without_record _ out cmd Hd Hm).
  - intros H1 H2. apply Z.eqb_neq in H1, H2. now rewrite H1, H2.
Qed.

Lemma filter_addressed (s : State) (cmd : vehicle_command_s) :
  negb (sysid_correct s cmd) || negb (compid_correct s cmd) = false ->
  addressed s cmd.
Proof.
  unfold sysid_correct, compid_correct, addressed. intros H.
  apply orb_false_elim in H as [H1 H2].
  apply negb_false_iff in H1, H2. apply Z.eqb_eq in H1.
  apply orb_true_iff in H2. rewrite !Z.eqb_eq in H2. tauto.
Qed.



(** The loop returns when the environment ends with a poll that times
    out or fails. *)
Lemma cm_update_loop_returns (env : list Poll) (q : Poll) :
  ret q <= 0 ->
  forall s t out acks, exists r, update_loop (env ++ [q]) s t out acks = Some r.
Proof.
  intros Hq. induction env as [|p env IH]; intros s t out acks;
    cbn [app update_loop].
  - destruct (t <? 0); [eexists; reflexivity|].
    destruct (ret q <? 0) eqn:E; [eexists; reflexivity|].
    replace (ret q =? 0) with true
      by (symmetry; apply Z.eqb_eq; apply Z.ltb_ge in E; lia).
    eexists; reflexivity.
  - destruct (t <? 0); [eexists; reflexivity|].
    destruct (ret p <? 0); [eexists; reflexivity|].
    destruct (ret p =? 0); [eexists; reflexivity|].
    destruct (vehicle_command p) as [cmd|]; [|eexists; reflexivity].
    destruct (negb _ || negb _); [apply IH|].
    destruct (command cmd =? VEHICLE_CMD_DO_MOUNT_CONTROL).
    + destruct (do_mount_control _ out cmd). eexists; reflexivity.
    + destruct (command cmd =? VEHICLE_CMD_DO_MOUNT_CONFIGURE);
        [eexists; reflexivity|apply IH].
Qed.

End CmdMountProperties.

(** ** The ROI adapter *)

Section ROIProperties.
Context {K : Constants} {P : Platform}.
Import InputMavlinkROI.

(** An update that receives an ROI event with mode [ROI_NONE] hands out a
    record of type [Neutral] and remembers the mode, also when the
    position setpoint is reported in the same poll. *)
Lemma roi_none_neutral (s : State) (timeout_ms : Z) (p : Poll) (roi : vehicle_roi_s) :
  0 < ret p -> vehicle_roi p = Some roi -> roi_mode roi = ROI_NONE ->
  exists s',
    update_impl s timeout_ms p = (0, true, s')
    /\ type (_control_data s') = Neutral
    /\ _cur_roi_mode s' = ROI_NONE.
Proof.
  intros Hr Hroi Hm. unfold update_impl.
  replace (ret p <? 0) with false by (symmetry; apply Z.ltb_ge; lia).
  replace (ret p =? 0) with false by (symmetry; apply Z.eqb_neq; lia).
  rewrite Hroi. unfold on_vehicle_roi. rewrite Hm, Z.eqb_refl.
  destruct (position_setpoint_pollin p).
  - unfold on_position_setpoint. cbn [_cur_roi_mode].
    destruct (ROI_NONE =? ROI_WPNEXT); eexists; split; try reflexivity; split; reflexivity.
  - eexists. split; [reflexivity|]. split; reflexivity.
Qed.


End ROIProperties.

(** ** The gimbal-manager adapter *)

Section GimbalV2Properties.
Context {K : Constants} {P : Platform}.
Import InputMavlinkGimbalV2.

Lemma assign_angles_type_frames (is_roi_set : bool) (cd : ControlData) (flags : Z)
  (pitch_angle yaw_angle roll_angle : float) :
  type (assign_angles is_roi_set cd flags pitch_angle yaw_angle roll_angle) = Angle
  /\ frames (assign_angles is_roi_set cd flags pitch_angle yaw_angle roll_angle)
     = mk3 AngleBodyFrame AngleBodyFrame AngleBodyFrame.
Proof.
  unfold assign_angles.
  destruct (is_roi_set && flag_set flags GIMBAL_MANAGER_FLAGS_NUDGE);
    destruct (is_roi_set && flag_set flags GIMBAL_MANAGER_FLAGS_OVERRIDE);
    split; reflexivity.
Qed.

(** The angle step on a set target with the nudge flag and without the
    override flag adds, channel by channel. *)
Lemma assign_angles_nudge (cd : ControlData) (flags : Z)
  (pitch_angle yaw_angle roll_angle : float) :
  flag_set flags GIMBAL_MANAGER_FLAGS_NUDGE = true ->
  flag_set flags GIMBAL_MANAGER_FLAGS_OVERRIDE = false ->
  angles (assign_angles true cd flags pitch_angle yaw_angle roll_angle)
  = mk3 (fadd (get3 (angles cd) 0) pitch_angle)
        (fadd (get3 (angles cd) 1) roll_angle)
        (fadd (get3 (angles cd) 2) yaw_angle).
Proof.
  intros Hn Ho. unfold assign_angles. rewrite Hn, Ho. reflexivity.
Qed.

(** Past the retract, neutral and none flags the handler is the three
    steps in a row. *)
Lemma set_attitude_steps (is_roi_set : bool) (cd : ControlData) (flags : Z)
  (pitch_angle pitch_rate yaw_angle yaw_rate roll_angle roll_rate : float) :
  flag_set flags GIMBAL_MANAGER_FLAGS_RETRACT = false ->
  flag_set flags GIMBAL_MANAGER_FLAGS_NEUTRAL = false ->
  flag_set flags GIMBAL_MANAGER_FLAGS_NONE = false ->
  _set_control_data_from_set_attitude is_roi_set cd flags
    pitch_angle pitch_rate yaw_angle yaw_rate roll_angle roll_rate
  = apply_locks
      (apply_rates (assign_angles is_roi_set cd flags pitch_angle yaw_angle roll_angle)
         pitch_rate yaw_rate roll_rate)
      flags.
Proof.
  intros H1 H2 H3. unfold _set_control_data_from_set_attitude.
  now rewrite H1, H2, H3.
Qed.

(** C5.  Past the retract, neutral and none flags, for each axis on its
    own: a finite rate replaces the value the angle step stored and makes
    the frame angular-rate; a lock flag makes the frame absolute and keeps
    the value (the rate when it is finite, the stored angle otherwise).
    Channel 0 goes with the roll rate and the roll lock, channel 1 with
    the pitch rate and the pitch lock, channel 2 with the yaw rate and
    the yaw lock. *)
Theorem C5_rate_and_lock_per_axis (is_roi_set : bool) (cd : ControlData) (flags : Z)
  (pitch_angle pitch_rate yaw_angle yaw_rate roll_angle roll_rate : float) :
  flag_set flags GIMBAL_MANAGER_FLAGS_RETRACT = false ->
  flag_set flags GIMBAL_MANAGER_FLAGS_NEUTRAL = false ->
  flag_set flags GIMBAL_MANAGER_FLAGS_NONE = false ->
  let stored := assign_angles is_roi_set cd flags pitch_angle yaw_angle roll_angle in
  let cd' := _set_control_data_from_set_attitude is_roi_set cd flags
               pitch_angle pitch_rate yaw_angle yaw_rate roll_angle roll_rate in
  type cd' = Angle
  /\ get3 (angles cd') 0
     = (if PX4_ISFINITE roll_rate then roll_rate else get3 (angles stored) 0)
  /\ get3 (frames cd') 0
     = (if flag_set flags GIMBAL_MANAGER_FLAGS_ROLL_LOCK then AngleAbsoluteFrame
        else if PX4_ISFINITE roll_rate then AngularRate else AngleBodyFrame)
  /\ get3 (angles cd') 1
     = (if PX4_ISFINITE pitch_rate then pitch_rate else get3 (angles stored) 1)
  /\ get3 (frames cd') 1
     = (if flag_set flags GIMBAL_MANAGER_FLAGS_PITCH_LOCK then AngleAbsoluteFrame
        else if PX4_ISFINITE pitch_rate then AngularRate else AngleBodyFrame)
  /\ get3 (angles cd') 2
     = (if PX4_ISFINITE yaw_rate then yaw_rate else get3 (angles stored) 2)
  /\ get3 (frames cd') 2
     = (if flag_set flags GIMBAL_MANAGER_FLAGS_YAW_LOCK then AngleAbsoluteFrame
        else if PX4_ISFINITE yaw_rate then AngularRate else AngleBodyFrame).
Proof.
  intros H1 H2 H3 stored cd'. subst cd'.
  rewrite set_attitude_steps by assumption. fold stored.
  destruct (assign_angles_type_frames is_roi_set cd flags pitch_angle yaw_angle roll_angle)
    as [Ht Hf].
  fold stored in Ht, Hf.
  unfold apply_locks, apply_rates.
  destruct (PX4_ISFINITE roll_rate), (PX4_ISFINITE pitch_rate),
    (PX4_ISFINITE yaw_rate),
    (flag_set flags GIMBAL_MANAGER_FLAGS_ROLL_LOCK),
    (flag_set flags GIMBAL_MANAGER_FLAGS_PITCH_LOCK),
    (flag_set flags GIMBAL_MANAGER_FLAGS_YAW_LOCK);
    cbn; rewrite ?Hf, ?Ht; cbn; repeat split; reflexivity.
Qed.

(** One nudge-only event on a set target. *)
Lemma on_set_attitude_nudge (it : Iter) (sa : gimbal_manager_set_attitude_s) :
  _is_roi_set (i_state it) = true -> nudge_only sa ->
  let it' := on_set_attitude it sa in
  i_control_data it' = true
  /\ _is_roi_set (i_state it') = true
  /\ type (_control_data (i_state it')) = Angle
  /\ angles (_control_data (i_state it'))
     = mk3 (fadd (get3 (angles (_control_data (i_state it))) 0) (euler_phi (sa_q sa)))
           (fadd (get3 (angles (_control_data (i_state it))) 1) (euler_theta (sa_q sa)))
           (fadd (get3 (angles (_control_data (i_state it))) 2) (euler_psi (sa_q sa))).
Proof.
  intros Hs (Hn & Hr & Hne & Hno & Ho & Fx & Fy & Fz). unfold on_set_attitude.
  cbn [i_control_data i_state with_control_data _is_roi_set _control_data].
  rewrite Hs. split; [reflexivity|]. split; [reflexivity|].
  rewrite set_attitude_steps by assumption.
  unfold apply_rates. rewrite Fx, Fy, Fz.
  pose proof (assign_angles_type_frames true (_control_data (i_state it)) (sa_flags sa)
                (euler_phi (sa_q sa)) (euler_psi (sa_q sa)) (euler_theta (sa_q sa)))
    as [Ht Hf].
  pose proof (assign_angles_nudge (_control_data (i_state it)) (sa_flags sa)
                (euler_phi (sa_q sa)) (euler_psi (sa_q sa)) (euler_theta (sa_q sa))
                Hn Ho) as Ha.
  unfold apply_locks.
  destruct (flag_set (sa_flags sa) GIMBAL_MANAGER_FLAGS_ROLL_LOCK),
    (flag_set (sa_flags sa) GIMBAL_MANAGER_FLAGS_PITCH_LOCK),
    (flag_set (sa_flags sa) GIMBAL_MANAGER_FLAGS_YAW_LOCK);
    cbn; rewrite ?Ht, ?Ha; split; reflexivity.
Qed.

(** An update whose first poll delivers an attitude-set event and nothing
    else handles the event and returns. *)
Lemma update_impl_attitude_only (s : State) (device_flags : option Z) (timeout_ms : Z)
  (p : Poll) (sa : gimbal_manager_set_attitude_s) (env : list Poll) :
  0 <= to_int32 timeout_ms -> attitude_only p sa ->
  exists r,
    update_impl s device_flags timeout_ms (p :: env) = Some r
    /\ r_control_data r = i_control_data
         (on_set_attitude
            (mkIter (fst (_stream_gimbal_manager_status s device_flags)) false [] true) sa)
    /\ r_state r = i_state
         (on_set_attitude
            (mkIter (fst (_stream_gimbal_manager_status s device_flags)) false [] true) sa).
Proof.
  intros Ht (Hr & Ha & Hroi & Hsp & Hc). unfold update_impl.
  destruct (_stream_gimbal_manager_status s device_flags) as [s1 status] eqn:Hst.
  cbn [update_loop fst].
  replace (to_int32 timeout_ms <? 0) with false by (symmetry; apply Z.ltb_ge; lia).
  replace (ret p <? 0) with false by (symmetry; apply Z.ltb_ge; lia).
  replace (ret p =? 0) with false by (symmetry; apply Z.eqb_neq; lia).
  unfold on_poll. rewrite Ha, Hroi, Hsp, Hc.
  cbn [on_set_attitude i_exit_loop]. eexists. split; [reflexivity|].
  split; reflexivity.
Qed.

(** C4.  On a set target ([_is_roi_set] true), two updates in a row that
    each receive one attitude-set event asking for a nudge only leave in
    each channel the value it had, plus the angle of the first event, plus
    the angle of the second: the second event adds to what the first left,
    it does not replace it.  Channel 0 takes the angle the caller reads
    off as [phi], channel 1 [theta], channel 2 [psi]. *)
Theorem C4_nudge_accumulates (s : State)
  (d1 d2 : option Z) (t1 t2 : Z) (p1 p2 : Poll)
  (sa1 sa2 : gimbal_manager_set_attitude_s) (env1 env2 : list Poll) :
  _is_roi_set s = true ->
  0 <= to_int32 t1 -> 0 <= to_int32 t2 ->
  attitude_only p1 sa1 -> nudge_only sa1 ->
  attitude_only p2 sa2 -> nudge_only sa2 ->
  exists r1 r2,
    update_impl s d1 t1 (p1 :: env1) = Some r1
    /\ update_impl (r_state r1) d2 t2 (p2 :: env2) = Some r2
    /\ r_control_data r2 = true
    /\ type (_control_data (r_state r2)) = Angle
    /\ angles (_control_data (r_state r2))
       = mk3 (fadd (fadd (get3 (angles (_control_data s)) 0) (euler_phi (sa_q sa1)))
                   (euler_phi (sa_q sa2)))
             (fadd (fadd (get3 (angles (_control_data s)) 1) (euler_theta (sa_q sa1)))
                   (euler_theta (sa_q sa2)))
             (fadd (fadd (get3 (angles (_control_data s)) 2) (euler_psi (sa_q sa1)))
                   (euler_psi (sa_q sa2))).
Proof.
  intros Hs Ht1 Ht2 Hp1 Hn1 Hp2 Hn2.
  destruct (update_impl_attitude_only s d1 t1 p1 sa1 env1 Ht1 Hp1)
    as (r1 & E1 & _ & S1).
  destruct (update_impl_attitude_only (r_state r1) d2 t2 p2 sa2 env2 Ht2 Hp2)
    as (r2 & E2 & O2 & S2).
  exists r1, r2. split; [exact E1|]. split; [exact E2|].
  pose proof (on_set_attitude_nudge
                (mkIter (fst (_stream_gimbal_manager_status s d1)) false [] true)
                sa1 Hs Hn1) as (_ & R1 & _ & A1).
  rewrite <- S1 in R1, A1.
  pose proof (on_set_attitude_nudge
                (mkIter (fst (_stream_gimbal_manager_status (r_state r1) d2)) false [] true)
                sa2 R1 Hn2) as (C2 & _ & T2 & A2).
  rewrite <- S2 in T2, A2. rewrite <- O2 in C2.
  split; [exact C2|]. split; [exact T2|].
  rewrite A2. cbn [i_state _stream_gimbal_manager_status fst _control_data].
  rewrite A1. reflexivity.
Qed.

(** C6.  Turning a lon/lat target into an [Angle] record: the pitch
    channel is the stored fixed pitch when that is [>= - M_PI_F], and
    otherwise [atan2f] of the target's altitude less the carrier's and the
    planar distance between the two, both projected with the adapter's
    projection reference; in either case the pitch offset is added
    afterwards.  The reference is initialised at the carrier's position
    when the pitch is computed and it has not been initialised before;
    once initialised it is used as it is and stays as it is. *)
Theorem C6_pitch_of_lon_lat_target (s : State)
  (gpos : vehicle_global_position_s) (roi_lon roi_lat roi_alt : double) :
  let s' := _transform_lon_lat_to_angle s gpos roi_lon roi_lat roi_alt in
  let fixed := pitch_fixed_angle (_control_data s) in
  let anchor :=
    if map_projection_initialized (_projection_reference s)
    then _projection_reference s
    else map_projection_init (_projection_reference s) (gpos_lat gpos) (gpos_lon gpos) in
  let target := map_projection_project anchor roi_lat roi_lon in
  let carrier := map_projection_project anchor (gpos_lat gpos) (gpos_lon gpos) in
  let dx := fsub (fst target) (fst carrier) in
  let dy := fsub (snd target) (snd carrier) in
  let d := sqrtf (fadd (fmul dx dx) (fmul dy dy)) in
  let z := fsub (F64.to_float roi_alt) (gpos_alt gpos) in
  type (_control_data s') = Angle
  /\ get3 (angles (_control_data s')) 1
     = fadd (if fge fixed (fneg M_PI_F) then fixed else atan2f z d)
            (pitch_angle_offset (_control_data s))
  /\ _projection_reference s'
     = (if fge fixed (fneg M_PI_F) then _projection_reference s else anchor)
  /\ (map_projection_initialized (_projection_reference s) = true ->
      _projection_reference s' = _projection_reference s).
Proof.
  cbv zeta. unfold _transform_lon_lat_to_angle, _calculate_pitch.
  cbn [pitch_fixed_angle set_angle set_angles set_frame set_frames set_type].
  destruct (fge (pitch_fixed_angle (_control_data s)) (fneg M_PI_F)) eqn:Hfix.
  - cbn. repeat split.
  - destruct (map_projection_initialized (_projection_reference s)) eqn:Hinit.
    + destruct (map_projection_project (_projection_reference s) roi_lat roi_lon)
        as [x1 y1].
      destruct (map_projection_project (_projection_reference s)
                  (gpos_lat gpos) (gpos_lon gpos)) as [x2 y2].
      cbn. repeat split.
    + destruct (map_projection_project
                  (map_projection_init (_projection_reference s)
                     (gpos_lat gpos) (gpos_lon gpos)) roi_lat roi_lon) as [x1 y1].
      destruct (map_projection_project
                  (map_projection_init (_projection_reference s)
                     (gpos_lat gpos) (gpos_lon gpos))
                  (gpos_lat gpos) (gpos_lon gpos)) as [x2 y2].
      cbn. repeat split. discriminate.
Qed.

(** What the handler leaves in the three channels when it is called as
    for the command: the same angle for pitch and yaw, the declared
    defaults for the roll angle and the roll rate, on the plain
    replacement path. *)
Lemma set_attitude_of_command (is_roi_set : bool) (cd : ControlData) (flags : Z)
  (angle pitch_rate yaw_rate : float) :
  flag_set flags GIMBAL_MANAGER_FLAGS_RETRACT = false ->
  flag_set flags GIMBAL_MANAGER_FLAGS_NEUTRAL = false ->
  flag_set flags GIMBAL_MANAGER_FLAGS_NONE = false ->
  is_roi_set && flag_set flags GIMBAL_MANAGER_FLAGS_NUDGE = false ->
  PX4_ISFINITE pitch_rate = false ->
  PX4_ISFINITE yaw_rate = false ->
  angles (_set_control_data_from_set_attitude is_roi_set cd flags
            angle pitch_rate angle yaw_rate default_roll_angle default_roll_rate)
  = mk3 (if PX4_ISFINITE default_roll_rate then default_roll_rate else angle)
        default_roll_angle
        angle.
Proof.
  intros H1 H2 H3 Hn Fp Fy.
  rewrite set_attitude_steps by assumption.
  unfold apply_locks, apply_rates, assign_angles. rewrite Hn, Fp, Fy.
  destruct (is_roi_set && flag_set flags GIMBAL_MANAGER_FLAGS_OVERRIDE),
    (PX4_ISFINITE default_roll_rate),
    (flag_set flags GIMBAL_MANAGER_FLAGS_ROLL_LOCK),
    (flag_set flags GIMBAL_MANAGER_FLAGS_PITCH_LOCK),
    (flag_set flags GIMBAL_MANAGER_FLAGS_YAW_LOCK); reflexivity.
Qed.

Lemma addressed_filter_gv (s : State) (cmd : vehicle_command_s) :
  addressed s cmd ->
  negb (sysid_correct s cmd) || negb (compid_correct s cmd) = false.
Proof.
  intros [Hs Hc]. unfold sysid_correct, compid_correct.
  assert (E1 : (target_system cmd =? _mav_sys_id s) || (target_system cmd =? 0) = true)
    by (apply orb_true_iff; rewrite !Z.eqb_eq; exact Hs).
  assert (E2 : (target_component cmd =? _mav_comp_id s) || (target_component cmd =? 0)
               = true)
    by (apply orb_true_iff; rewrite !Z.eqb_eq; exact Hc).
  now rewrite E1, E2.
Qed.

(** C10, as the code has it.  A [DO_GIMBAL_MANAGER_ATTITUDE] command
    addressed to the adapter is handed to the attitude handler with param3
    as the pitch angle and as the yaw angle, param1 and param2 as the
    pitch and yaw rates, and the declared defaults as roll angle and roll
    rate; it is acknowledged.  On the plain replacement path (past the
    retract, neutral and none flags, no nudge on a set target, no finite
    pitch or yaw rate) channel 2 then holds param3, channel 1 the default
    roll angle, and channel 0 holds param3 only when the default roll rate
    is not finite: a finite default roll rate takes its place. *)
Theorem C10_command_uses_param3_for_pitch_and_yaw
  (it : Iter) (cmd : vehicle_command_s) :
  addressed (i_state it) cmd ->
  command cmd = VEHICLE_CMD_DO_GIMBAL_MANAGER_ATTITUDE ->
  let s := i_state it in
  let flags := to_uint32 (double_to_uint32 (param5 cmd)) in
  let it' := on_vehicle_command it cmd in
  it' = mkIter
          (with_control_data s
             (_set_control_data_from_set_attitude (_is_roi_set s) (_control_data s)
                flags (param3 cmd) (param1 cmd) (param3 cmd) (param2 cmd)
                default_roll_angle default_roll_rate))
          true (i_acks it ++ [_ack_vehicle_command cmd]) (i_exit_loop it)
  /\ (flag_set flags GIMBAL_MANAGER_FLAGS_RETRACT = false ->
      flag_set flags GIMBAL_MANAGER_FLAGS_NEUTRAL = false ->
      flag_set flags GIMBAL_MANAGER_FLAGS_NONE = false ->
      _is_roi_set s && flag_set flags GIMBAL_MANAGER_FLAGS_NUDGE = false ->
      PX4_ISFINITE (param1 cmd) = false ->
      PX4_ISFINITE (param2 cmd) = false ->
      angles (_control_data (i_state it'))
      = mk3 (if PX4_ISFINITE default_roll_rate then default_roll_rate else param3 cmd)
            default_roll_angle
            (param3 cmd)).
Proof.
  intros Ha Hc. cbv zeta. unfold on_vehicle_command.
  rewrite (addressed_filter_gv _ cmd Ha).
  apply Z.eqb_eq in Hc. rewrite Hc. split; [reflexivity|].
  intros H1 H2 H3 Hn F1 F2.
  cbn [i_state with_control_data _control_data].
  now apply set_attitude_of_command.
Qed.

(** *** What the branches of an iteration leave alone *)

Lemma set_attitude_keeps_retract (is_roi_set : bool) (cd : ControlData) (flags : Z)
  (pitch_angle pitch_rate yaw_angle yaw_rate roll_angle roll_rate : float) :
  gimbal_shutter_retract
    (_set_control_data_from_set_attitude is_roi_set cd flags
       pitch_angle pitch_rate yaw_angle yaw_rate roll_angle roll_rate)
  = gimbal_shutter_retract cd.
Proof.
  unfold _set_control_data_from_set_attitude, apply_locks, apply_rates, assign_angles.
  repeat match goal with
         | |- context [if ?b then _ else _] => destruct b
         end; reflexivity.
Qed.

Lemma transform_keeps (s : State) (gpos : vehicle_global_position_s)
  (lo la al : double) :
  gimbal_shutter_retract (_control_data (_transform_lon_lat_to_angle s gpos lo la al))
  = gimbal_shutter_retract (_control_data s)
  /\ _cur_roi_mode (_transform_lon_lat_to_angle s gpos lo la al) = _cur_roi_mode s
  /\ _is_roi_set (_transform_lon_lat_to_angle s gpos lo la al) = _is_roi_set s.
Proof.
  unfold _transform_lon_lat_to_angle.
  destruct (if fge _ _ then _ else _) as [ref pitch]. cbn. auto.
Qed.

(** Replaces the state [_transform_lon_lat_to_angle] returns by a variable
    that comes with what [transform_keeps] says about it. *)
Ltac forget_transform :=
  cbv zeta;
  match goal with
  | |- context [_transform_lon_lat_to_angle ?a ?b ?c ?d ?e] =>
      let T := fresh "T" in
      pose proof (transform_keeps a b c d e) as T; revert T;
      generalize (_transform_lon_lat_to_angle a b c d e)
  end.

Lemma on_set_attitude_keeps (it : Iter) (sa : gimbal_manager_set_attitude_s) :
  same_roi_state (i_state it) (i_state (on_set_attitude it sa)).
Proof.
  unfold same_roi_state, on_set_attitude.
  cbn [i_state with_control_data _control_data _cur_roi_mode _is_roi_set].
  now rewrite set_attitude_keeps_retract.
Qed.

Lemma on_position_setpoint_keeps (it : Iter) (sp : position_setpoint_s)
  (gpos : vehicle_global_position_s) :
  same_roi_state (i_state it) (i_state (on_position_setpoint it sp gpos)).
Proof.
  unfold same_roi_state, on_position_setpoint.
  destruct (_cur_roi_mode (i_state it) =? ROI_WPNEXT); [|cbn [i_state]; auto].
  forget_transform. intros s' T. exact T.
Qed.

Lemma on_vehicle_command_keeps (it : Iter) (cmd : vehicle_command_s) :
  same_roi_state (i_state it) (i_state (on_vehicle_command it cmd)).
Proof.
  unfold same_roi_state, on_vehicle_command.
  destruct (negb _ || negb _); [cbn [i_state]; auto|].
  destruct (command cmd =? VEHICLE_CMD_DO_GIMBAL_MANAGER_ATTITUDE);
    cbn [i_state with_control_data _control_data _cur_roi_mode _is_roi_set]; [|auto].
  now rewrite set_attitude_keeps_retract.
Qed.

Lemma on_vehicle_roi_state (it : Iter) (roi : vehicle_roi_s)
  (sp : position_setpoint_s) (gpos : vehicle_global_position_s) :
  let s' := i_state (on_vehicle_roi it roi sp gpos) in
  gimbal_shutter_retract (_control_data s') = false
  /\ _cur_roi_mode s'
     = match accepted_mode roi with
       | Some m => m
       | None => _cur_roi_mode (i_state it)
       end
  /\ _is_roi_set s'
     = match accepted_mode roi with
       | Some m => negb (m =? ROI_NONE)
       | None => _is_roi_set (i_state it)
       end.
Proof.
  cbv zeta. unfold on_vehicle_roi, accepted_mode.
  destruct (roi_mode roi =? ROI_NONE) eqn:E1.
  { cbn [orb i_state with_roi with_control_data _control_data _cur_roi_mode _is_roi_set].
    rewrite E1. auto. }
  destruct (roi_mode roi =? ROI_WPNEXT) eqn:E2.
  { forget_transform. intros s' (T1 & T2 & T3).
    cbn [orb i_state with_roi _control_data _cur_roi_mode _is_roi_set].
    rewrite E1, T1. auto. }
  destruct (roi_mode roi =? ROI_LOCATION) eqn:E3.
  { forget_transform. intros s' (T1 & T2 & T3).
    cbn [orb i_state with_roi _control_data _cur_roi_mode _is_roi_set].
    rewrite E1, T1. auto. }
  cbn [orb i_state with_control_data _control_data _cur_roi_mode _is_roi_set]. auto.
Qed.

(** The state an iteration leaves: the retract flag is cleared when an ROI
    event was handled and is as it was otherwise, and the remembered ROI
    mode and [_is_roi_set] are those of the ROI event the poll makes the
    adapter accept, or unchanged. *)
Lemma on_poll_state (s : State) (out : bool) (acks : list vehicle_command_ack_s)
  (p : Poll) :
  0 < ret p ->
  let s' := i_state (on_poll s out acks p) in
  gimbal_shutter_retract (_control_data s')
  = (if roi_event p then false else gimbal_shutter_retract (_control_data s))
  /\ _cur_roi_mode s'
     = match accepted_roi p with Some m => m | None => _cur_roi_mode s end
  /\ _is_roi_set s'
     = match accepted_roi p with
       | Some m => negb (m =? ROI_NONE)
       | None => _is_roi_set s
       end.
Proof.
  intros Hr. cbv zeta.
  assert (Ha : accepted_roi p
               = match vehicle_roi p with Some roi => accepted_mode roi | None => None end).
  { unfold accepted_roi.
    now replace (0 <? ret p) with true by (symmetry; apply Z.ltb_lt; lia). }
  rewrite Ha. clear Ha.
  assert (Hb : roi_event p
               = match vehicle_roi p with Some _ => true | None => false end).
  { unfold roi_event.
    now replace (0 <? ret p) with true by (symmetry; apply Z.ltb_lt; lia). }
  rewrite Hb. clear Hb. unfold on_poll.
  assert (H0 : same_roi_state s (i_state (mkIter s out acks true)))
    by (unfold same_roi_state; cbn [i_state]; auto).
  revert H0. generalize (mkIter s out acks true). intros it0 (R0 & C0 & S0).
  assert (H1 : exists it1,
             match gimbal_manager_set_attitude p with
             | Some sa => on_set_attitude it0 sa
             | None => it0
             end = it1 /\ same_roi_state s (i_state it1)).
  { eexists. split; [reflexivity|].
    destruct (gimbal_manager_set_attitude p) as [sa|].
    - destruct (on_set_attitude_keeps it0 sa) as (R & C & S).
      unfold same_roi_state. rewrite R, C, S. auto.
    - unfold same_roi_state. auto. }
  destruct H1 as (it1 & -> & R1 & C1 & S1). clear it0 R0 C0 S0.
  assert (H2 : exists it2,
             match vehicle_roi p with
             | Some roi => on_vehicle_roi it1 roi (position_setpoint_triplet p)
                             (vehicle_global_position p)
             | None => it1
             end = it2
             /\ gimbal_shutter_retract (_control_data (i_state it2))
                = (if match vehicle_roi p with Some _ => true | None => false end
                   then false else gimbal_shutter_retract (_control_data s))
             /\ _cur_roi_mode (i_state it2)
                = match
                    match vehicle_roi p with
                    | Some roi => accepted_mode roi
                    | None => None
                    end
                  with Some m => m | None => _cur_roi_mode s end
             /\ _is_roi_set (i_state it2)
                = match
                    match vehicle_roi p with
                    | Some roi => accepted_mode roi
                    | None => None
                    end
                  with Some m => negb (m =? ROI_NONE) | None => _is_roi_set s end).
  { eexists. split; [reflexivity|].
    destruct (vehicle_roi p) as [roi|].
    - pose proof (on_vehicle_roi_state it1 roi (position_setpoint_triplet p)
                    (vehicle_global_position p)) as H. cbv zeta in H.
      destruct H as (R2 & C2 & S2). rewrite R2, C2, S2, C1, S1. auto.
    - rewrite R1, C1, S1. auto. }
  destruct H2 as (it2 & -> & R2 & C2 & S2). clear it1 R1 C1 S1.
  assert (H3 : exists it3,
             (if position_setpoint_pollin p
              then on_position_setpoint it2 (position_setpoint_triplet p)
                     (vehicle_global_position p)
              else it2) = it3 /\ same_roi_state (i_state it2) (i_state it3)).
  { eexists. split; [reflexivity|].
    destruct (position_setpoint_pollin p).
    - apply on_position_setpoint_keeps.
    - unfold same_roi_state. auto. }
  destruct H3 as (it3 & -> & R3 & C3 & S3).
  destruct (vehicle_command p) as [cmd|].
  - destruct (on_vehicle_command_keeps it3 cmd) as (R4 & C4 & S4).
    rewrite R4, C4, S4, R3, C3, S3. auto.
  - rewrite R3, C3, S3. auto.
Qed.

Lemma last_accepted_roi_fallback (ps : list Poll) (fb : option Z) :
  last_accepted_roi fb ps
  = match last_accepted_roi None ps with Some m => Some m | None => fb end.
Proof.
  revert fb. induction ps as [|p ps IH]; intros fb; cbn [last_accepted_roi].
  - reflexivity.
  - rewrite IH. rewrite (IH (match accepted_roi p with Some m => Some m | None => None end)).
    destruct (last_accepted_roi None ps); [reflexivity|].
    destruct (accepted_roi p); reflexivity.
Qed.

(** The loop: the polls it asked for are a prefix of the environment, the
    retract flag is cleared when one of them brought an ROI event and is
    as it was otherwise, and the remembered ROI mode and [_is_roi_set] are
    those of the last ROI event accepted on the way. *)
Lemma update_loop_state (env : list Poll) :
  forall status s t out acks r,
    update_loop env status s t out acks = Some r ->
    exists pre,
      env = pre ++ r_pending r
      /\ gimbal_shutter_retract (_control_data (r_state r))
         = (if existsb roi_event pre then false
            else gimbal_shutter_retract (_control_data s))
      /\ _cur_roi_mode (r_state r)
         = match last_accepted_roi None pre with
           | Some m => m
           | None => _cur_roi_mode s
           end
      /\ _is_roi_set (r_state r)
         = match last_accepted_roi None pre with
           | Some m => negb (m =? ROI_NONE)
           | None => _is_roi_set s
           end.
Proof.
  induction env as [|p env IH]; intros status s t out acks r H;
    cbn [update_loop] in H.
  - destruct (t <? 0); [|discriminate]. inversion H; subst; clear H.
    exists []. cbn. auto.
  - destruct (t <? 0).
    { inversion H; subst; clear H. exists []. cbn. auto. }
    destruct (ret p <? 0) eqn:Hneg.
    { inversion H; subst; clear H. exists [p].
      cbn [app r_pending r_state last_accepted_roi existsb].
      unfold accepted_roi, roi_event.
      replace (0 <? ret p) with false
        by (symmetry; apply Z.ltb_ge; apply Z.ltb_lt in Hneg; lia).
      cbn. auto. }
    destruct (ret p =? 0) eqn:Hz.
    { inversion H; subst; clear H. exists [p].
      cbn [app r_pending r_state last_accepted_roi existsb].
      unfold accepted_roi, roi_event.
      replace (0 <? ret p) with false
        by (symmetry; apply Z.ltb_ge; apply Z.eqb_eq in Hz; lia).
      cbn. auto. }
    assert (Hr : 0 < ret p)
      by (apply Z.ltb_ge in Hneg; apply Z.eqb_neq in Hz; lia).
    pose proof (on_poll_state s out acks p Hr) as Hp. cbv zeta in Hp.
    destruct Hp as (R1 & C1 & S1).
    destruct (i_exit_loop (on_poll s out acks p)).
    + inversion H; subst; clear H. exists [p].
      cbn [app r_pending r_state last_accepted_roi existsb].
      rewrite R1, C1, S1, orb_false_r. destruct (accepted_roi p); auto.
    + destruct (IH _ _ _ _ _ _ H) as (pre & E & R2 & C2 & S2).
      exists (p :: pre). split; [now rewrite E|].
      cbn [last_accepted_roi existsb]. rewrite last_accepted_roi_fallback.
      rewrite R2, C2, S2, R1, C1, S1. split; [|split].
      * destruct (roi_event p), (existsb roi_event pre); reflexivity.
      * destruct (last_accepted_roi None pre); [auto|].
        destruct (accepted_roi p); auto.
      * destruct (last_accepted_roi None pre); [auto|].
        destruct (accepted_roi p); auto.
Qed.

Lemma update_impl_state (s : State) (device_flags : option Z) (timeout_ms : Z)
  (env : list Poll) (r : Result) :
  update_impl s device_flags timeout_ms env = Some r ->
  exists pre,
    env = pre ++ r_pending r
    /\ gimbal_shutter_retract (_control_data (r_state r))
       = (if existsb roi_event pre then false
          else gimbal_shutter_retract (_control_data s))
    /\ _cur_roi_mode (r_state r)
       = match last_accepted_roi None pre with
         | Some m => m
         | None => _cur_roi_mode s
         end
    /\ _is_roi_set (r_state r)
       = match last_accepted_roi None pre with
         | Some m => negb (m =? ROI_NONE)
         | None => _is_roi_set s
         end.
Proof.
  unfold update_impl, _stream_gimbal_manager_status. intros H.
  apply update_loop_state in H. exact H.
Qed.

Lemma gv_reachable_invariant (s : State) :
  reachable s -> (_is_roi_set s = true <-> _cur_roi_mode s <> ROI_NONE).
Proof.
  intros H. induction H as [s H1 H2|s d t env r H IH E].
  - rewrite H1, H2. split; [discriminate|congruence].
  - destruct (update_impl_state s d t env r E) as (pre & _ & _ & C & S).
    rewrite C, S.
    destruct (last_accepted_roi None pre) as [m|]; [|exact IH].
    rewrite negb_true_iff, Z.eqb_neq. tauto.
Qed.

Lemma filter_addressed_gv (s : State) (cmd : vehicle_command_s) :
  negb (sysid_correct s cmd) || negb (compid_correct s cmd) = false ->
  addressed s cmd.
Proof.
  unfold sysid_correct, compid_correct, addressed. intros H.
  apply orb_false_elim in H as [H1 H2].
  apply negb_false_iff in H1, H2.
  apply orb_true_iff in H1, H2. rewrite !Z.eqb_eq in H1, H2. tauto.
Qed.

(** The branch for an ROI event, at mode [ROI_NONE]: the record is handed
    out with type [Neutral], the remembered mode is [ROI_NONE] and
    [_is_roi_set] is false. *)
Lemma on_vehicle_roi_none (it : Iter) (roi : vehicle_roi_s)
  (sp : position_setpoint_s) (gpos : vehicle_global_position_s) :
  roi_mode roi = ROI_NONE ->
  let it' := on_vehicle_roi it roi sp gpos in
  i_control_data it' = true
  /\ type (_control_data (i_state it')) = Neutral
  /\ gimbal_shutter_retract (_control_data (i_state it')) = false
  /\ _cur_roi_mode (i_state it') = ROI_NONE
  /\ _is_roi_set (i_state it') = false.
Proof.
  intros Hm. cbv zeta. unfold on_vehicle_roi. rewrite Hm, Z.eqb_refl.
  cbn. auto.
Qed.

(** A poll that delivers an ROI event with mode [ROI_NONE], and no
    [DO_GIMBAL_MANAGER_ATTITUDE] command addressed to the adapter, which
    the same iteration would handle after it: the record is handed out
    with type [Neutral], the remembered mode is [ROI_NONE] and
    [_is_roi_set] is false. *)
Lemma on_poll_roi_none (s : State) (out : bool) (acks : list vehicle_command_ack_s)
  (p : Poll) (roi : vehicle_roi_s) :
  ROI_NONE <> ROI_WPNEXT ->
  vehicle_roi p = Some roi -> roi_mode roi = ROI_NONE ->
  (forall cmd, vehicle_command p = Some cmd -> addressed s cmd ->
               command cmd <> VEHICLE_CMD_DO_GIMBAL_MANAGER_ATTITUDE) ->
  let it := on_poll s out acks p in
  i_control_data it = true
  /\ type (_control_data (i_state it)) = Neutral
  /\ _cur_roi_mode (i_state it) = ROI_NONE
  /\ _is_roi_set (i_state it) = false.
Proof.
  intros Hd Hroi Hm Hcmd. cbv zeta. unfold on_poll. rewrite Hroi.
  assert (H1 : exists it1,
             match gimbal_manager_set_attitude p with
             | Some sa => on_set_attitude (mkIter s out acks true) sa
             | None => mkIter s out acks true
             end = it1
             /\ _mav_sys_id (i_state it1) = _mav_sys_id s
             /\ _mav_comp_id (i_state it1) = _mav_comp_id s).
  { eexists. split; [reflexivity|].
    destruct (gimbal_manager_set_attitude p); split; reflexivity. }
  destruct H1 as (it1 & -> & Is & Ic).
  unfold on_vehicle_roi. rewrite Hm, Z.eqb_refl.
  set (s2 := with_roi _ ROI_NONE false).
  assert (H2 : type (_control_data s2) = Neutral /\ _cur_roi_mode s2 = ROI_NONE
               /\ _is_roi_set s2 = false /\ _mav_sys_id s2 = _mav_sys_id s
               /\ _mav_comp_id s2 = _mav_comp_id s)
    by (subst s2; cbn; auto).
  clearbody s2. destruct H2 as (T2 & C2 & S2 & Is2 & Ic2).
  assert (H3 : exists e3,
             (if position_setpoint_pollin p
              then on_position_setpoint (mkIter s2 true (i_acks it1) (i_exit_loop it1))
                     (position_setpoint_triplet p) (vehicle_global_position p)
              else mkIter s2 true (i_acks it1) (i_exit_loop it1))
             = mkIter s2 true (i_acks it1) e3).
  { destruct (position_setpoint_pollin p); [|eexists; reflexivity].
    unfold on_position_setpoint. cbn [i_state i_control_data i_acks].
    rewrite C2. apply Z.eqb_neq in Hd. rewrite Hd. eexists; reflexivity. }
  destruct H3 as (e3 & ->).
  destruct (vehicle_command p) as [cmd|]; [|cbn; auto].
  unfold on_vehicle_command. cbn [i_state i_control_data i_acks i_exit_loop].
  destruct (negb (sysid_correct s2 cmd) || negb (compid_correct s2 cmd)) eqn:Hf;
    [cbn; auto|].
  apply filter_addressed_gv in Hf.
  assert (Ha : addressed s cmd)
    by (unfold addressed in *; rewrite <- Is2, <- Ic2; exact Hf).
  specialize (Hcmd cmd eq_refl Ha). apply Z.eqb_neq in Hcmd. rewrite Hcmd.
  cbn. auto.
Qed.

(** The loop returns when the environment ends with a poll that times
    out or fails. *)
Lemma gv_update_loop_returns (env : list Poll) (q : Poll) :
  ret q <= 0 ->
  forall status s t out acks,
    exists r, update_loop (env ++ [q]) status s t out acks = Some r.
Proof.
  intros Hq. induction env as [|p env IH]; intros status s t out acks;
    cbn [app update_loop].
  - destruct (t <? 0); [eexists; reflexivity|].
    destruct (ret q <? 0) eqn:E; [eexists; reflexivity|].
    replace (ret q =? 0) with true
      by (symmetry; apply Z.eqb_eq; apply Z.ltb_ge in E; lia).
    eexists; reflexivity.
  - destruct (t <? 0); [eexists; reflexivity|].
    destruct (ret p <? 0); [eexists; reflexivity|].
    destruct (ret p =? 0); [eexists; reflexivity|].
    destruct (i_exit_loop (on_poll s out acks p)); [eexists; reflexivity|apply IH].
Qed.

(** An update whose first poll delivers an ROI event with mode [ROI_NONE],
    no position setpoint and no command returns at once with the neutral
    record. *)
Lemma update_impl_roi_none (s : State) (device_flags : option Z) (timeout_ms : Z)
  (p : Poll) (roi : vehicle_roi_s) (env : list Poll) :
  0 <= to_int32 timeout_ms -> 0 < ret p ->
  vehicle_roi p = Some roi -> roi_mode roi = ROI_NONE ->
  position_setpoint_pollin p = false -> vehicle_command p = None ->
  exists r,
    update_impl s device_flags timeout_ms (p :: env) = Some r
    /\ r_ret r = 0
    /\ r_control_data r = true
    /\ r_pending r = env
    /\ type (_control_data (r_state r)) = Neutral
    /\ _cur_roi_mode (r_state r) = ROI_NONE
    /\ _is_roi_set (r_state r) = false.
Proof.
  intros Ht Hr Hroi Hm Hsp Hc. unfold update_impl.
  destruct (_stream_gimbal_manager_status s device_flags) as [s1 status].
  cbn [update_loop].
  replace (to_int32 timeout_ms <? 0) with false by (symmetry; apply Z.ltb_ge; lia).
  replace (ret p <? 0) with false by (symmetry; apply Z.ltb_ge; lia).
  replace (ret p =? 0) with false by (symmetry; apply Z.eqb_neq; lia).
  assert (E : exists s2,
             on_poll s1 false [] p = mkIter s2 true [] true
             /\ type (_control_data s2) = Neutral
             /\ _cur_roi_mode s2 = ROI_NONE /\ _is_roi_set s2 = false).
  { unfold on_poll. rewrite Hroi, Hsp, Hc.
    destruct (gimbal_manager_set_attitude p) as [sa|];
      unfold on_vehicle_roi; rewrite Hm, Z.eqb_refl;
      eexists; (split; [reflexivity|]); cbn; auto. }
  destruct E as (s2 & -> & T & C & S). cbn [i_exit_loop i_control_data i_state i_acks].
  eexists. split; [reflexivity|].
  cbn [r_ret r_control_data r_pending r_state]. repeat split; assumption.
Qed.

End GimbalV2Properties.

(** ** Across the adapters *)

Section AdapterProperties.
Context {K : Constants} {P : Platform}.


(** C9, as the code has it.  An ROI event with mode [ROI_NONE]: the ROI
    adapter hands out a record of type [Neutral] and remembers
    [ROI_NONE]; in the
    gimbal-manager adapter the branch that handles the event hands out the
    record with type [Neutral], remembers [ROI_NONE] and clears
    [_is_roi_set].  That is the state at the end of the iteration unless a
    [DO_GIMBAL_MANAGER_ATTITUDE] command addressed to the adapter arrives
    in the same poll (it is handled after the event), and an update whose
    poll delivers the event without a position setpoint or a command
    returns this record.  In the gimbal-manager adapter [_is_roi_set] is
    true exactly when the remembered ROI mode is not [ROI_NONE], in every
    state from a fresh adapter on; and after an update the remembered mode
    is that of the last ROI event accepted during the update ([ROI_NONE],
    [ROI_WPNEXT] or [ROI_LOCATION]), with [_is_roi_set] true exactly when
    that mode is not [ROI_NONE], both unchanged when no ROI event was
    accepted. *)
Theorem C9_roi_none_and_target_flag :
  ROI_NONE <> ROI_WPNEXT ->
  (forall s timeout_ms p roi,
      0 < InputMavlinkROI.ret p ->
      InputMavlinkROI.vehicle_roi p = Some roi ->
      roi_mode roi = ROI_NONE ->
      exists s',
        InputMavlinkROI.update_impl s timeout_ms p = (0, true, s')
        /\ type (InputMavlinkROI._control_data s') = Neutral
        /\ InputMavlinkROI._cur_roi_mode s' = ROI_NONE)
  /\ (forall it roi sp gpos,
        roi_mode roi = ROI_NONE ->
        let it' := InputMavlinkGimbalV2.on_vehicle_roi it roi sp gpos in
        InputMavlinkGimbalV2.i_control_data it' = true
        /\ type (InputMavlinkGimbalV2._control_data (InputMavlinkGimbalV2.i_state it'))
           = Neutral
        /\ InputMavlinkGimbalV2._cur_roi_mode (InputMavlinkGimbalV2.i_state it')
           = ROI_NONE
        /\ InputMavlinkGimbalV2._is_roi_set (InputMavlinkGimbalV2.i_state it') = false)
  /\ (forall s out acks p roi,
        InputMavlinkGimbalV2.vehicle_roi p = Some roi ->
        roi_mode roi = ROI_NONE ->
        (forall cmd, InputMavlinkGimbalV2.vehicle_command p = Some cmd ->
                     InputMavlinkGimbalV2.addressed s cmd ->
                     command cmd <> VEHICLE_CMD_DO_GIMBAL_MANAGER_ATTITUDE) ->
        let it := InputMavlinkGimbalV2.on_poll s out acks p in
        InputMavlinkGimbalV2.i_control_data it = true
        /\ type (InputMavlinkGimbalV2._control_data (InputMavlinkGimbalV2.i_state it))
           = Neutral
        /\ InputMavlinkGimbalV2._cur_roi_mode (InputMavlinkGimbalV2.i_state it)
           = ROI_NONE
        /\ InputMavlinkGimbalV2._is_roi_set (InputMavlinkGimbalV2.i_state it) = false)
  /\ (forall s device_flags timeout_ms p roi env,
        0 <= to_int32 timeout_ms -> 0 < InputMavlinkGimbalV2.ret p ->
        InputMavlinkGimbalV2.vehicle_roi p = Some roi ->
        roi_mode roi = ROI_NONE ->
        InputMavlinkGimbalV2.position_setpoint_pollin p = false ->
        InputMavlinkGimbalV2.vehicle_command p = None ->
        exists r,
          InputMavlinkGimbalV2.update_impl s device_flags timeout_ms (p :: env) = Some r
          /\ InputMavlinkGimbalV2.r_ret r = 0
          /\ InputMavlinkGimbalV2.r_control_data r = true
          /\ InputMavlinkGimbalV2.r_pending r = env
          /\ type (InputMavlinkGimbalV2._control_data (InputMavlinkGimbalV2.r_state r))
             = Neutral
          /\ InputMavlinkGimbalV2._cur_roi_mode (InputMavlinkGimbalV2.r_state r)
             = ROI_NONE
          /\ InputMavlinkGimbalV2._is_roi_set (InputMavlinkGimbalV2.r_state r) = false)
  /\ (forall s, InputMavlinkGimbalV2.reachable s ->
        (InputMavlinkGimbalV2._is_roi_set s = true
         <-> InputMavlinkGimbalV2._cur_roi_mode s <> ROI_NONE))
  /\ (forall s device_flags timeout_ms env r,
        InputMavlinkGimbalV2.update_impl s device_flags timeout_ms env = Some r ->
        exists pre,
          env = pre ++ InputMavlinkGimbalV2.r_pending r
          /\ InputMavlinkGimbalV2._cur_roi_mode (InputMavlinkGimbalV2.r_state r)
             = match InputMavlinkGimbalV2.last_accepted_roi None pre with
               | Some m => m
               | None => InputMavlinkGimbalV2._cur_roi_mode s
               end
          /\ InputMavlinkGimbalV2._is_roi_set (InputMavlinkGimbalV2.r_state r)
             = match InputMavlinkGimbalV2.last_accepted_roi None pre with
               | Some m => negb (m =? ROI_NONE)
               | None => InputMavlinkGimbalV2._is_roi_set s
               end).
Proof.
  intros Hd. split; [|split; [|split; [|split; [|split]]]].
  - intros s t p roi Hr Hroi Hm. now apply roi_none_neutral with (roi := roi).
  - intros it roi sp gpos Hm.
    pose proof (on_vehicle_roi_none it roi sp gpos Hm) as H. cbv zeta in *. tauto.
  - intros s out acks p roi Hroi Hm Hcmd. now apply on_poll_roi_none with (roi := roi).
  - intros s d t p roi env Ht Hr Hroi Hm Hsp Hc.
    now apply update_impl_roi_none with (roi := roi).
  - intros s Hs. exact (gv_reachable_invariant s Hs).
  - intros s d t env r H.
    destruct (update_impl_state s d t env r H) as (pre & E & _ & C & S).
    exists pre. auto.
Qed.

End AdapterProperties.

(** ** The statements at concrete inputs *)

Lemma px4_mount_modes_distinct :
  InputMavlinkCmdMount.mount_modes_distinct (K := px4_constants).
Proof.
  unfold InputMavlinkCmdMount.mount_modes_distinct. cbn.
  repeat (constructor; [cbn; intuition discriminate|]). constructor.
Qed.


(** C1 at a command for component 5 sent to the adapter of component 1,
    followed by a poll that times out: no record, no acknowledgement. *)
Lemma C1_component_5_is_skipped :
  exists pending,
    InputMavlinkCmdMount.update_impl (K := px4_constants) (P := px4_platform)
      cm_state0 100 [cm_poll cmd_for_component_5; cm_poll_timeout]
    = Some (InputMavlinkCmdMount.mkResult 0 false cm_state0 [] pending).
Proof.
  refine (proj2 (C1_misaddressed_command_skipped (K := px4_constants) (P := px4_platform)
                   cm_state0 (cm_poll cmd_for_component_5) cmd_for_component_5
                   _ eq_refl _) 100 cm_poll_timeout [] eq_refl).
  - cbn. lia.
  - right. cbn. split; discriminate.
Defined.

(** C2 at param1 = 10 and param2 = 20 degrees: channel 0 is 20 times
    [M_DEG_TO_RAD_F], channel 1 is 10 times [M_DEG_TO_RAD_F]. *)
Lemma C2_ten_and_twenty_degrees :
  exists cd,
    InputMavlinkCmdMount.update_loop (K := px4_constants) (P := px4_platform)
      [cm_poll cmd_mavlink_targeting] cm_state0 100 false []
    = Some (InputMavlinkCmdMount.mkResult 0 true
              (InputMavlinkCmdMount.mkState cd 1 1)
              [mk_vehicle_command_ack 205 0 255 190] [])
    /\ type cd = Angle
    /\ frames cd = mk3 AngleBodyFrame AngleBodyFrame AngleBodyFrame
    /\ get3 (angles cd) 0 = fmul f_20 M_DEG_TO_RAD_F
    /\ get3 (angles cd) 1 = fmul f_10 M_DEG_TO_RAD_F
    /\ get3 (angles cd) 2
       = InputMavlinkCmdMount.yaw_to_pi_range (fmul f_270 M_DEG_TO_RAD_F).
Proof.
  refine (C2_mavlink_targeting_swaps_roll_and_pitch
            (K := px4_constants) (P := px4_platform)
            cm_state0 100 false [] (cm_poll cmd_mavlink_targeting)
            cmd_mavlink_targeting [] px4_mount_modes_distinct _ _ eq_refl _ eq_refl eq_refl).
  - lia.
  - cbn. lia.
  - split; [reflexivity|left; reflexivity].
Defined.

(** C3 at a yaw of 270 degrees, which is above [M_PI_F] and below
    [2 * M_PI_F]: the record holds it less [2 * M_PI_F]. *)
Lemma C3_yaw_of_270_degrees :
  exists r,
    InputMavlinkCmdMount.update_loop (K := px4_constants) (P := px4_platform)
      [cm_poll cmd_mavlink_targeting] cm_state0 100 false [] = Some r
    /\ InputMavlinkCmdMount.r_control_data r = true
    /\ get3 (angles (InputMavlinkCmdMount._control_data
                       (InputMavlinkCmdMount.r_state r))) 2
       = (if fgt (fmul f_270 M_DEG_TO_RAD_F) M_PI_F
          then fsub (fmul f_270 M_DEG_TO_RAD_F) TWO_PI_F
          else fmul f_270 M_DEG_TO_RAD_F)
    /\ (fgt (fmul f_270 M_DEG_TO_RAD_F) M_PI_F = true ->
        scaled (get3 (angles (InputMavlinkCmdMount._control_data
                                (InputMavlinkCmdMount.r_state r))) 2)
        = scaled (fmul f_270 M_DEG_TO_RAD_F) - scaled TWO_PI_F)
    /\ flt (fneg M_PI_F)
         (get3 (angles (InputMavlinkCmdMount._control_data
                          (InputMavlinkCmdMount.r_state r))) 2) = true
    /\ fle (get3 (angles (InputMavlinkCmdMount._control_data
                            (InputMavlinkCmdMount.r_state r))) 2) M_PI_F = true.
Proof.
  refine (C3_mavlink_targeting_yaw_range
            (K := px4_constants) (P := px4_platform)
            cm_state0 100 false [] (cm_poll cmd_mavlink_targeting)
            cmd_mavlink_targeting [] px4_mount_modes_distinct _ _ eq_refl _ eq_refl eq_refl
            eq_refl eq_refl eq_refl).
  - lia.
  - cbn. lia.
  - split; [reflexivity|left; reflexivity].
Defined.

(** The yaw of 270 degrees comes out as -13176796 * 2^-23, the binary32
    number next to [- M_PI_F / 2] = -13176795 * 2^-23. *)
Example yaw_of_270_degrees :
  InputMavlinkCmdMount.yaw_to_pi_range (fmul f_270 M_DEG_TO_RAD_F)
  = S754_finite true 13176796 (-23).
Proof. reflexivity. Qed.

(** C4 at two nudges by the same event on the record (1, 2, 3): the
    angles of the event, (10, 20, 3), are added twice. *)
Lemma C4_two_nudges :
  exists r1 r2,
    InputMavlinkGimbalV2.update_impl (K := px4_constants) (P := px4_platform)
      gv_state_target None 100 [gv_poll_attitude sa_nudge] = Some r1
    /\ InputMavlinkGimbalV2.update_impl (K := px4_constants) (P := px4_platform)
         (InputMavlinkGimbalV2.r_state r1) None 100 [gv_poll_attitude sa_nudge]
       = Some r2
    /\ InputMavlinkGimbalV2.r_control_data r2 = true
    /\ type (InputMavlinkGimbalV2._control_data (InputMavlinkGimbalV2.r_state r2))
       = Angle
    /\ angles (InputMavlinkGimbalV2._control_data (InputMavlinkGimbalV2.r_state r2))
       = mk3 (fadd (fadd f_1 f_10) f_10) (fadd (fadd f_2 f_20) f_20)
             (fadd (fadd f_3 f_3) f_3).
Proof.
  refine (C4_nudge_accumulates (K := px4_constants) (P := px4_platform)
            gv_state_target None None 100 100
            (gv_poll_attitude sa_nudge) (gv_poll_attitude sa_nudge)
            sa_nudge sa_nudge [] [] eq_refl _ _ _ _ _ _);
    try (cbn; lia);
    try (repeat split; cbn; lia);
    repeat split; reflexivity.
Defined.

(** C5 at an event with the roll-lock and yaw-lock flags, a finite yaw
    rate of 1 and angles (10, 20, 3): channel 0 keeps the angle with an
    absolute frame, channel 1 keeps the angle with a body frame, channel 2
    takes the rate with an absolute frame. *)
Lemma C5_locks_and_yaw_rate :
  let cd' :=
    InputMavlinkGimbalV2._set_control_data_from_set_attitude
      (K := px4_constants) false cd0 20 f_10 nan f_3 f_1 f_20 nan in
  type cd' = Angle
  /\ angles cd' = mk3 f_10 f_20 f_1
  /\ frames cd' = mk3 AngleAbsoluteFrame AngleBodyFrame AngleAbsoluteFrame.
Proof.
  pose proof (C5_rate_and_lock_per_axis (K := px4_constants)
                false cd0 20 f_10 nan f_3 f_1 f_20 nan eq_refl eq_refl eq_refl) as H.
  cbv zeta in *. destruct H as (H0 & H1 & H2 & H3 & H4 & H5 & H6).
  split; [exact H0|].
  split; reflexivity.
Defined.

(** C7 at a [DO_MOUNT_CONTROL] command with sub-mode [RC_TARGETING]: it
    is acknowledged and the update returns without a record. *)
Lemma C7_rc_targeting_is_acknowledged :
  InputMavlinkCmdMount.update_loop (K := px4_constants) (P := px4_platform)
    [cm_poll cmd_rc_targeting; cm_poll_timeout] cm_state0 100 false []
  = Some (InputMavlinkCmdMount.mkResult 0 false
            (InputMavlinkCmdMount.mkState
               (set_gimbal_shutter_retract cd0 false) 1 1)
            [InputMavlinkCmdMount._ack_vehicle_command (K := px4_constants)
               cmd_rc_targeting]
            [cm_poll_timeout]).
Proof.
  refine (proj1 (C7_unsupported_mount_control_is_acknowledged
                   (K := px4_constants) (P := px4_platform)
                   cm_state0 100 false [] (cm_poll cmd_rc_targeting) cmd_rc_targeting
                   [cm_poll_timeout] px4_mount_modes_distinct _ _ eq_refl _)
            eq_refl (or_introl eq_refl)).
  - lia.
  - cbn. lia.
  - split; [reflexivity|left; reflexivity].
Defined.

(** C7 as stated fails at a [DO_MOUNT_CONTROL] command with sub-mode
    [RC_TARGETING] addressed to the adapter, with a poll that times out
    behind it: the update publishes an acknowledgement to the sender
    (system 255, component 190) and returns without asking for the
    second poll. *)
Lemma C7_counterexample :
  exists r,
    InputMavlinkCmdMount.update_impl (K := px4_constants) (P := px4_platform)
      cm_state0 100 [cm_poll cmd_rc_targeting; cm_poll_timeout] = Some r
    /\ InputMavlinkCmdMount.r_control_data r = false
    /\ InputMavlinkCmdMount.r_acks r = [mk_vehicle_command_ack 205 0 255 190]
    /\ InputMavlinkCmdMount.r_pending r = [cm_poll_timeout].
Proof. eexists. split; [reflexivity|]. repeat split. Qed.


(** C9 at an ROI event with mode [ROI_NONE] on an adapter with a target:
    the record is neutral, the mode [ROI_NONE], the target flag false. *)
Lemma C9_roi_none_clears_target :
  let it :=
    InputMavlinkGimbalV2.on_poll (K := px4_constants) (P := px4_platform)
      gv_state_target false [] (gv_poll_roi roi_none) in
  InputMavlinkGimbalV2.i_control_data it = true
  /\ type (InputMavlinkGimbalV2._control_data (InputMavlinkGimbalV2.i_state it))
     = Neutral
  /\ InputMavlinkGimbalV2._cur_roi_mode (InputMavlinkGimbalV2.i_state it) = 0
  /\ InputMavlinkGimbalV2._is_roi_set (InputMavlinkGimbalV2.i_state it) = false.
Proof.
  refine (proj1 (proj2 (proj2 (C9_roi_none_and_target_flag
                                 (K := px4_constants) (P := px4_platform) _)))
            gv_state_target false [] (gv_poll_roi roi_none) roi_none eq_refl eq_refl _).
  - cbn. discriminate.
  - intros cmd H. discriminate H.
Defined.

(** C9 as stated fails at the gimbal-manager adapter with a target when
    the poll that delivers the [ROI_NONE] event also delivers a
    [DO_GIMBAL_MANAGER_ATTITUDE] command addressed to the adapter.  The
    event is accepted (the remembered mode is [ROI_NONE], the target flag
    false), the command is handled after it, and the record the update
    hands out has type [Angle], not [Neutral]. *)
Lemma C9_counterexample :
  exists r,
    InputMavlinkGimbalV2.update_impl (K := px4_constants) (P := px4_platform)
      gv_state_target None 100 [gv_poll_roi_none_and_command] = Some r
    /\ InputMavlinkGimbalV2.accepted_roi (K := px4_constants)
         gv_poll_roi_none_and_command = Some 0
    /\ InputMavlinkGimbalV2.r_control_data r = true
    /\ InputMavlinkGimbalV2._cur_roi_mode (InputMavlinkGimbalV2.r_state r) = 0
    /\ InputMavlinkGimbalV2._is_roi_set (InputMavlinkGimbalV2.r_state r) = false
    /\ type (InputMavlinkGimbalV2._control_data (InputMavlinkGimbalV2.r_state r))
       = Angle.
Proof. eexists. split; [reflexivity|]. repeat split. Qed.

(** C10 at a command with param3 = 1.0, no rates and no flag, with the
    declared defaults 0 and 0: the handler gets param3 twice, and the
    finite default roll rate ends up in channel 0. *)
Lemma C10_attitude_command :
  let it := InputMavlinkGimbalV2.mkIter gv_state0 false [] true in
  let it' :=
    InputMavlinkGimbalV2.on_vehicle_command (K := px4_constants) (P := px4_platform)
      it cmd_gimbal_attitude in
  it' = InputMavlinkGimbalV2.mkIter
          (InputMavlinkGimbalV2.with_control_data gv_state0
             (InputMavlinkGimbalV2._set_control_data_from_set_attitude
                (K := px4_constants) false cd0 0 f_1 nan f_1 nan zero zero))
          true [mk_vehicle_command_ack 1000 0 255 190] true
  /\ angles (InputMavlinkGimbalV2._control_data (InputMavlinkGimbalV2.i_state it'))
     = mk3 zero zero f_1.
Proof.
  pose proof (C10_command_uses_param3_for_pitch_and_yaw
                (K := px4_constants) (P := px4_platform)
                (InputMavlinkGimbalV2.mkIter gv_state0 false [] true)
                cmd_gimbal_attitude) as H.
  cbv zeta in *.
  destruct H as [H1 H2].
  - split; [left; reflexivity|left; reflexivity].
  - reflexivity.
  - split; [exact H1|].
    exact (H2 eq_refl eq_refl eq_refl eq_refl eq_refl eq_refl).
Defined.

(** C10 as stated fails at that command: with the declared default roll
    rate 0, which is finite, channel 0 (where the handler stores its pitch
    angle argument) ends as the rate 0 in an angular-rate frame and channel
    1 as the default roll angle 0, while channel 2 holds param3 = 1.0;
    neither equals the yaw channel. *)
Lemma C10_counterexample :
  let cd' :=
    InputMavlinkGimbalV2._control_data
      (InputMavlinkGimbalV2.i_state
         (InputMavlinkGimbalV2.on_vehicle_command
            (K := px4_constants) (P := px4_platform)
            (InputMavlinkGimbalV2.mkIter gv_state0 false [] true)
            cmd_gimbal_attitude)) in
  angles cd' = mk3 zero zero f_1
  /\ frames cd' = mk3 AngularRate AngleBodyFrame AngleBodyFrame
  /\ SFeqb (get3 (angles cd') 0) (get3 (angles cd') 2) = false
  /\ SFeqb (get3 (angles cd') 1) (get3 (angles cd') 2) = false.
Proof. cbv zeta. repeat split. Qed.

(** * Further properties *)

(** ** From binary32 to binary64 and back *)

Lemma iter_pos_commute {A : Type} (f : A -> A) (n : positive) (x : A) :
  iter_pos f n (f x) = f (iter_pos f n x).
Proof.
  revert x. induction n as [n IH|n IH|]; intros x; cbn [iter_pos].
  - now rewrite !IH.
  - now rewrite !IH.
  - reflexivity.
Qed.

Lemma iter_pos_succ {A : Type} (f : A -> A) (n : positive) (x : A) :
  iter_pos f (Pos.succ n) x = iter_pos f n (f x).
Proof.
  revert x. induction n as [n IH|n IH|]; intros x; cbn [iter_pos Pos.succ].
  - rewrite !IH. now rewrite <- !iter_pos_commute.
  - reflexivity.
  - reflexivity.
Qed.

(** Shifting right the bits that a shift to the left has put in loses
    nothing. *)
Lemma shr_iter_xO (m k : positive) :
  iter_pos shr_1 k {| shr_m := Z.pos (Pos.iter xO m k); shr_r := false; shr_s := false |}
  = {| shr_m := Z.pos m; shr_r := false; shr_s := false |}.
Proof.
  induction k as [|k IH] using Pos.peano_ind.
  - reflexivity.
  - rewrite Pos.iter_succ, iter_pos_succ. exact IH.
Qed.

Lemma valid_finite_canonical (s : bool) (m : positive) (e : Z) :
  is_valid (S754_finite s m e) = true ->
  Z.max (Z.pos (digits2_pos m) + e - 24) (-149) = e /\ e <= 104.
Proof.
  unfold is_valid, valid_binary, bounded, canonical_mantissa, fexp, emin, prec, emax.
  intros H. apply andb_prop in H as [H1 H2].
  apply Z.eqb_eq in H1. apply Z.leb_le in H2. lia.
Qed.

(** A binary32 number is a binary64 number: its mantissa is shifted to
    the left until it fills the 53 bits. *)
Lemma of_float_finite (s : bool) (m : positive) (e : Z) :
  is_valid (S754_finite s m e) = true ->
  let k := Z.to_pos (53 - Z.pos (digits2_pos m)) in
  F64.of_float (S754_finite s m e) = S754_finite s (Pos.iter xO m k) (e - Z.pos k).
Proof.
  intros Hv k. apply valid_finite_canonical in Hv as [Hc He].
  assert (Hk : Z.pos k = 53 - Z.pos (digits2_pos m)) by (subst k; lia).
  assert (Hd : Z.pos (digits2_pos (Pos.iter xO m k)) = 53)
    by (rewrite digits2_iter_xO; lia).
  unfold F64.of_float, binary_round, shl_align, fexp, emin, F64.prec, F64.emax.
  replace (Z.max (Z.pos (digits2_pos m) + e - 53) (3 - 1024 - 53) - e)
    with (Z.neg k) by lia.
  replace (Z.max (Z.pos (digits2_pos m) + e - 53) (3 - 1024 - 53))
    with (e - Z.pos k) by lia.
  unfold binary_round_aux, shr_fexp, fexp, emin.
  cbn [Zdigits2 shr_record_of_loc]. rewrite Hd.
  replace (Z.max (53 + (e - Z.pos k) - 53) (3 - 1024 - 53) - (e - Z.pos k))
    with 0 by lia.
  cbn [shr shr_m loc_of_shr_record round_nearest_even Zdigits2]. rewrite Hd.
  replace (Z.max (53 + (e - Z.pos k) - 53) (3 - 1024 - 53) - (e - Z.pos k))
    with 0 by lia.
  cbn [shr shr_m].
  replace (e - Z.pos k <=? 1024 - 53) with true by (symmetry; apply Z.leb_le; lia).
  reflexivity.
Qed.

(** Converting a binary32 number to binary64 and back gives the number
    itself. *)
Lemma to_float_of_float (x : float) :
  is_valid x = true -> F64.to_float (F64.of_float x) = x.
Proof.
  intros Hv. destruct x as [s|s| |s m e]; try reflexivity.
  rewrite (of_float_finite s m e Hv). cbv zeta.
  apply valid_finite_canonical in Hv as [Hc He].
  set (k := Z.to_pos (53 - Z.pos (digits2_pos m))).
  assert (Hk : Z.pos k = 53 - Z.pos (digits2_pos m)) by (subst k; lia).
  assert (Hd : Z.pos (digits2_pos (Pos.iter xO m k)) = 53)
    by (rewrite digits2_iter_xO; lia).
  unfold F64.to_float, binary_round, shl_align, fexp, emin, prec, emax.
  rewrite Hd.
  replace (Z.max (53 + (e - Z.pos k) - 24) (3 - 128 - 24) - (e - Z.pos k))
    with (Z.pos k) by lia.
  unfold binary_round_aux, shr_fexp, fexp, emin.
  cbn [Zdigits2 shr_record_of_loc]. rewrite Hd.
  replace (Z.max (53 + (e - Z.pos k) - 24) (3 - 128 - 24) - (e - Z.pos k))
    with (Z.pos k) by lia.
  cbn [shr]. rewrite shr_iter_xO.
  cbn [shr_m loc_of_shr_record round_nearest_even Zdigits2].
  replace (e - Z.pos k + Z.pos k) with e by lia.
  replace (Z.max (Z.pos (digits2_pos m) + e - 24) (3 - 128 - 24) - e) with 0 by lia.
  cbn [shr shr_m].
  replace (e <=? 128 - 24) with true by (symmetry; apply Z.leb_le; lia).
  reflexivity.
Qed.

(** ** The 32-bit budget of the polling loops *)

Lemma to_int32_id (z : Z) : - 2 ^ 31 <= z < 2 ^ 31 -> to_int32 z = z.
Proof.
  intros H. unfold to_int32.
  change (2 ^ 31) with 2147483648 in *. change (2 ^ 32) with 4294967296.
  rewrite Z.mod_small; lia.
Qed.

Lemma to_int32_upper_half (z : Z) : 2 ^ 31 <= z < 2 ^ 32 -> to_int32 z = z - 2 ^ 32.
Proof.
  intros H. unfold to_int32.
  change (2 ^ 31) with 2147483648 in *. change (2 ^ 32) with 4294967296 in *.
  replace (z + 2147483648) with ((z - 2147483648) + 1 * 4294967296) by lia.
  rewrite Z.mod_add by lia. rewrite Z.mod_small; lia.
Qed.

(** A poll of at least a millisecond takes at least one off the budget and
    does not make it wrap. *)
Lemma budget_after_a_millisecond (t e : Z) :
  0 <= t < 2 ^ 31 -> takes_a_millisecond e ->
  - 2 ^ 31 <= to_int32 (t - (e mod 2 ^ 64) / 1000) <= t - 1.
Proof.
  unfold takes_a_millisecond. intros Ht He.
  change (2 ^ 31) with 2147483648 in *.
  rewrite Z.mod_small
    by (change (2 ^ 64) with 18446744073709551616; lia).
  assert (1 <= e / 1000) by (apply Z.div_le_lower_bound; lia).
  assert (e / 1000 <= 2147483648) by (apply Z.div_le_upper_bound; lia).
  rewrite to_int32_id; change (2 ^ 31) with 2147483648; lia.
Qed.

(** A poll of less than a millisecond takes nothing off. *)
Lemma budget_within_a_millisecond (t e : Z) :
  0 <= t < 2 ^ 31 -> within_a_millisecond e ->
  to_int32 (t - (e mod 2 ^ 64) / 1000) = t.
Proof.
  unfold within_a_millisecond. intros Ht He.
  rewrite Z.mod_small
    by (change (2 ^ 64) with 18446744073709551616; lia).
  rewrite Z.div_small by lia.
  rewrite to_int32_id; change (2 ^ 31) with 2147483648 in *; lia.
Qed.

(** ** More on the legacy mount-command adapter *)

Section CmdMountLoop.
Context {K : Constants} {P : Platform}.
Import InputMavlinkCmdMount.

Lemma cm_loop_within_budget (env : list Poll) :
  Forall (fun p => takes_a_millisecond (elapsed_us p)) env ->
  forall s t out acks,
    - 2 ^ 31 <= t < 2 ^ 31 -> t < Z.of_nat (length env) ->
    exists r,
      update_loop env s t out acks = Some r
      /\ Z.of_nat (length env) - Z.of_nat (length (r_pending r)) <= Z.max 0 (t + 1).
Proof.
  induction env as [|p env IH]; intros Hall s t out acks Ht Hlen.
  - cbn [length] in Hlen. cbn [update_loop].
    replace (t <? 0) with true by (symmetry; apply Z.ltb_lt; lia).
    eexists. split; [reflexivity|]. cbn [r_pending length]. lia.
  - inversion Hall as [|p' env' Hp Hall']; subst.
    cbn [update_loop]. destruct (t <? 0) eqn:Hneg.
    { eexists. split; [reflexivity|]. cbn [r_pending]. lia. }
    apply Z.ltb_ge in Hneg.
    pose proof (budget_after_a_millisecond t (elapsed_us p) (conj Hneg (proj2 Ht)) Hp)
      as Hb.
    set (t' := to_int32 (t - (elapsed_us p mod 2 ^ 64) / 1000)) in *.
    assert (Ht' : - 2 ^ 31 <= t' < 2 ^ 31) by lia.
    assert (Hlen' : t' < Z.of_nat (length env))
      by (cbn [length] in Hlen; lia).
    assert (Hone : Z.of_nat (length (p :: env)) - Z.of_nat (length env)
                   <= Z.max 0 (t + 1))
      by (cbn [length]; lia).
    assert (Hrec : forall s' out' acks',
               exists r,
                 update_loop env s' t' out' acks' = Some r
                 /\ Z.of_nat (length (p :: env)) - Z.of_nat (length (r_pending r))
                    <= Z.max 0 (t + 1)).
    { intros s' out' acks'.
      destruct (IH Hall' s' t' out' acks' Ht' Hlen') as (r & E & L).
      exists r. split; [exact E|]. cbn [length]. lia. }
    destruct (ret p <? 0).
    { eexists. split; [reflexivity|]. exact Hone. }
    destruct (ret p =? 0).
    { eexists. split; [reflexivity|]. exact Hone. }
    destruct (vehicle_command p) as [cmd|].
    2: { eexists. split; [reflexivity|]. exact Hone. }
    destruct (negb (sysid_correct s cmd) || negb (compid_correct s cmd)).
    { apply Hrec. }
    destruct (command cmd =? VEHICLE_CMD_DO_MOUNT_CONTROL).
    { destruct (do_mount_control _ out cmd) as [cd' out'].
      eexists. split; [reflexivity|]. exact Hone. }
    destruct (command cmd =? VEHICLE_CMD_DO_MOUNT_CONFIGURE).
    { eexists. split; [reflexivity|]. exact Hone. }
    apply Hrec.
Qed.

Lemma cm_loop_skips_quick_polls (quick : list Poll) :
  forall s rest t out acks,
    Forall (fun p => within_a_millisecond (elapsed_us p)
                     /\ CmdMountPolls.for_somebody_else s p) quick ->
    0 <= t < 2 ^ 31 ->
    update_loop (quick ++ rest) s t out acks = update_loop rest s t out acks.
Proof.
  induction quick as [|p quick IH]; intros s rest t out acks Hall Ht.
  - reflexivity.
  - inversion Hall as [|p' q' [Hq (Hr & cmd & Hc & Hf)] Hall']; subst.
    cbn [app update_loop].
    replace (t <? 0) with false by (symmetry; apply Z.ltb_ge; lia).
    replace (ret p <? 0) with false by (symmetry; apply Z.ltb_ge; lia).
    replace (ret p =? 0) with false by (symmetry; apply Z.eqb_neq; lia).
    rewrite Hc, Hf, (budget_within_a_millisecond t _ Ht Hq).
    now apply IH.
Qed.

Lemma do_mount_control_without_record (cd cd' : ControlData) (cmd : vehicle_command_s) :
  do_mount_control cd false cmd = (cd', false) -> cd' = cd.
Proof.
  unfold do_mount_control.
  repeat match goal with
         | |- context [if ?b then _ else _] => destruct b
         end; intros H; inversion H; reflexivity.
Qed.

(** The state an update leaves when it hands out no record: the one it
    started from, but for the retract flag, which a command addressed to
    the adapter has cleared. *)
Lemma cm_loop_silent (env : list Poll) :
  forall s t acks r,
    update_loop env s t false acks = Some r ->
    r_control_data r = false ->
    r_state r = s
    \/ r_state r = mkState (set_gimbal_shutter_retract (_control_data s) false)
                     (_mav_sys_id s) (_mav_comp_id s).
Proof.
  induction env as [|p env IH]; intros s t acks r H Hout; cbn [update_loop] in H.
  - destruct (t <? 0); [|discriminate]. inversion H; subst. now left.
  - destruct (t <? 0). { inversion H; subst. now left. }
    destruct (ret p <? 0). { inversion H; subst. now left. }
    destruct (ret p =? 0). { inversion H; subst. now left. }
    destruct (vehicle_command p) as [cmd|]. 2: { inversion H; subst. now left. }
    destruct (negb (sysid_correct s cmd) || negb (compid_correct s cmd)).
    { now apply IH in H. }
    destruct (command cmd =? VEHICLE_CMD_DO_MOUNT_CONTROL).
    { destruct (do_mount_control _ false cmd) as [cd' out'] eqn:E.
      inversion H; subst. cbn [r_control_data] in Hout. subst out'.
      apply do_mount_control_without_record in E. subst cd'. now right. }
    destruct (command cmd =? VEHICLE_CMD_DO_MOUNT_CONFIGURE).
    { inversion H; subst. discriminate Hout. }
    apply IH in H; [|exact Hout]. right.
    destruct H as [H|H]; rewrite H; reflexivity.
Qed.

(** The acknowledgements of an update: none, with no record, or the one
    of the mount command addressed to the adapter that ended the loop. *)
Lemma cm_loop_acknowledges (env : list Poll) :
  forall s t acks r,
    update_loop env s t false acks = Some r ->
    (r_acks r = acks /\ r_control_data r = false)
    \/ exists pre p cmd,
         env = pre ++ p :: r_pending r
         /\ 0 < ret p
         /\ vehicle_command p = Some cmd
         /\ addressed s cmd
         /\ (command cmd = VEHICLE_CMD_DO_MOUNT_CONTROL
             \/ command cmd = VEHICLE_CMD_DO_MOUNT_CONFIGURE)
         /\ r_acks r = acks ++ [_ack_vehicle_command cmd]
         /\ r_ret r = 0.
Proof.
  induction env as [|p env IH]; intros s t acks r H; cbn [update_loop] in H.
  - destruct (t <? 0); [|discriminate]. inversion H; subst. now left.
  - destruct (t <? 0). { inversion H; subst. now left. }
    destruct (ret p <? 0) eqn:Hneg. { inversion H; subst. now left. }
    destruct (ret p =? 0) eqn:Hz. { inversion H; subst. now left. }
    assert (Hr : 0 < ret p)
      by (apply Z.ltb_ge in Hneg; apply Z.eqb_neq in Hz; lia).
    destruct (vehicle_command p) as [cmd|] eqn:Hc.
    2: { inversion H; subst. now left. }
    destruct (negb (sysid_correct s cmd) || negb (compid_correct s cmd)) eqn:Hf.
    { apply IH in H. destruct H as [H|(pre & q & c & E & H)]; [now left|right].
      exists (p :: pre), q, c. split; [now rewrite E|exact H]. }
    apply filter_addressed in Hf.
    destruct (command cmd =? VEHICLE_CMD_DO_MOUNT_CONTROL) eqn:E1.
    { destruct (do_mount_control _ false cmd) as [cd' out'].
      inversion H; subst. right. exists [], p, cmd.
      apply Z.eqb_eq in E1. cbn [app r_pending r_acks r_ret]. auto 10. }
    destruct (command cmd =? VEHICLE_CMD_DO_MOUNT_CONFIGURE) eqn:E2.
    { inversion H; subst. right. exists [], p, cmd.
      apply Z.eqb_eq in E2. cbn [app r_pending r_acks r_ret]. auto 10. }
    apply IH in H. destruct H as [H|(pre & q & c & E & Hq & Hqc & Ha & H)]; [now left|right].
    exists (p :: pre), q, c. split; [now rewrite E|]. auto.
Qed.

End CmdMountLoop.

(** ** More on the gimbal-manager adapter *)

Section GimbalV2Loop.
Context {K : Constants} {P : Platform}.
Import InputMavlinkGimbalV2 GimbalV2Polls.

(** [_transform_lon_lat_to_angle] written out: the record it leaves, and
    the projection reference. *)
Lemma transform_eq (s : State) (gpos : vehicle_global_position_s) (lo la al : double) :
  _transform_lon_lat_to_angle s gpos lo la al
  = let cd := _control_data s in
    let rp :=
      if fge (pitch_fixed_angle cd) (fneg M_PI_F)
      then (_projection_reference s, pitch_fixed_angle cd)
      else _calculate_pitch (_projection_reference s) lo la (F64.to_float al) gpos in
    mkState
      (mkControlData Angle
         (mk3 zero
              (fadd (snd rp) (pitch_angle_offset cd))
              (wrap_pi
                 (fadd (fsub (get_bearing_to_next_waypoint
                                (gpos_lat gpos) (gpos_lon gpos) la lo)
                             (gpos_yaw gpos))
                       (yaw_angle_offset cd))))
         (mk3 AngleBodyFrame AngleBodyFrame AngleBodyFrame)
         None None (altitude cd) (roll_angle cd) (pitch_fixed_angle cd)
         (pitch_angle_offset cd) (yaw_angle_offset cd) (stabilize_axis cd)
         (gimbal_shutter_retract cd))
      (_mav_sys_id s) (_mav_comp_id s) (fst rp)
      (_cur_roi_mode s) (_is_roi_set s) (_gimbal_device_attitude_status s).
Proof.
  unfold _transform_lon_lat_to_angle. cbv zeta.
  destruct (if fge _ _ then _ else _) as [ref pitch]. reflexivity.
Qed.

(** [_calculate_pitch] leaves an initialised reference as it is. *)
Lemma calculate_pitch_reference (ref : map_projection_reference_s) (lo la : double)
  (alt : float) (gpos : vehicle_global_position_s) :
  fst (_calculate_pitch ref lo la alt gpos)
  = if map_projection_initialized ref then ref
    else map_projection_init ref (gpos_lat gpos) (gpos_lon gpos).
Proof.
  unfold _calculate_pitch.
  destruct (map_projection_project _ la lo) as [x1 y1].
  destruct (map_projection_project _ (gpos_lat gpos) (gpos_lon gpos)) as [x2 y2].
  reflexivity.
Qed.

Lemma same_payload_trans (c1 c2 c3 : ControlData) :
  same_payload c1 c2 -> same_payload c2 c3 -> same_payload c1 c3.
Proof.
  unfold same_payload.
  intros (A1 & A2 & A3 & A4 & A5 & A6 & A7 & A8 & A9)
         (B1 & B2 & B3 & B4 & B5 & B6 & B7 & B8 & B9).
  repeat split; try congruence.
  - destruct B1 as [B1|B1]; [rewrite B1; exact A1|now right].
  - destruct B2 as [B2|B2]; [rewrite B2; exact A2|now right].
Qed.

Lemma assign_angles_payload (is_roi_set : bool) (cd : ControlData) (flags : Z)
  (pitch yaw roll : float) :
  same_payload cd (assign_angles is_roi_set cd flags pitch yaw roll).
Proof.
  unfold assign_angles, same_payload.
  repeat match goal with
         | |- context [if ?b then _ else _] => destruct b
         end; cbn; tauto.
Qed.

Lemma apply_rates_payload (cd : ControlData) (pitch_rate yaw_rate roll_rate : float) :
  same_payload cd (apply_rates cd pitch_rate yaw_rate roll_rate)
  /\ type (apply_rates cd pitch_rate yaw_rate roll_rate) = type cd.
Proof.
  unfold apply_rates, same_payload.
  repeat match goal with
         | |- context [if ?b then _ else _] => destruct b
         end; cbn; tauto.
Qed.

Lemma apply_locks_payload (cd : ControlData) (flags : Z) :
  same_payload cd (apply_locks cd flags)
  /\ type (apply_locks cd flags) = type cd.
Proof.
  unfold apply_locks, same_payload.
  repeat match goal with
         | |- context [if ?b then _ else _] => destruct b
         end; cbn; tauto.
Qed.

(** The attitude handler writes the type, the angles and the frames, and
    nothing else. *)
Lemma set_attitude_payload (is_roi_set : bool) (cd : ControlData) (flags : Z)
  (pitch pitch_rate yaw yaw_rate roll roll_rate : float) :
  let cd' := _set_control_data_from_set_attitude is_roi_set cd flags
               pitch pitch_rate yaw yaw_rate roll roll_rate in
  same_payload cd cd' /\ (type cd' = LonLat -> type cd = LonLat).
Proof.
  cbv zeta.
  unfold _set_control_data_from_set_attitude.
  destruct (flag_set flags GIMBAL_MANAGER_FLAGS_RETRACT);
    [unfold same_payload; tauto|].
  destruct (flag_set flags GIMBAL_MANAGER_FLAGS_NEUTRAL).
  { unfold same_payload. cbn. intuition discriminate. }
  destruct (flag_set flags GIMBAL_MANAGER_FLAGS_NONE);
    [unfold same_payload; tauto|].
  pose proof (assign_angles_payload is_roi_set cd flags pitch yaw roll) as H1.
  destruct (assign_angles_type_frames is_roi_set cd flags pitch yaw roll) as [T1 _].
  revert H1 T1. generalize (assign_angles is_roi_set cd flags pitch yaw roll).
  intros c1 H1 T1.
  destruct (apply_rates_payload c1 pitch_rate yaw_rate roll_rate) as [H2 T2].
  revert H2 T2. generalize (apply_rates c1 pitch_rate yaw_rate roll_rate).
  intros c2 H2 T2.
  destruct (apply_locks_payload c2 flags) as [H3 T3].
  split.
  - eapply same_payload_trans; [exact H1|].
    eapply same_payload_trans; [exact H2|exact H3].
  - rewrite T3, T2, T1. discriminate.
Qed.

(** The same, as an equation. *)
Lemma set_attitude_touches (is_roi_set : bool) (cd : ControlData) (flags : Z)
  (pitch pitch_rate yaw yaw_rate roll roll_rate : float) :
  exists t a f lo la,
    _set_control_data_from_set_attitude is_roi_set cd flags
      pitch pitch_rate yaw yaw_rate roll roll_rate
    = mkControlData t a f lo la (altitude cd) (roll_angle cd)
        (pitch_fixed_angle cd) (pitch_angle_offset cd) (yaw_angle_offset cd)
        (stabilize_axis cd) (gimbal_shutter_retract cd)
    /\ (lo = lon cd \/ lo = None)
    /\ (la = lat cd \/ la = None)
    /\ (t = LonLat -> type cd = LonLat).
Proof.
  pose proof (set_attitude_payload is_roi_set cd flags
                pitch pitch_rate yaw yaw_rate roll roll_rate) as H.
  cbv zeta in H. revert H.
  generalize (_set_control_data_from_set_attitude is_roi_set cd flags
                pitch pitch_rate yaw yaw_rate roll roll_rate).
  intros cd' [(A1 & A2 & A3 & A4 & A5 & A6 & A7 & A8 & A9) T].
  destruct cd' as [t a f lo la al ra pf po yo st re]. cbn in *. subst.
  exists t, a, f, lo, la. repeat split; auto.
Qed.

Lemma kept_refl (s : State) : kept s s.
Proof. unfold kept. tauto. Qed.

Lemma kept_trans (s1 s2 s3 : State) : kept s1 s2 -> kept s2 s3 -> kept s1 s3.
Proof.
  unfold kept.
  intros (A1 & A2 & A3 & A4 & A5 & A6 & A7 & A8 & A9 & A10)
         (B1 & B2 & B3 & B4 & B5 & B6 & B7 & B8 & B9 & B10).
  split; [congruence|]. split; [congruence|]. split; [congruence|].
  split; [destruct B4 as [B4|B4]; [rewrite B4; exact A4|now right]|].
  split; [destruct B5 as [B5|B5]; [rewrite B5; exact A5|now right]|].
  split; [congruence|]. split; [congruence|]. split; [auto|].
  split; [destruct B9 as [B9|B9]; [rewrite B9; exact A9|now right]|].
  intros H. rewrite B10; [now apply A10|]. rewrite A10 by exact H. exact H.
Qed.

Lemma with_control_data_kept (s : State) (cd : ControlData) :
  lon cd = lon (_control_data s) \/ lon cd = None ->
  lat cd = lat (_control_data s) \/ lat cd = None ->
  altitude cd = altitude (_control_data s) ->
  stabilize_axis cd = stabilize_axis (_control_data s) ->
  (type cd = LonLat -> type (_control_data s) = LonLat) ->
  (pitch_fixed_angle cd = pitch_fixed_angle (_control_data s)
   \/ pitch_fixed_angle cd = MINUS_TEN) ->
  kept s (with_control_data s cd).
Proof.
  intros. unfold kept. cbn. tauto.
Qed.

Lemma set_attitude_kept (s : State) (flags : Z)
  (pitch_angle pitch_rate yaw_angle yaw_rate roll_angle roll_rate : float) :
  kept s (with_control_data s
            (_set_control_data_from_set_attitude (_is_roi_set s) (_control_data s) flags
               pitch_angle pitch_rate yaw_angle yaw_rate roll_angle roll_rate)).
Proof.
  destruct (set_attitude_touches (_is_roi_set s) (_control_data s) flags
              pitch_angle pitch_rate yaw_angle yaw_rate roll_angle roll_rate)
    as (t & a & f & lo & la & -> & Hlo & Hla & Ht).
  apply with_control_data_kept; cbn; auto.
Qed.

Lemma transform_kept (s : State) (gpos : vehicle_global_position_s) (lo la al : double) :
  kept s (_transform_lon_lat_to_angle s gpos lo la al).
Proof.
  rewrite transform_eq. cbv zeta. unfold kept.
  cbn [_mav_sys_id _mav_comp_id _gimbal_device_attitude_status _control_data
       _projection_reference lon lat altitude stabilize_axis type pitch_fixed_angle].
  split; [reflexivity|]. split; [reflexivity|]. split; [reflexivity|].
  split; [now right|]. split; [now right|].
  split; [reflexivity|]. split; [reflexivity|]. split; [discriminate|].
  split; [now left|].
  intros Hi. destruct (fge _ _); [reflexivity|].
  rewrite calculate_pitch_reference, Hi. reflexivity.
Qed.

Lemma on_set_attitude_kept (it : Iter) (sa : gimbal_manager_set_attitude_s) :
  kept (i_state it) (i_state (on_set_attitude it sa)).
Proof. unfold on_set_attitude. cbn [i_state]. apply set_attitude_kept. Qed.

Lemma with_roi_kept (s : State) (mode : Z) (is_set : bool) :
  kept s (with_roi s mode is_set).
Proof. unfold kept, with_roi. cbn. tauto. Qed.

Lemma on_vehicle_roi_kept (it : Iter) (roi : vehicle_roi_s) (sp : position_setpoint_s)
  (gpos : vehicle_global_position_s) :
  kept (i_state it) (i_state (on_vehicle_roi it roi sp gpos)).
Proof.
  unfold on_vehicle_roi. cbv zeta.
  assert (H0 : kept (i_state it)
                 (with_control_data (i_state it)
                    (set_gimbal_shutter_retract (_control_data (i_state it)) false)))
    by (apply with_control_data_kept; cbn; auto).
  revert H0.
  generalize (with_control_data (i_state it)
                (set_gimbal_shutter_retract (_control_data (i_state it)) false)).
  intros s0 H0.
  destruct (roi_mode roi =? ROI_NONE).
  { cbn [i_state]. eapply kept_trans; [exact H0|].
    eapply kept_trans; [|apply with_roi_kept].
    apply with_control_data_kept; cbn; auto. discriminate. }
  destruct (roi_mode roi =? ROI_WPNEXT).
  { assert (H1 : kept s0
                   (with_control_data s0
                      (set_yaw_angle_offset
                         (set_pitch_angle_offset
                            (set_roll_angle
                               (set_pitch_fixed_angle (_control_data s0) MINUS_TEN)
                               (roi_roll_offset roi))
                            (roi_pitch_offset roi))
                         (roi_yaw_offset roi))))
      by (apply with_control_data_kept; cbn; auto).
    revert H1.
    generalize (with_control_data s0
                  (set_yaw_angle_offset
                     (set_pitch_angle_offset
                        (set_roll_angle
                           (set_pitch_fixed_angle (_control_data s0) MINUS_TEN)
                           (roi_roll_offset roi))
                        (roi_pitch_offset roi))
                     (roi_yaw_offset roi))).
    intros s1 H1.
    pose proof (transform_kept s1 gpos (sp_lon sp) (sp_lat sp) (F64.of_float (sp_alt sp)))
      as H2.
    revert H2.
    generalize (_transform_lon_lat_to_angle s1 gpos (sp_lon sp) (sp_lat sp)
                  (F64.of_float (sp_alt sp))).
    intros s2 H2. cbn [i_state].
    eapply kept_trans; [exact H0|]. eapply kept_trans; [exact H1|].
    eapply kept_trans; [exact H2|apply with_roi_kept]. }
  destruct (roi_mode roi =? ROI_LOCATION).
  { pose proof (transform_kept s0 gpos (roi_lon roi) (roi_lat roi)
                  (F64.of_float (roi_alt roi))) as H2.
    revert H2.
    generalize (_transform_lon_lat_to_angle s0 gpos (roi_lon roi) (roi_lat roi)
                  (F64.of_float (roi_alt roi))).
    intros s2 H2. cbn [i_state].
    eapply kept_trans; [exact H0|].
    eapply kept_trans; [exact H2|apply with_roi_kept]. }
  cbn [i_state]. exact H0.
Qed.

Lemma on_position_setpoint_kept (it : Iter) (sp : position_setpoint_s)
  (gpos : vehicle_global_position_s) :
  kept (i_state it) (i_state (on_position_setpoint it sp gpos)).
Proof.
  unfold on_position_setpoint. cbv zeta.
  destruct (_cur_roi_mode (i_state it) =? ROI_WPNEXT); cbn [i_state].
  - apply transform_kept.
  - apply kept_refl.
Qed.

Lemma on_vehicle_command_kept (it : Iter) (cmd : vehicle_command_s) :
  kept (i_state it) (i_state (on_vehicle_command it cmd)).
Proof.
  unfold on_vehicle_command. cbv zeta.
  destruct (negb _ || negb _); [cbn [i_state]; apply kept_refl|].
  destruct (command cmd =? VEHICLE_CMD_DO_GIMBAL_MANAGER_ATTITUDE); cbn [i_state].
  - apply set_attitude_kept.
  - apply kept_refl.
Qed.

(** An iteration as its four branches in a row: what holds when it starts
    and is passed on by each branch holds when it ends. *)
Lemma on_poll_branches (Q : Iter -> Prop) (s : State) (out : bool)
  (acks : list vehicle_command_ack_s) (p : Poll) :
  Q (mkIter s out acks true) ->
  (forall it sa, Q it -> Q (on_set_attitude it sa)) ->
  (forall it roi sp gpos, Q it -> Q (on_vehicle_roi it roi sp gpos)) ->
  (forall it sp gpos, Q it -> Q (on_position_setpoint it sp gpos)) ->
  (forall it cmd, Q it -> Q (on_vehicle_command it cmd)) ->
  Q (on_poll s out acks p).
Proof.
  intros H0 H1 H2 H3 H4. unfold on_poll. cbv zeta.
  destruct (vehicle_command p); [apply H4|];
    (destruct (position_setpoint_pollin p); [apply H3|]);
    (destruct (vehicle_roi p); [apply H2|]);
    (destruct (gimbal_manager_set_attitude p); [apply H1|]); exact H0.
Qed.

Lemma on_poll_kept (s : State) (out : bool) (acks : list vehicle_command_ack_s)
  (p : Poll) :
  kept s (i_state (on_poll s out acks p)).
Proof.
  apply (on_poll_branches (fun it => kept s (i_state it))).
  - apply kept_refl.
  - intros it sa H. eapply kept_trans; [exact H|apply on_set_attitude_kept].
  - intros it roi sp gpos H. eapply kept_trans; [exact H|apply on_vehicle_roi_kept].
  - intros it sp gpos H. eapply kept_trans; [exact H|apply on_position_setpoint_kept].
  - intros it cmd H. eapply kept_trans; [exact H|apply on_vehicle_command_kept].
Qed.

(** Once [*control_data] is set it stays set to the end of the iteration,
    and an attitude-set event sets it. *)
Lemma on_poll_control_data (s : State) (out : bool) (acks : list vehicle_command_ack_s)
  (p : Poll) :
  (out = true \/ gimbal_manager_set_attitude p <> None) ->
  i_control_data (on_poll s out acks p) = true.
Proof.
  intros H. unfold on_poll. cbv zeta.
  assert (H1 : i_control_data
                 match gimbal_manager_set_attitude p with
                 | Some sa => on_set_attitude (mkIter s out acks true) sa
                 | None => mkIter s out acks true
                 end = true).
  { destruct (gimbal_manager_set_attitude p); [reflexivity|].
    destruct H as [H|H]; [exact H|congruence]. }
  revert H1. generalize (match gimbal_manager_set_attitude p with
                         | Some sa => on_set_attitude (mkIter s out acks true) sa
                         | None => mkIter s out acks true
                         end).
  intros it1 H1.
  assert (H2 : i_control_data
                 match vehicle_roi p with
                 | Some roi => on_vehicle_roi it1 roi (position_setpoint_triplet p)
                                 (vehicle_global_position p)
                 | None => it1
                 end = true).
  { destruct (vehicle_roi p) as [roi|]; [|exact H1].
    unfold on_vehicle_roi. cbv zeta.
    repeat match goal with
           | |- context [if ?b then _ else _] => destruct b
           end; cbn [i_control_data]; auto. }
  revert H2. generalize (match vehicle_roi p with
                         | Some roi => on_vehicle_roi it1 roi (position_setpoint_triplet p)
                                         (vehicle_global_position p)
                         | None => it1
                         end).
  intros it2 H2.
  assert (H3 : i_control_data
                 (if position_setpoint_pollin p
                  then on_position_setpoint it2 (position_setpoint_triplet p)
                         (vehicle_global_position p)
                  else it2) = true).
  { destruct (position_setpoint_pollin p); [|exact H2].
    unfold on_position_setpoint. cbv zeta.
    destruct (_ =? _); cbn [i_control_data]; auto. }
  revert H3. generalize (if position_setpoint_pollin p
                         then on_position_setpoint it2 (position_setpoint_triplet p)
                                (vehicle_global_position p)
                         else it2).
  intros it3 H3.
  destruct (vehicle_command p) as [cmd|]; [|exact H3].
  unfold on_vehicle_command. cbv zeta.
  repeat match goal with
         | |- context [if ?b then _ else _] => destruct b
         end; cbn [i_control_data]; auto.
Qed.

(** The same, up to the last branch. *)
Lemma on_poll_before_command (Q : Iter -> Prop) (s : State) (out : bool)
  (acks : list vehicle_command_ack_s) (p : Poll) :
  Q (mkIter s out acks true) ->
  (forall it sa, Q it -> Q (on_set_attitude it sa)) ->
  (forall it roi sp gpos, Q it -> Q (on_vehicle_roi it roi sp gpos)) ->
  (forall it sp gpos, Q it -> Q (on_position_setpoint it sp gpos)) ->
  exists it3,
    Q it3
    /\ on_poll s out acks p
       = match vehicle_command p with
         | Some cmd => on_vehicle_command it3 cmd
         | None => it3
         end.
Proof.
  intros H0 H1 H2 H3. unfold on_poll. cbv zeta.
  eexists. split; [|reflexivity].
  destruct (position_setpoint_pollin p); [apply H3|];
    (destruct (vehicle_roi p); [apply H2|]);
    (destruct (gimbal_manager_set_attitude p); [apply H1|]); exact H0.
Qed.

Lemma on_vehicle_roi_acks (it : Iter) (roi : vehicle_roi_s) (sp : position_setpoint_s)
  (gpos : vehicle_global_position_s) :
  i_acks (on_vehicle_roi it roi sp gpos) = i_acks it.
Proof.
  unfold on_vehicle_roi. cbv zeta.
  repeat match goal with
         | |- context [if ?b then _ else _] => destruct b
         end; reflexivity.
Qed.

Lemma on_position_setpoint_acks (it : Iter) (sp : position_setpoint_s)
  (gpos : vehicle_global_position_s) :
  i_acks (on_position_setpoint it sp gpos) = i_acks it.
Proof.
  unfold on_position_setpoint. cbv zeta. destruct (_ =? _); reflexivity.
Qed.

(** The acknowledgements of an iteration: those there were, and the one
    of the command when it is an attitude command addressed to the
    adapter. *)
Lemma on_poll_acks (s : State) (out : bool) (acks : list vehicle_command_ack_s)
  (p : Poll) :
  0 < ret p ->
  i_acks (on_poll s out acks p) = acks ++ acknowledged s p.
Proof.
  intros Hr. unfold acknowledged.
  replace (0 <? ret p) with true by (symmetry; apply Z.ltb_lt; lia).
  destruct (on_poll_before_command
              (fun it => i_acks it = acks /\ kept s (i_state it)) s out acks p)
    as (it3 & (A3 & K3 & K3' & _) & ->).
  - split; [reflexivity|apply kept_refl].
  - intros it sa [A B]. split; [exact A|].
    eapply kept_trans; [exact B|apply on_set_attitude_kept].
  - intros it roi sp gpos [A B]. split; [now rewrite on_vehicle_roi_acks|].
    eapply kept_trans; [exact B|apply on_vehicle_roi_kept].
  - intros it sp gpos [A B]. split; [now rewrite on_position_setpoint_acks|].
    eapply kept_trans; [exact B|apply on_position_setpoint_kept].
  - destruct (vehicle_command p) as [cmd|]; [|now rewrite app_nil_r].
    unfold on_vehicle_command, sysid_correct, compid_correct. cbv zeta.
    rewrite K3, K3'.
    destruct ((target_system cmd =? _mav_sys_id s) || (target_system cmd =? 0));
      destruct ((target_component cmd =? _mav_comp_id s) || (target_component cmd =? 0));
      cbn [negb orb andb i_acks]; try (now rewrite app_nil_r).
    destruct (command cmd =? VEHICLE_CMD_DO_GIMBAL_MANAGER_ATTITUDE); cbn [i_acks].
    + now rewrite A3.
    + now rewrite app_nil_r.
Qed.

End GimbalV2Loop.

Section GimbalV2Runs.
Context {K : Constants} {P : Platform}.
Import InputMavlinkGimbalV2 GimbalV2Polls.

(** The loop: the polls it asked for are a prefix of the environment, and
    what it returns is what the iterations make of them, one after the
    other. *)
Lemma gv_loop_after_polls (env : list Poll) :
  forall status s t out acks r,
    update_loop env status s t out acks = Some r ->
    exists pre,
      env = pre ++ r_pending r
      /\ after_polls (s, out, acks) pre = (r_state r, r_control_data r, r_acks r)
      /\ r_status r = status
      /\ (r_ret r = 0
          \/ exists pre' q, pre = pre' ++ [q] /\ ret q < 0 /\ r_ret r = - errno q).
Proof.
  induction env as [|p env IH]; intros status s t out acks r H;
    cbn [update_loop] in H.
  - destruct (t <? 0); [|discriminate]. inversion H; subst.
    exists []. auto.
  - destruct (t <? 0). { inversion H; subst. exists []. auto. }
    destruct (ret p <? 0) eqn:Hneg.
    { inversion H; subst. exists [p].
      unfold after_polls. cbn [fold_left after_poll app r_pending r_ret].
      replace (0 <? ret p) with false
        by (symmetry; apply Z.ltb_ge; apply Z.ltb_lt in Hneg; lia).
      repeat split; auto. right. exists [], p. apply Z.ltb_lt in Hneg. auto. }
    destruct (ret p =? 0) eqn:Hz.
    { inversion H; subst. exists [p].
      unfold after_polls. cbn [fold_left after_poll app r_pending].
      replace (0 <? ret p) with false
        by (symmetry; apply Z.ltb_ge; apply Z.eqb_eq in Hz; lia).
      auto. }
    assert (Hr : (0 <? ret p) = true)
      by (apply Z.ltb_lt; apply Z.ltb_ge in Hneg; apply Z.eqb_neq in Hz; lia).
    destruct (i_exit_loop (on_poll s out acks p)).
    + inversion H; subst. exists [p].
      unfold after_polls. cbn [fold_left after_poll app r_pending]. rewrite Hr. auto.
    + apply IH in H. destruct H as (pre & E & A & S & R).
      exists (p :: pre). split; [now rewrite E|]. split; [|split; [exact S|]].
      * unfold after_polls in *. cbn [fold_left after_poll]. rewrite Hr. exact A.
      * destruct R as [R|(pre' & q & -> & R)]; [now left|right].
        exists (p :: pre'), q. auto.
Qed.

Lemma update_impl_after_polls (s : State) (device_flags : option Z) (timeout_ms : Z)
  (env : list Poll) (r : Result) :
  update_impl s device_flags timeout_ms env = Some r ->
  exists pre,
    env = pre ++ r_pending r
    /\ after_polls (fst (_stream_gimbal_manager_status s device_flags), false, []) pre
       = (r_state r, r_control_data r, r_acks r)
    /\ r_status r = snd (_stream_gimbal_manager_status s device_flags)
    /\ (r_ret r = 0
        \/ exists pre' q, pre = pre' ++ [q] /\ ret q < 0 /\ r_ret r = - errno q).
Proof.
  unfold update_impl. destruct (_stream_gimbal_manager_status s device_flags) as [s0 st].
  intros H. apply gv_loop_after_polls in H. exact H.
Qed.

Lemma after_polls_kept (ps : list Poll) :
  forall s out acks, kept s (fst (fst (after_polls (s, out, acks) ps))).
Proof.
  unfold after_polls.
  induction ps as [|p ps IH]; intros s out acks; cbn [fold_left].
  - apply kept_refl.
  - unfold after_poll at 2. destruct (0 <? ret p); [|apply IH].
    eapply kept_trans; [apply (on_poll_kept s out acks p)|apply IH].
Qed.

Lemma acknowledged_ids (s s' : State) (p : Poll) :
  _mav_sys_id s' = _mav_sys_id s -> _mav_comp_id s' = _mav_comp_id s ->
  acknowledged s' p = acknowledged s p.
Proof.
  intros H1 H2. unfold acknowledged, sysid_correct, compid_correct.
  now rewrite H1, H2.
Qed.

Lemma after_polls_acks (ps : list Poll) :
  forall s out acks,
    snd (after_polls (s, out, acks) ps) = acks ++ flat_map (acknowledged s) ps.
Proof.
  unfold after_polls.
  induction ps as [|p ps IH]; intros s out acks; cbn [fold_left flat_map].
  - cbn. now rewrite app_nil_r.
  - unfold after_poll at 2. destruct (0 <? ret p) eqn:Hr.
    + rewrite IH. apply Z.ltb_lt in Hr. rewrite (on_poll_acks s out acks p Hr).
      rewrite <- app_assoc. f_equal. f_equal.
      apply flat_map_ext. intros q.
      destruct (on_poll_kept s out acks p) as (K1 & K2 & _).
      now apply acknowledged_ids.
    + rewrite IH. unfold acknowledged at 2. rewrite Hr. reflexivity.
Qed.

Lemma after_polls_control_data (ps : list Poll) :
  forall s out acks,
    out = true \/ existsb delivers_attitude ps = true ->
    snd (fst (after_polls (s, out, acks) ps)) = true.
Proof.
  unfold after_polls.
  induction ps as [|p ps IH]; intros s out acks H; cbn [fold_left existsb] in *.
  - destruct H as [H|H]; [exact H|discriminate].
  - unfold after_poll at 2. unfold delivers_attitude in H at 1.
    destruct (0 <? ret p) eqn:Hr.
    + apply IH.
      destruct H as [H|H].
      * left. apply on_poll_control_data. now left.
      * apply orb_true_iff in H. destruct H as [H|H]; [|now right].
        left. apply on_poll_control_data. right.
        cbn [andb] in H. destruct (gimbal_manager_set_attitude p); [discriminate|].
        discriminate H.
    + apply IH. cbn [andb orb] in H. exact H.
Qed.

Lemma gv_loop_within_budget (env : list Poll) :
  Forall (fun p => takes_a_millisecond (elapsed_us p)) env ->
  forall status s t out acks,
    - 2 ^ 31 <= t < 2 ^ 31 -> t < Z.of_nat (length env) ->
    exists r,
      update_loop env status s t out acks = Some r
      /\ Z.of_nat (length env) - Z.of_nat (length (r_pending r)) <= Z.max 0 (t + 1).
Proof.
  induction env as [|p env IH]; intros Hall status s t out acks Ht Hlen.
  - cbn [length] in Hlen. cbn [update_loop].
    replace (t <? 0) with true by (symmetry; apply Z.ltb_lt; lia).
    eexists. split; [reflexivity|]. cbn [r_pending length]. lia.
  - inversion Hall as [|p' env' Hp Hall']; subst.
    cbn [update_loop]. destruct (t <? 0) eqn:Hneg.
    { eexists. split; [reflexivity|]. cbn [r_pending]. lia. }
    apply Z.ltb_ge in Hneg.
    pose proof (budget_after_a_millisecond t (elapsed_us p) (conj Hneg (proj2 Ht)) Hp)
      as Hb.
    set (t' := to_int32 (t - (elapsed_us p mod 2 ^ 64) / 1000)) in *.
    assert (Ht' : - 2 ^ 31 <= t' < 2 ^ 31) by lia.
    assert (Hlen' : t' < Z.of_nat (length env))
      by (cbn [length] in Hlen; lia).
    assert (Hone : Z.of_nat (length (p :: env)) - Z.of_nat (length env)
                   <= Z.max 0 (t + 1))
      by (cbn [length]; lia).
    destruct (ret p <? 0).
    { eexists. split; [reflexivity|]. exact Hone. }
    destruct (ret p =? 0).
    { eexists. split; [reflexivity|]. exact Hone. }
    destruct (i_exit_loop (on_poll s out acks p)).
    { eexists. split; [reflexivity|]. exact Hone. }
    destruct (IH Hall' status (i_state (on_poll s out acks p)) t'
                (i_control_data (on_poll s out acks p)) (i_acks (on_poll s out acks p))
                Ht' Hlen') as (r & E & L).
    exists r. split; [exact E|]. cbn [length]. lia.
Qed.

(** An iteration whose poll delivers nothing but a command for somebody
    else changes nothing and leaves [exit_loop] false. *)
Lemma on_poll_for_somebody_else (s : State) (out : bool)
  (acks : list vehicle_command_ack_s) (p : Poll) :
  for_somebody_else s p -> on_poll s out acks p = mkIter s out acks false.
Proof.
  intros (_ & Ha & Hr & Hs & cmd & Hc & Hf).
  unfold on_poll. rewrite Ha, Hr, Hs, Hc. cbv zeta.
  unfold on_vehicle_command. cbn [i_state i_control_data i_acks]. now rewrite Hf.
Qed.

Lemma gv_loop_skips_quick_polls (quick : list Poll) :
  forall status s rest t out acks,
    Forall (fun p => within_a_millisecond (elapsed_us p) /\ for_somebody_else s p) quick ->
    0 <= t < 2 ^ 31 ->
    update_loop (quick ++ rest) status s t out acks
    = update_loop rest status s t out acks.
Proof.
  induction quick as [|p quick IH]; intros status s rest t out acks Hall Ht.
  - reflexivity.
  - inversion Hall as [|p' q' [Hq Hf] Hall']; subst.
    cbn [app update_loop].
    pose proof Hf as (Hr & _).
    replace (t <? 0) with false by (symmetry; apply Z.ltb_ge; lia).
    replace (ret p <? 0) with false by (symmetry; apply Z.ltb_ge; lia).
    replace (ret p =? 0) with false by (symmetry; apply Z.eqb_neq; lia).
    rewrite (on_poll_for_somebody_else s out acks p Hf).
    cbn [i_exit_loop i_state i_control_data i_acks].
    rewrite (budget_within_a_millisecond t _ Ht Hq).
    now apply IH.
Qed.

(** With the lon/lat target of the same poll, the attitude-set event is
    overwritten: the ROI branch leaves what it leaves without it. *)
Lemma on_vehicle_roi_after_set_attitude (it : Iter) (sa : gimbal_manager_set_attitude_s)
  (roi : vehicle_roi_s) (sp : position_setpoint_s) (gpos : vehicle_global_position_s) :
  (roi_mode roi =? ROI_NONE) = false ->
  (roi_mode roi =? ROI_WPNEXT) || (roi_mode roi =? ROI_LOCATION) = true ->
  on_vehicle_roi (on_set_attitude it sa) roi sp gpos = on_vehicle_roi it roi sp gpos.
Proof.
  intros Hn Hm. unfold on_vehicle_roi, on_set_attitude. cbv zeta. rewrite Hn.
  cbn [i_state i_acks i_exit_loop i_control_data].
  destruct (set_attitude_touches (_is_roi_set (i_state it)) (_control_data (i_state it))
              (sa_flags sa) (euler_phi (sa_q sa)) (angular_velocity_y sa)
              (euler_psi (sa_q sa)) (angular_velocity_z sa) (euler_theta (sa_q sa))
              (angular_velocity_x sa)) as (t & a & f & lo & la & -> & _).
  destruct (roi_mode roi =? ROI_WPNEXT).
  { rewrite !transform_eq. destruct (i_state it) as [cd sy co rf md st dv].
    reflexivity. }
  cbn [orb] in Hm. rewrite Hm.
  rewrite !transform_eq. destruct (i_state it) as [cd sy co rf md st dv].
  reflexivity.
Qed.

End GimbalV2Runs.

Section GimbalV2Iteration.
Context {K : Constants} {P : Platform}.
Import InputMavlinkGimbalV2 GimbalV2Polls.

(** What an iteration is about, next to the record: [exit_loop], whether
    [*control_data] is set, the remembered mode and the two ids. *)
Lemma on_set_attitude_flags (it : Iter) (sa : gimbal_manager_set_attitude_s) :
  i_exit_loop (on_set_attitude it sa) = i_exit_loop it
  /\ i_control_data (on_set_attitude it sa) = true
  /\ _cur_roi_mode (i_state (on_set_attitude it sa)) = _cur_roi_mode (i_state it).
Proof. unfold on_set_attitude. cbn. auto. Qed.

Lemma on_vehicle_roi_flags (it : Iter) (roi : vehicle_roi_s) (sp : position_setpoint_s)
  (gpos : vehicle_global_position_s) :
  i_exit_loop (on_vehicle_roi it roi sp gpos)
  = i_exit_loop it && match accepted_mode roi with Some _ => true | None => false end
  /\ i_control_data (on_vehicle_roi it roi sp gpos)
     = i_control_data it || match accepted_mode roi with Some _ => true | None => false end.
Proof.
  unfold on_vehicle_roi, accepted_mode. cbv zeta.
  destruct (roi_mode roi =? ROI_NONE);
    [cbn [orb i_exit_loop i_control_data];
     now rewrite andb_true_r, orb_true_r|].
  destruct (roi_mode roi =? ROI_WPNEXT);
    [cbn [orb i_exit_loop i_control_data];
     now rewrite andb_true_r, orb_true_r|].
  destruct (roi_mode roi =? ROI_LOCATION);
    cbn [orb i_exit_loop i_control_data].
  - now rewrite andb_true_r, orb_true_r.
  - now rewrite andb_false_r, orb_false_r.
Qed.

Lemma on_position_setpoint_flags (it : Iter) (sp : position_setpoint_s)
  (gpos : vehicle_global_position_s) :
  i_exit_loop (on_position_setpoint it sp gpos)
  = i_exit_loop it && (_cur_roi_mode (i_state it) =? ROI_WPNEXT)
  /\ i_control_data (on_position_setpoint it sp gpos)
     = i_control_data it || (_cur_roi_mode (i_state it) =? ROI_WPNEXT).
Proof.
  unfold on_position_setpoint. cbv zeta.
  destruct (_cur_roi_mode (i_state it) =? ROI_WPNEXT);
    cbn [i_exit_loop i_control_data].
  - now rewrite andb_true_r, orb_true_r.
  - now rewrite andb_false_r, orb_false_r.
Qed.

Lemma on_vehicle_command_flags (it : Iter) (cmd : vehicle_command_s) :
  let ours := sysid_correct (i_state it) cmd && compid_correct (i_state it) cmd
              && (command cmd =? VEHICLE_CMD_DO_GIMBAL_MANAGER_ATTITUDE) in
  i_exit_loop (on_vehicle_command it cmd) = i_exit_loop it && ours
  /\ i_control_data (on_vehicle_command it cmd) = i_control_data it || ours.
Proof.
  cbv zeta. unfold on_vehicle_command. cbv zeta.
  destruct (sysid_correct (i_state it) cmd), (compid_correct (i_state it) cmd);
    cbn [negb orb andb i_exit_loop i_control_data];
    try (now rewrite andb_false_r, orb_false_r).
  destruct (command cmd =? VEHICLE_CMD_DO_GIMBAL_MANAGER_ATTITUDE);
    cbn [i_exit_loop i_control_data].
  - now rewrite andb_true_r, orb_true_r.
  - now rewrite andb_false_r, orb_false_r.
Qed.

(** One iteration summed up: whether it ends the loop and whether it sets
    [*control_data], read off the poll and the state it starts from. *)
Lemma on_poll_flags (s : State) (out : bool) (acks : list vehicle_command_ack_s)
  (p : Poll) :
  i_exit_loop (on_poll s out acks p) = negb (asks_for_more s p)
  /\ i_control_data (on_poll s out acks p) = out || hands_out s p.
Proof.
  unfold asks_for_more, hands_out, attitude_command_for_us, mode_after_roi.
  unfold on_poll. cbv zeta.
  (* the attitude-set branch *)
  assert (H1 : exists it1,
             match gimbal_manager_set_attitude p with
             | Some sa => on_set_attitude (mkIter s out acks true) sa
             | None => mkIter s out acks true
             end = it1
             /\ i_exit_loop it1 = true
             /\ i_control_data it1
                = out || match gimbal_manager_set_attitude p with
                         | Some _ => true
                         | None => false
                         end
             /\ _cur_roi_mode (i_state it1) = _cur_roi_mode s
             /\ kept s (i_state it1)).
  { eexists. split; [reflexivity|].
    destruct (gimbal_manager_set_attitude p) as [sa|].
    - destruct (on_set_attitude_flags (mkIter s out acks true) sa) as (A & B & C).
      rewrite A, B, C, orb_true_r.
      split; [reflexivity|]. split; [reflexivity|]. split; [reflexivity|].
      apply (on_set_attitude_kept (mkIter s out acks true) sa).
    - cbn [i_exit_loop i_control_data i_state]. rewrite orb_false_r.
      split; [reflexivity|]. split; [reflexivity|]. split; [reflexivity|].
      apply kept_refl. }
  destruct H1 as (it1 & -> & X1 & O1 & M1 & K1).
  (* the ROI branch *)
  assert (H2 : exists it2,
             match vehicle_roi p with
             | Some roi => on_vehicle_roi it1 roi (position_setpoint_triplet p)
                             (vehicle_global_position p)
             | None => it1
             end = it2
             /\ i_exit_loop it2
                = negb match vehicle_roi p with
                       | Some roi =>
                           match accepted_mode roi with Some _ => false | None => true end
                       | None => false
                       end
             /\ i_control_data it2
                = out
                  || match gimbal_manager_set_attitude p with
                     | Some _ => true
                     | None => false
                     end
                  || match vehicle_roi p with
                     | Some roi =>
                         match accepted_mode roi with Some _ => true | None => false end
                     | None => false
                     end
             /\ _cur_roi_mode (i_state it2)
                = match vehicle_roi p with
                  | Some roi =>
                      match accepted_mode roi with
                      | Some m => m
                      | None => _cur_roi_mode s
                      end
                  | None => _cur_roi_mode s
                  end
             /\ kept s (i_state it2)).
  { eexists. split; [reflexivity|].
    destruct (vehicle_roi p) as [roi|].
    - destruct (on_vehicle_roi_flags it1 roi (position_setpoint_triplet p)
                  (vehicle_global_position p)) as (A & B).
      pose proof (on_vehicle_roi_state it1 roi (position_setpoint_triplet p)
                    (vehicle_global_position p)) as C. cbv zeta in C.
      destruct C as (_ & C & _).
      rewrite A, B, C, X1, O1, M1.
      split; [destruct (accepted_mode roi); reflexivity|].
      split; [reflexivity|]. split; [reflexivity|].
      eapply kept_trans; [exact K1|apply on_vehicle_roi_kept].
    - rewrite X1, O1, M1, orb_false_r.
      split; [reflexivity|]. split; [reflexivity|]. split; [reflexivity|].
      exact K1. }
  destruct H2 as (it2 & -> & X2 & O2 & M2 & K2). clear it1 X1 O1 M1 K1.
  (* the position setpoint branch *)
  assert (H3 : exists it3,
             (if position_setpoint_pollin p
              then on_position_setpoint it2 (position_setpoint_triplet p)
                     (vehicle_global_position p)
              else it2) = it3
             /\ i_exit_loop it3
                = i_exit_loop it2
                  && negb (position_setpoint_pollin p
                           && negb (_cur_roi_mode (i_state it2) =? ROI_WPNEXT))
             /\ i_control_data it3
                = i_control_data it2
                  || (position_setpoint_pollin p
                      && (_cur_roi_mode (i_state it2) =? ROI_WPNEXT))
             /\ kept s (i_state it3)).
  { eexists. split; [reflexivity|].
    destruct (position_setpoint_pollin p).
    - destruct (on_position_setpoint_flags it2 (position_setpoint_triplet p)
                  (vehicle_global_position p)) as (A & B).
      rewrite A, B. cbn [andb]. rewrite negb_involutive.
      split; [reflexivity|]. split; [reflexivity|].
      eapply kept_trans; [exact K2|apply on_position_setpoint_kept].
    - cbn [andb negb]. rewrite andb_true_r, orb_false_r.
      split; [reflexivity|]. split; [reflexivity|]. exact K2. }
  destruct H3 as (it3 & -> & X3 & O3 & K3).
  rewrite X2, M2 in X3. rewrite O2, M2 in O3. clear it2 X2 O2 M2 K2.
  (* the command branch *)
  destruct K3 as (I1 & I2 & _).
  destruct (vehicle_command p) as [cmd|].
  - pose proof (on_vehicle_command_flags it3 cmd) as H. cbv zeta in H.
    destruct H as (A & B). rewrite A, B, X3, O3.
    unfold sysid_correct, compid_correct. rewrite I1, I2.
    split.
    + rewrite !negb_orb, negb_involutive. reflexivity.
    + rewrite !orb_assoc. reflexivity.
  - rewrite X3, O3. split.
    + rewrite orb_false_r, negb_orb. reflexivity.
    + rewrite orb_false_r, !orb_assoc. reflexivity.
Qed.

(** Without a nudge that adds, the angle step stores the three angles,
    the type and the frames whatever the record held. *)
Lemma assign_angles_replaces (is_roi_set : bool) (cd : ControlData) (flags : Z)
  (pitch yaw roll : float) :
  is_roi_set && flag_set flags GIMBAL_MANAGER_FLAGS_NUDGE
  && negb (flag_set flags GIMBAL_MANAGER_FLAGS_OVERRIDE) = false ->
  assign_angles is_roi_set cd flags pitch yaw roll
  = mkControlData Angle (mk3 pitch roll yaw)
      (mk3 AngleBodyFrame AngleBodyFrame AngleBodyFrame)
      None None (altitude cd) (roll_angle cd) (pitch_fixed_angle cd)
      (pitch_angle_offset cd) (yaw_angle_offset cd) (stabilize_axis cd)
      (gimbal_shutter_retract cd).
Proof.
  unfold assign_angles.
  destruct is_roi_set, (flag_set flags GIMBAL_MANAGER_FLAGS_NUDGE),
    (flag_set flags GIMBAL_MANAGER_FLAGS_OVERRIDE); cbn [andb negb];
    intros H; try discriminate H; reflexivity.
Qed.

End GimbalV2Iteration.

(** ** Further properties of the polling loops *)

Section LoopBudget.
Context {K : Constants} {P : Platform}.

(** X1.  [(int)timeout_ms] is negative for a timeout of [2^31] ms or more:
    the loop condition fails at once, and the update returns 0 without
    asking for a poll, with no record and no acknowledgement.  The
    gimbal-manager adapter has published its status by then. *)
Theorem update_with_timeout_beyond_int_polls_nothing (timeout_ms : Z) :
  2 ^ 31 <= timeout_ms < 2 ^ 32 ->
  (forall s env,
      InputMavlinkCmdMount.update_impl s timeout_ms env
      = Some (InputMavlinkCmdMount.mkResult 0 false s [] env))
  /\ (forall s device_flags env,
        InputMavlinkGimbalV2.update_impl s device_flags timeout_ms env
        = Some (InputMavlinkGimbalV2.mkResult 0 false
                  (fst (InputMavlinkGimbalV2._stream_gimbal_manager_status s device_flags))
                  []
                  (snd (InputMavlinkGimbalV2._stream_gimbal_manager_status s device_flags))
                  env)).
Proof.
  intros Ht.
  assert (Hneg : (to_int32 timeout_ms <? 0) = true).
  { rewrite to_int32_upper_half by exact Ht. apply Z.ltb_lt. lia. }
  split.
  - intros s env. unfold InputMavlinkCmdMount.update_impl.
    destruct env; cbn [InputMavlinkCmdMount.update_loop]; now rewrite Hneg.
  - intros s d env. unfold InputMavlinkGimbalV2.update_impl.
    destruct (InputMavlinkGimbalV2._stream_gimbal_manager_status s d) as [s' st].
    cbn [fst snd].
    destruct env; cbn [InputMavlinkGimbalV2.update_loop]; now rewrite Hneg.
Qed.

(** X2.  When every poll takes at least a millisecond, an update with a
    timeout below [2^31] ms returns after at most [timeout_ms + 1] polls:
    each poll takes at least one off the budget, and the loop ends when
    the budget is negative. *)
Theorem update_returns_within_budget (timeout_ms : Z) :
  0 <= timeout_ms < 2 ^ 31 ->
  (forall s env,
      Forall (fun p => takes_a_millisecond (InputMavlinkCmdMount.elapsed_us p)) env ->
      timeout_ms < Z.of_nat (length env) ->
      exists r,
        InputMavlinkCmdMount.update_impl s timeout_ms env = Some r
        /\ Z.of_nat (length env)
           - Z.of_nat (length (InputMavlinkCmdMount.r_pending r)) <= timeout_ms + 1)
  /\ (forall s device_flags env,
        Forall (fun p => takes_a_millisecond (InputMavlinkGimbalV2.elapsed_us p)) env ->
        timeout_ms < Z.of_nat (length env) ->
        exists r,
          InputMavlinkGimbalV2.update_impl s device_flags timeout_ms env = Some r
          /\ Z.of_nat (length env)
             - Z.of_nat (length (InputMavlinkGimbalV2.r_pending r)) <= timeout_ms + 1).
Proof.
  intros Ht.
  assert (Hid : to_int32 timeout_ms = timeout_ms) by (apply to_int32_id; lia).
  split.
  - intros s env Hall Hlen. unfold InputMavlinkCmdMount.update_impl. rewrite Hid.
    destruct (cm_loop_within_budget env Hall s timeout_ms false []) as (r & E & L);
      [lia|exact Hlen|].
    exists r. split; [exact E|lia].
  - intros s d env Hall Hlen. unfold InputMavlinkGimbalV2.update_impl. rewrite Hid.
    destruct (InputMavlinkGimbalV2._stream_gimbal_manager_status s d) as [s' st].
    destruct (gv_loop_within_budget env Hall st s' timeout_ms false []) as (r & E & L);
      [lia|exact Hlen|].
    exists r. split; [exact E|lia].
Qed.

(** X3.  The budget is counted in whole milliseconds, poll by poll: a poll
    that returns within a millisecond takes nothing off.  Any run of
    polls that each bring, within a millisecond, a command for somebody
    else is skipped with the budget intact: the update goes on as if
    they had not been there, however many they are. *)
Theorem polls_within_a_millisecond_cost_nothing (timeout_ms : Z) :
  0 <= timeout_ms < 2 ^ 31 ->
  (forall s quick rest,
      Forall (fun p => within_a_millisecond (InputMavlinkCmdMount.elapsed_us p)
                       /\ CmdMountPolls.for_somebody_else s p) quick ->
      InputMavlinkCmdMount.update_impl s timeout_ms (quick ++ rest)
      = InputMavlinkCmdMount.update_impl s timeout_ms rest)
  /\ (forall s device_flags quick rest,
        Forall (fun p => within_a_millisecond (InputMavlinkGimbalV2.elapsed_us p)
                         /\ GimbalV2Polls.for_somebody_else s p) quick ->
        InputMavlinkGimbalV2.update_impl s device_flags timeout_ms (quick ++ rest)
        = InputMavlinkGimbalV2.update_impl s device_flags timeout_ms rest).
Proof.
  intros Ht.
  assert (Hid : to_int32 timeout_ms = timeout_ms) by (apply to_int32_id; lia).
  split.
  - intros s quick rest Hall. unfold InputMavlinkCmdMount.update_impl. rewrite Hid.
    now apply cm_loop_skips_quick_polls.
  - intros s d quick rest Hall. unfold InputMavlinkGimbalV2.update_impl. rewrite Hid.
    unfold InputMavlinkGimbalV2._stream_gimbal_manager_status.
    apply gv_loop_skips_quick_polls; [|exact Ht].
    revert Hall. apply Forall_impl. intros p [Hq Hf]. split; [exact Hq|].
    exact Hf.
Qed.

End LoopBudget.

(** ** Further properties of the legacy mount-command adapter *)

Section CmdMountMore.
Context {K : Constants} {P : Platform}.
Import InputMavlinkCmdMount.

(** X4.  An update of the legacy adapter publishes at most one
    acknowledgement.  Either it publishes none and hands out no record,
    or it was ended by a [DO_MOUNT_CONTROL] or [DO_MOUNT_CONFIGURE] command
    addressed to the adapter: then it returns 0 and its one
    acknowledgement names that command as accepted and goes to the system
    and component the command came from.  So every record handed out
    comes with an acknowledgement and with the return value 0. *)
Theorem cm_record_is_acknowledged (s : State) (timeout_ms : Z) (env : list Poll)
  (r : Result) :
  update_impl s timeout_ms env = Some r ->
  (r_acks r = [] /\ r_control_data r = false)
  \/ exists pre p cmd,
       env = pre ++ p :: r_pending r
       /\ 0 < ret p
       /\ vehicle_command p = Some cmd
       /\ addressed s cmd
       /\ (command cmd = VEHICLE_CMD_DO_MOUNT_CONTROL
           \/ command cmd = VEHICLE_CMD_DO_MOUNT_CONFIGURE)
       /\ r_ret r = 0
       /\ r_acks r = [mk_vehicle_command_ack (command cmd) VEHICLE_CMD_RESULT_ACCEPTED
                        (source_system cmd) (source_component cmd)].
Proof.
  unfold update_impl. intros H. apply cm_loop_acknowledges in H.
  destruct H as [H|(pre & p & cmd & E & Hr & Hc & Ha & Hk & Hacks & Hret)].
  - now left.
  - right. exists pre, p, cmd. repeat split; auto; apply Ha.
Qed.

(** X5.  An update of the legacy adapter that hands out no record leaves
    the adapter as it was, but for the retract flag of its record: a
    command addressed to the adapter clears the flag before the command
    is looked at, also when the command is then passed over. *)
Theorem cm_update_without_record (s : State) (timeout_ms : Z) (env : list Poll)
  (r : Result) :
  update_impl s timeout_ms env = Some r ->
  r_control_data r = false ->
  r_state r = s
  \/ r_state r = mkState (set_gimbal_shutter_retract (_control_data s) false)
                   (_mav_sys_id s) (_mav_comp_id s).
Proof.
  unfold update_impl. intros H Hout.
  exact (cm_loop_silent env s _ [] r H Hout).
Qed.

Lemma frame_of_param_eq (n : Z) :
  frame_of_param n
  = if n =? 1 then AngularRate
    else if n =? 2 then AngleAbsoluteFrame else AngleBodyFrame.
Proof.
  unfold frame_of_param. destruct (n =? 0) eqn:E; [|reflexivity].
  apply Z.eqb_eq in E. subst n. reflexivity.
Qed.

(** X6.  A [DO_MOUNT_CONFIGURE] command addressed to the adapter ends the
    update with an acknowledgement and a record of type [Neutral].  The
    stabilisation flag of an axis is set exactly when param2, param3,
    param4 plus one half converts to 1; the frame of an axis is
    angular-rate when param5, param6, param7 plus one half converts to
    1, absolute when it converts to 2, and body-relative for every other
    value.  The angles, the longitude and everything else in the record
    stay as they were, but for the retract flag, which is cleared, and
    for the latitude: the frames lie in its bytes, so that the number it
    held is overwritten. *)
Theorem cm_mount_configure
  (s : State) (t : Z) (out : bool) (acks : list vehicle_command_ack_s)
  (p : Poll) (cmd : vehicle_command_s) (env : list Poll) :
  VEHICLE_CMD_DO_MOUNT_CONFIGURE <> VEHICLE_CMD_DO_MOUNT_CONTROL ->
  0 <= t -> 0 < ret p -> vehicle_command p = Some cmd ->
  addressed s cmd ->
  command cmd = VEHICLE_CMD_DO_MOUNT_CONFIGURE ->
  let cd := _control_data s in
  let rounded (x : float) := float_to_int (fadd x HALF) in
  let frame_of (n : Z) :=
    if n =? 1 then AngularRate
    else if n =? 2 then AngleAbsoluteFrame else AngleBodyFrame in
  update_loop (p :: env) s t out acks
  = Some (mkResult 0 true
            (mkState
               (mkControlData Neutral (angles cd)
                  (mk3 (frame_of (rounded (F64.to_float (param5 cmd))))
                       (frame_of (rounded (F64.to_float (param6 cmd))))
                       (frame_of (rounded (param7 cmd))))
                  (lon cd) None (altitude cd) (roll_angle cd)
                  (pitch_fixed_angle cd) (pitch_angle_offset cd) (yaw_angle_offset cd)
                  (mk3 (rounded (param2 cmd) =? 1)
                       (rounded (param3 cmd) =? 1)
                       (rounded (param4 cmd) =? 1))
                  false)
               (_mav_sys_id s) (_mav_comp_id s))
            (acks ++ [_ack_vehicle_command cmd]) env).
Proof.
  intros Hd Ht Hr Hc Ha Hk. cbv zeta.
  rewrite (update_loop_command s t out acks p cmd env Ht Hr Hc).
  rewrite (addressed_filter s cmd Ha). cbv zeta.
  replace (command cmd =? VEHICLE_CMD_DO_MOUNT_CONTROL) with false
    by (symmetry; apply Z.eqb_neq; congruence).
  replace (command cmd =? VEHICLE_CMD_DO_MOUNT_CONFIGURE) with true
    by (symmetry; apply Z.eqb_eq; exact Hk).
  unfold do_mount_configure. cbv zeta. rewrite <- !frame_of_param_eq.
  reflexivity.
Qed.

(** X7.  A [DO_MOUNT_CONTROL] command addressed to the adapter with
    sub-mode [GPS_POINT] ends the update with an acknowledgement and the
    record that [control_data_set_lon_lat] makes of param6 as the
    longitude, param5 as the latitude and param4 as the altitude, on the
    adapter's record with the retract flag cleared. *)
Theorem cm_gps_point
  (s : State) (t : Z) (out : bool) (acks : list vehicle_command_ack_s)
  (p : Poll) (cmd : vehicle_command_s) (env : list Poll) :
  mount_modes_distinct ->
  0 <= t -> 0 < ret p -> vehicle_command p = Some cmd ->
  addressed s cmd ->
  command cmd = VEHICLE_CMD_DO_MOUNT_CONTROL ->
  float_to_int (param7 cmd) = VEHICLE_MOUNT_MODE_GPS_POINT ->
  update_loop (p :: env) s t out acks
  = Some (mkResult 0 true
            (mkState
               (control_data_set_lon_lat
                  (set_gimbal_shutter_retract (_control_data s) false)
                  (param6 cmd) (param5 cmd) (param4 cmd))
               (_mav_sys_id s) (_mav_comp_id s))
            (acks ++ [_ack_vehicle_command cmd]) env).
Proof.
  intros Hd Ht Hr Hc Ha Hk Hm.
  rewrite (update_loop_command s t out acks p cmd env Ht Hr Hc).
  rewrite (addressed_filter s cmd Ha). cbv zeta.
  replace (command cmd =? VEHICLE_CMD_DO_MOUNT_CONTROL) with true
    by (symmetry; apply Z.eqb_eq; exact Hk).
  unfold do_mount_control. cbv zeta. rewrite Hm.
  unfold mount_modes_distinct in Hd.
  repeat match goal with
         | H : NoDup (_ :: _) |- _ =>
             let H1 := fresh "N" in
             apply NoDup_cons_iff in H; destruct H as [H1 H]; cbn [In] in H1
         end.
  replace (VEHICLE_MOUNT_MODE_GPS_POINT =? VEHICLE_MOUNT_MODE_RETRACT) with false
    by (symmetry; apply Z.eqb_neq; intuition congruence).
  replace (VEHICLE_MOUNT_MODE_GPS_POINT =? VEHICLE_MOUNT_MODE_NEUTRAL) with false
    by (symmetry; apply Z.eqb_neq; intuition congruence).
  replace (VEHICLE_MOUNT_MODE_GPS_POINT =? VEHICLE_MOUNT_MODE_MAVLINK_TARGETING)
    with false by (symmetry; apply Z.eqb_neq; intuition congruence).
  replace (VEHICLE_MOUNT_MODE_GPS_POINT =? VEHICLE_MOUNT_MODE_RC_TARGETING) with false
    by (symmetry; apply Z.eqb_neq; intuition congruence).
  rewrite Z.eqb_refl. reflexivity.
Qed.

End CmdMountMore.

(** ** Further properties of the ROI adapter *)

Section ROIMore.
Context {K : Constants} {P : Platform}.

(** X8.  Following the next waypoint.  An ROI event with mode
    [ROI_WPNEXT] makes the ROI adapter hand out a record of type [LonLat]
    with the position of the current setpoint, the fixed pitch [-10.f]
    and the three offsets of the event.  From then on every update that
    sees the position setpoint change hands the record out again with
    the new position and everything else as the event left it.  The
    position fills the bytes of the angle payload: the angles and the
    frames read what the platform makes of them. *)
Theorem roi_wpnext_follows_setpoint (s : InputMavlinkROI.State) (t1 t2 : Z)
  (p1 p2 : InputMavlinkROI.Poll) (roi : vehicle_roi_s) :
  ROI_NONE <> ROI_WPNEXT ->
  0 < InputMavlinkROI.ret p1 ->
  InputMavlinkROI.vehicle_roi p1 = Some roi ->
  roi_mode roi = ROI_WPNEXT ->
  0 < InputMavlinkROI.ret p2 ->
  InputMavlinkROI.vehicle_roi p2 = None ->
  InputMavlinkROI.position_setpoint_pollin p2 = true ->
  let cd := InputMavlinkROI._control_data s in
  let record (sp : position_setpoint_s) :=
    mkControlData LonLat (aliased_angles (sp_lon sp) (sp_lat sp))
      (aliased_frames (sp_lat sp)) (Some (sp_lon sp)) (Some (sp_lat sp)) (sp_alt sp)
      (roi_roll_offset roi) MINUS_TEN (roi_pitch_offset roi) (roi_yaw_offset roi)
      (stabilize_axis cd) false in
  let s1 := InputMavlinkROI.mkState
              (record (InputMavlinkROI.position_setpoint_triplet p1)) ROI_WPNEXT in
  let s2 := InputMavlinkROI.mkState
              (record (InputMavlinkROI.position_setpoint_triplet p2)) ROI_WPNEXT in
  InputMavlinkROI.update_impl s t1 p1 = (0, true, s1)
  /\ InputMavlinkROI.update_impl s1 t2 p2 = (0, true, s2).
Proof.
  intros Hd Hr1 Hv1 Hm Hr2 Hv2 Hs2. cbv zeta.
  assert (Hn : (ROI_WPNEXT =? ROI_NONE) = false) by (apply Z.eqb_neq; congruence).
  split.
  - unfold InputMavlinkROI.update_impl.
    replace (InputMavlinkROI.ret p1 <? 0) with false by (symmetry; apply Z.ltb_ge; lia).
    replace (InputMavlinkROI.ret p1 =? 0) with false by (symmetry; apply Z.eqb_neq; lia).
    rewrite Hv1. unfold InputMavlinkROI.on_vehicle_roi. cbv zeta.
    rewrite Hm, Hn, Z.eqb_refl.
    destruct (InputMavlinkROI.position_setpoint_pollin p1); [|reflexivity].
    unfold InputMavlinkROI.on_position_setpoint.
    cbn [InputMavlinkROI._cur_roi_mode]. rewrite Z.eqb_refl. reflexivity.
  - unfold InputMavlinkROI.update_impl.
    replace (InputMavlinkROI.ret p2 <? 0) with false by (symmetry; apply Z.ltb_ge; lia).
    replace (InputMavlinkROI.ret p2 =? 0) with false by (symmetry; apply Z.eqb_neq; lia).
    rewrite Hv2, Hs2. unfold InputMavlinkROI.on_position_setpoint.
    cbn [InputMavlinkROI._cur_roi_mode]. rewrite Z.eqb_refl. reflexivity.
Qed.

(** X9.  An ROI event whose mode is none of [ROI_NONE], [ROI_WPNEXT] and
    [ROI_LOCATION] (so [ROI_TARGET], or a number that is no mode) hands
    out no record in either adapter, and clears the retract flag in
    both.  The ROI adapter remembers the mode all the same, so a position
    setpoint that it followed it follows no longer; the gimbal-manager
    adapter keeps the mode and the target it had, and goes on polling. *)
Theorem unsupported_roi_mode (roi : vehicle_roi_s) :
  roi_mode roi <> ROI_NONE -> roi_mode roi <> ROI_WPNEXT ->
  roi_mode roi <> ROI_LOCATION ->
  (forall s timeout_ms p,
      0 < InputMavlinkROI.ret p -> InputMavlinkROI.vehicle_roi p = Some roi ->
      InputMavlinkROI.update_impl s timeout_ms p
      = (0, false,
         InputMavlinkROI.mkState
           (set_gimbal_shutter_retract (InputMavlinkROI._control_data s) false)
           (roi_mode roi)))
  /\ (forall s timeout_ms p,
        InputMavlinkROI._cur_roi_mode s = roi_mode roi ->
        0 < InputMavlinkROI.ret p -> InputMavlinkROI.vehicle_roi p = None ->
        InputMavlinkROI.update_impl s timeout_ms p = (0, false, s))
  /\ (forall it sp gpos,
        InputMavlinkGimbalV2.on_vehicle_roi it roi sp gpos
        = InputMavlinkGimbalV2.mkIter
            (InputMavlinkGimbalV2.with_control_data (InputMavlinkGimbalV2.i_state it)
               (set_gimbal_shutter_retract
                  (InputMavlinkGimbalV2._control_data (InputMavlinkGimbalV2.i_state it))
                  false))
            (InputMavlinkGimbalV2.i_control_data it)
            (InputMavlinkGimbalV2.i_acks it) false)
  /\ (forall it sp gpos sp' gpos',
        InputMavlinkGimbalV2._cur_roi_mode (InputMavlinkGimbalV2.i_state it) = ROI_WPNEXT ->
        InputMavlinkGimbalV2.i_control_data
          (InputMavlinkGimbalV2.on_position_setpoint
             (InputMavlinkGimbalV2.on_vehicle_roi it roi sp gpos) sp' gpos') = true).
Proof.
  intros H1 H2 H3.
  apply Z.eqb_neq in H1. apply Z.eqb_neq in H2. apply Z.eqb_neq in H3.
  split.
  - intros s t p Hr Hv. unfold InputMavlinkROI.update_impl.
    replace (InputMavlinkROI.ret p <? 0) with false by (symmetry; apply Z.ltb_ge; lia).
    replace (InputMavlinkROI.ret p =? 0) with false by (symmetry; apply Z.eqb_neq; lia).
    rewrite Hv. unfold InputMavlinkROI.on_vehicle_roi. cbv zeta.
    rewrite H1, H2, H3.
    destruct (InputMavlinkROI.position_setpoint_pollin p); [|reflexivity].
    unfold InputMavlinkROI.on_position_setpoint.
    cbn [InputMavlinkROI._cur_roi_mode]. rewrite H2. reflexivity.
  - assert (G : forall it sp gpos,
               InputMavlinkGimbalV2.on_vehicle_roi it roi sp gpos
               = InputMavlinkGimbalV2.mkIter
                   (InputMavlinkGimbalV2.with_control_data
                      (InputMavlinkGimbalV2.i_state it)
                      (set_gimbal_shutter_retract
                         (InputMavlinkGimbalV2._control_data
                            (InputMavlinkGimbalV2.i_state it)) false))
                   (InputMavlinkGimbalV2.i_control_data it)
                   (InputMavlinkGimbalV2.i_acks it) false).
    { intros it sp gpos. unfold InputMavlinkGimbalV2.on_vehicle_roi. cbv zeta.
      rewrite H1, H2, H3. reflexivity. }
    split; [|split; [exact G|]].
    + intros s t p Hm Hr Hv. unfold InputMavlinkROI.update_impl.
      replace (InputMavlinkROI.ret p <? 0) with false by (symmetry; apply Z.ltb_ge; lia).
      replace (InputMavlinkROI.ret p =? 0) with false by (symmetry; apply Z.eqb_neq; lia).
      rewrite Hv.
      destruct (InputMavlinkROI.position_setpoint_pollin p); [|reflexivity].
      unfold InputMavlinkROI.on_position_setpoint. rewrite Hm, H2. reflexivity.
    + intros it sp gpos sp' gpos' Hm. rewrite G.
      unfold InputMavlinkGimbalV2.on_position_setpoint. cbv zeta.
      cbn [InputMavlinkGimbalV2.i_state InputMavlinkGimbalV2.with_control_data
           InputMavlinkGimbalV2._cur_roi_mode].
      rewrite Hm, Z.eqb_refl. reflexivity.
Qed.

End ROIMore.

(** ** Further properties of the gimbal-manager adapter *)

Section GimbalV2More.
Context {K : Constants} {P : Platform}.
Import InputMavlinkGimbalV2 GimbalV2Polls.

Lemma stream_status_kept (s : State) (device_flags : option Z) :
  _control_data (fst (_stream_gimbal_manager_status s device_flags)) = _control_data s
  /\ _mav_sys_id (fst (_stream_gimbal_manager_status s device_flags)) = _mav_sys_id s
  /\ _mav_comp_id (fst (_stream_gimbal_manager_status s device_flags)) = _mav_comp_id s
  /\ _projection_reference (fst (_stream_gimbal_manager_status s device_flags))
     = _projection_reference s.
Proof. unfold _stream_gimbal_manager_status. cbn. auto. Qed.

(** X10.  The gimbal-manager adapter acknowledges every
    [DO_GIMBAL_MANAGER_ATTITUDE] command addressed to it that a poll of the
    update delivers, each one once and in the order of arrival, and
    publishes no other acknowledgement.  An update can publish several:
    the command branch does not end the loop when another branch of the
    same iteration has asked for more polling. *)
Theorem gv_acknowledges_every_attitude_command (s : State) (device_flags : option Z)
  (timeout_ms : Z) (env : list Poll) (r : Result) :
  update_impl s device_flags timeout_ms env = Some r ->
  exists pre,
    env = pre ++ r_pending r
    /\ r_acks r = flat_map (acknowledged s) pre.
Proof.
  intros H. apply update_impl_after_polls in H.
  destruct H as (pre & E & A & _). exists pre. split; [exact E|].
  pose proof (after_polls_acks pre
                (fst (_stream_gimbal_manager_status s device_flags)) false []) as Hacks.
  rewrite A in Hacks. cbn [snd app] in Hacks. rewrite Hacks.
  apply flat_map_ext. intros p.
  destruct (stream_status_kept s device_flags) as (_ & I1 & I2 & _).
  now apply acknowledged_ids.
Qed.

(** X11.  What an update of the gimbal-manager adapter never writes: the
    two ids, and in the record the altitude and the stabilisation flags.
    It stores no longitude and no latitude: each holds the number it
    held, or none any more once angles or frames were written in its
    bytes.  It never makes the record a [LonLat] record (it turns lon/lat
    targets into angles itself), and the only value it stores as fixed
    pitch is [-10.f]. *)
Theorem gv_update_keeps (s : State) (device_flags : option Z)
  (timeout_ms : Z) (env : list Poll) (r : Result) :
  update_impl s device_flags timeout_ms env = Some r ->
  let cd := _control_data s in
  let cd' := _control_data (r_state r) in
  _mav_sys_id (r_state r) = _mav_sys_id s
  /\ _mav_comp_id (r_state r) = _mav_comp_id s
  /\ (lon cd' = lon cd \/ lon cd' = None)
  /\ (lat cd' = lat cd \/ lat cd' = None)
  /\ altitude cd' = altitude cd
  /\ stabilize_axis cd' = stabilize_axis cd
  /\ (type cd' = LonLat -> type cd = LonLat)
  /\ (pitch_fixed_angle cd' = pitch_fixed_angle cd
      \/ pitch_fixed_angle cd' = MINUS_TEN).
Proof.
  intros H. cbv zeta. apply update_impl_after_polls in H.
  destruct H as (pre & _ & A & _).
  pose proof (after_polls_kept pre
                (fst (_stream_gimbal_manager_status s device_flags)) false []) as Hk.
  rewrite A in Hk. cbn [fst] in Hk.
  destruct (stream_status_kept s device_flags) as (I0 & I1 & I2 & _).
  destruct Hk as (K1 & K2 & _ & K4 & K5 & K6 & K7 & K8 & K9 & _).
  rewrite I0 in *. rewrite I1 in K1. rewrite I2 in K2. auto 10.
Qed.

(** X12.  Once the projection reference of the adapter is initialised, no
    update changes it: every later pitch is computed in the projection
    that was set up first. *)
Theorem gv_projection_reference_is_set_once (s : State) (device_flags : option Z)
  (timeout_ms : Z) (env : list Poll) (r : Result) :
  map_projection_initialized (_projection_reference s) = true ->
  update_impl s device_flags timeout_ms env = Some r ->
  _projection_reference (r_state r) = _projection_reference s.
Proof.
  intros Hi H. apply update_impl_after_polls in H.
  destruct H as (pre & _ & A & _).
  pose proof (after_polls_kept pre
                (fst (_stream_gimbal_manager_status s device_flags)) false []) as Hk.
  rewrite A in Hk. cbn [fst] in Hk.
  destruct (stream_status_kept s device_flags) as (_ & _ & _ & I3).
  destruct Hk as (_ & _ & _ & _ & _ & _ & _ & _ & _ & K10).
  rewrite I3 in K10. now apply K10.
Qed.

(** X13.  The status an update publishes carries the device flags most
    recently received: those of this update when the device status topic
    has an update, and otherwise those an earlier update has received,
    which the polling loop has left alone.  The device id is 0. *)
Theorem gv_status_carries_last_device_flags (s : State) (flags : Z)
  (t1 t2 : Z) (env1 env2 : list Poll) (r1 r2 : Result) :
  update_impl s (Some flags) t1 env1 = Some r1 ->
  update_impl (r_state r1) None t2 env2 = Some r2 ->
  r_status r1 = mk_manager_status flags 0
  /\ r_status r2 = mk_manager_status flags 0.
Proof.
  intros H1 H2.
  apply update_impl_after_polls in H1. destruct H1 as (pre1 & _ & A1 & S1 & _).
  apply update_impl_after_polls in H2. destruct H2 as (pre2 & _ & _ & S2 & _).
  split; [exact S1|]. rewrite S2.
  pose proof (after_polls_kept pre1
                (fst (_stream_gimbal_manager_status s (Some flags))) false []) as Hk.
  rewrite A1 in Hk. cbn [fst] in Hk.
  destruct Hk as (_ & _ & K3 & _).
  unfold _stream_gimbal_manager_status. cbn [snd]. rewrite K3. reflexivity.
Qed.

(** X14.  When a poll delivers an attitude-set event together with an ROI
    event whose mode is [ROI_WPNEXT] or [ROI_LOCATION], the attitude-set
    event is lost: it is handled first, and the ROI branch then writes
    the type, the three angles and the three frames anew, from the
    target.  The iteration ends exactly as it does without the
    attitude-set event. *)
Theorem gv_lon_lat_target_overwrites_attitude (s : State) (out : bool)
  (acks : list vehicle_command_ack_s) (p : Poll) (roi : vehicle_roi_s) :
  vehicle_roi p = Some roi ->
  roi_mode roi <> ROI_NONE ->
  roi_mode roi = ROI_WPNEXT \/ roi_mode roi = ROI_LOCATION ->
  on_poll s out acks p = on_poll s out acks (without_set_attitude p).
Proof.
  intros Hv Hn Hm. unfold on_poll, without_set_attitude. cbv zeta.
  cbn [gimbal_manager_set_attitude vehicle_roi position_setpoint_pollin
       position_setpoint_triplet vehicle_command vehicle_global_position].
  rewrite Hv.
  destruct (gimbal_manager_set_attitude p) as [sa|]; [|reflexivity].
  rewrite on_vehicle_roi_after_set_attitude; [reflexivity| |].
  - now apply Z.eqb_neq.
  - apply orb_true_iff. destruct Hm as [Hm|Hm]; [left|right]; now apply Z.eqb_eq.
Qed.

Lemma assign_angles_values (is_roi_set : bool) (cd : ControlData) (flags : Z)
  (pitch yaw roll : float) :
  angles (assign_angles is_roi_set cd flags pitch yaw roll)
  = if is_roi_set && flag_set flags GIMBAL_MANAGER_FLAGS_NUDGE
       && negb (flag_set flags GIMBAL_MANAGER_FLAGS_OVERRIDE)
    then mk3 (fadd (get3 (angles cd) 0) pitch)
             (fadd (get3 (angles cd) 1) roll)
             (fadd (get3 (angles cd) 2) yaw)
    else mk3 pitch roll yaw.
Proof.
  unfold assign_angles.
  destruct is_roi_set, (flag_set flags GIMBAL_MANAGER_FLAGS_NUDGE),
    (flag_set flags GIMBAL_MANAGER_FLAGS_OVERRIDE); reflexivity.
Qed.

Lemma apply_rates_values (cd : ControlData) (pitch_rate yaw_rate roll_rate : float) :
  angles (apply_rates cd pitch_rate yaw_rate roll_rate)
  = mk3 (if PX4_ISFINITE roll_rate then roll_rate else get3 (angles cd) 0)
        (if PX4_ISFINITE pitch_rate then pitch_rate else get3 (angles cd) 1)
        (if PX4_ISFINITE yaw_rate then yaw_rate else get3 (angles cd) 2).
Proof.
  unfold apply_rates.
  destruct (PX4_ISFINITE roll_rate), (PX4_ISFINITE pitch_rate), (PX4_ISFINITE yaw_rate);
    destruct cd as [t [x y z] f lo la al ra pf po yo st re]; reflexivity.
Qed.

Lemma apply_locks_values (cd : ControlData) (flags : Z) :
  angles (apply_locks cd flags) = angles cd.
Proof.
  unfold apply_locks.
  repeat match goal with
         | |- context [if ?b then _ else _] => destruct b
         end; reflexivity.
Qed.

(** X15.  The three channels after an attitude-set event, past the
    retract, neutral and none flags.  Channel 0 goes with the angle the
    event's quaternion gives as [phi] and with [angular_velocity_x],
    channel 1 with [theta] and [angular_velocity_y], channel 2 with [psi]
    and [angular_velocity_z].  A finite rate is stored in place of the
    angle.  Otherwise the angle is added to the value the channel has
    when a target is set and the event has the nudge flag without the
    override flag, and it replaces the value in every other case: the
    override flag cancels the nudge flag, and without a target neither
    flag has an effect. *)
Theorem gv_set_attitude_channels (it : Iter) (sa : gimbal_manager_set_attitude_s) :
  flag_set (sa_flags sa) GIMBAL_MANAGER_FLAGS_RETRACT = false ->
  flag_set (sa_flags sa) GIMBAL_MANAGER_FLAGS_NEUTRAL = false ->
  flag_set (sa_flags sa) GIMBAL_MANAGER_FLAGS_NONE = false ->
  let s := i_state it in
  let old := angles (_control_data s) in
  let adds := _is_roi_set s && flag_set (sa_flags sa) GIMBAL_MANAGER_FLAGS_NUDGE
              && negb (flag_set (sa_flags sa) GIMBAL_MANAGER_FLAGS_OVERRIDE) in
  let channel (i : nat) (angle rate : float) :=
    if PX4_ISFINITE rate then rate
    else if adds then fadd (get3 old i) angle else angle in
  angles (_control_data (i_state (on_set_attitude it sa)))
  = mk3 (channel 0%nat (euler_phi (sa_q sa)) (angular_velocity_x sa))
        (channel 1%nat (euler_theta (sa_q sa)) (angular_velocity_y sa))
        (channel 2%nat (euler_psi (sa_q sa)) (angular_velocity_z sa)).
Proof.
  intros H1 H2 H3. cbv zeta. unfold on_set_attitude. cbv zeta.
  cbn [i_state with_control_data _control_data].
  rewrite set_attitude_steps by assumption.
  rewrite apply_locks_values, apply_rates_values, assign_angles_values.
  destruct (_is_roi_set (i_state it) && _ && _); reflexivity.
Qed.

(** X16.  An attitude-set event with the retract flag, or with the none
    flag and neither the retract nor the neutral flag, changes nothing in
    the adapter, and yet the update hands the record out as an update.
    With the neutral flag and without the retract flag the type becomes
    [Neutral] and nothing else changes.  The retract flag of the event
    never reaches the retract flag of the record. *)
Theorem gv_set_attitude_flags_without_angles (s : State) (device_flags : option Z)
  (timeout_ms : Z) (p : Poll) (sa : gimbal_manager_set_attitude_s) (env : list Poll) :
  0 <= to_int32 timeout_ms -> attitude_only p sa ->
  flag_set (sa_flags sa) GIMBAL_MANAGER_FLAGS_RETRACT = true
  \/ flag_set (sa_flags sa) GIMBAL_MANAGER_FLAGS_NEUTRAL = true
  \/ flag_set (sa_flags sa) GIMBAL_MANAGER_FLAGS_NONE = true ->
  exists r,
    update_impl s device_flags timeout_ms (p :: env) = Some r
    /\ r_control_data r = true
    /\ r_state r
       = with_control_data (fst (_stream_gimbal_manager_status s device_flags))
           (if flag_set (sa_flags sa) GIMBAL_MANAGER_FLAGS_RETRACT
            then _control_data s
            else if flag_set (sa_flags sa) GIMBAL_MANAGER_FLAGS_NEUTRAL
                 then set_type (_control_data s) Neutral
                 else _control_data s).
Proof.
  intros Ht Ha Hf.
  destruct (update_impl_attitude_only s device_flags timeout_ms p sa env Ht Ha)
    as (r & E & Hc & Hs).
  exists r. split; [exact E|]. split; [rewrite Hc; reflexivity|].
  rewrite Hs. unfold on_set_attitude. cbv zeta. cbn [i_state].
  f_equal. unfold _set_control_data_from_set_attitude, _stream_gimbal_manager_status.
  cbn [fst _control_data].
  destruct (flag_set (sa_flags sa) GIMBAL_MANAGER_FLAGS_RETRACT); [reflexivity|].
  destruct (flag_set (sa_flags sa) GIMBAL_MANAGER_FLAGS_NEUTRAL); [reflexivity|].
  destruct (flag_set (sa_flags sa) GIMBAL_MANAGER_FLAGS_NONE); [reflexivity|].
  destruct Hf as [Hf|[Hf|Hf]]; discriminate Hf.
Qed.

(** X17.  An ROI event with mode [ROI_WPNEXT] in the gimbal-manager
    adapter.  The fixed pitch it stores, [-10.f], is below [- M_PI_F], so
    the pitch is always computed: [atan2f] of the setpoint's altitude less
    the carrier's and their planar distance, plus the pitch offset of
    the event.  The altitude goes through a [double] on the way and
    comes back as it was.  The yaw is the bearing from the carrier to the
    setpoint less the carrier's yaw, plus the yaw offset, wrapped.  The
    roll offset of the event is stored in the record, but channel 0 is
    [0.f] whatever it is. *)
Theorem gv_wpnext_target (it : Iter) (roi : vehicle_roi_s) (sp : position_setpoint_s)
  (gpos : vehicle_global_position_s) :
  ROI_NONE <> ROI_WPNEXT ->
  roi_mode roi = ROI_WPNEXT ->
  is_valid (sp_alt sp) = true ->
  let s := i_state it in
  let anchor :=
    if map_projection_initialized (_projection_reference s)
    then _projection_reference s
    else map_projection_init (_projection_reference s) (gpos_lat gpos) (gpos_lon gpos) in
  let target := map_projection_project anchor (sp_lat sp) (sp_lon sp) in
  let carrier := map_projection_project anchor (gpos_lat gpos) (gpos_lon gpos) in
  let dx := fsub (fst target) (fst carrier) in
  let dy := fsub (snd target) (snd carrier) in
  let d := sqrtf (fadd (fmul dx dx) (fmul dy dy)) in
  let z := fsub (sp_alt sp) (gpos_alt gpos) in
  let bearing :=
    get_bearing_to_next_waypoint (gpos_lat gpos) (gpos_lon gpos) (sp_lat sp) (sp_lon sp) in
  let it' := on_vehicle_roi it roi sp gpos in
  let cd' := _control_data (i_state it') in
  i_control_data it' = true
  /\ _is_roi_set (i_state it') = true
  /\ _cur_roi_mode (i_state it') = ROI_WPNEXT
  /\ _projection_reference (i_state it') = anchor
  /\ type cd' = Angle
  /\ frames cd' = mk3 AngleBodyFrame AngleBodyFrame AngleBodyFrame
  /\ angles cd'
     = mk3 zero
           (fadd (atan2f z d) (roi_pitch_offset roi))
           (wrap_pi (fadd (fsub bearing (gpos_yaw gpos)) (roi_yaw_offset roi)))
  /\ roll_angle cd' = roi_roll_offset roi
  /\ pitch_fixed_angle cd' = MINUS_TEN.
Proof.
  intros Hd Hm Hv. cbv zeta. unfold on_vehicle_roi. cbv zeta.
  replace (roi_mode roi =? ROI_NONE) with false
    by (symmetry; apply Z.eqb_neq; congruence).
  replace (roi_mode roi =? ROI_WPNEXT) with true
    by (symmetry; apply Z.eqb_eq; exact Hm).
  rewrite transform_eq. cbv zeta.
  cbn [i_state i_control_data with_roi with_control_data _control_data
       _projection_reference _is_roi_set _cur_roi_mode _mav_sys_id _mav_comp_id
       _gimbal_device_attitude_status
       set_yaw_angle_offset set_pitch_angle_offset set_roll_angle set_pitch_fixed_angle
       set_gimbal_shutter_retract
       type angles frames lon lat altitude roll_angle pitch_fixed_angle
       pitch_angle_offset yaw_angle_offset stabilize_axis gimbal_shutter_retract].
  change (fge MINUS_TEN (fneg M_PI_F)) with false. cbv iota.
  rewrite (to_float_of_float (sp_alt sp) Hv).
  rewrite calculate_pitch_reference.
  unfold _calculate_pitch.
  destruct (map_projection_project
              (if map_projection_initialized (_projection_reference (i_state it))
               then _projection_reference (i_state it)
               else map_projection_init (_projection_reference (i_state it))
                      (gpos_lat gpos) (gpos_lon gpos)) (sp_lat sp) (sp_lon sp))
    as [x1 y1].
  destruct (map_projection_project
              (if map_projection_initialized (_projection_reference (i_state it))
               then _projection_reference (i_state it)
               else map_projection_init (_projection_reference (i_state it))
                      (gpos_lat gpos) (gpos_lon gpos)) (gpos_lat gpos) (gpos_lon gpos))
    as [x2 y2].
  cbn [fst snd]. rewrite Hm. auto 10.
Qed.

(** X18.  The offsets of an [ROI_WPNEXT] event outlive it.  An ROI event
    with mode [ROI_LOCATION] that is handled later stores no offsets and
    no fixed pitch of its own: the pitch towards its target is computed
    from the altitudes, as the [-10.f] the earlier event stored asks
    for, and the pitch and yaw offsets of the earlier event are added. *)
Theorem gv_location_target_keeps_wpnext_offsets (it it1 : Iter)
  (roi1 roi2 : vehicle_roi_s) (sp1 sp2 : position_setpoint_s)
  (gpos1 gpos2 : vehicle_global_position_s) :
  ROI_NONE <> ROI_WPNEXT -> ROI_NONE <> ROI_LOCATION -> ROI_WPNEXT <> ROI_LOCATION ->
  roi_mode roi1 = ROI_WPNEXT ->
  i_state it1 = i_state (on_vehicle_roi it roi1 sp1 gpos1) ->
  roi_mode roi2 = ROI_LOCATION ->
  is_valid (roi_alt roi2) = true ->
  let s1 := i_state it1 in
  let anchor :=
    if map_projection_initialized (_projection_reference s1)
    then _projection_reference s1
    else map_projection_init (_projection_reference s1)
           (gpos_lat gpos2) (gpos_lon gpos2) in
  let target := map_projection_project anchor (roi_lat roi2) (roi_lon roi2) in
  let carrier := map_projection_project anchor (gpos_lat gpos2) (gpos_lon gpos2) in
  let dx := fsub (fst target) (fst carrier) in
  let dy := fsub (snd target) (snd carrier) in
  let d := sqrtf (fadd (fmul dx dx) (fmul dy dy)) in
  let z := fsub (roi_alt roi2) (gpos_alt gpos2) in
  let bearing :=
    get_bearing_to_next_waypoint (gpos_lat gpos2) (gpos_lon gpos2)
      (roi_lat roi2) (roi_lon roi2) in
  let it2 := on_vehicle_roi it1 roi2 sp2 gpos2 in
  i_control_data it2 = true
  /\ _cur_roi_mode (i_state it2) = ROI_LOCATION
  /\ _is_roi_set (i_state it2) = true
  /\ angles (_control_data (i_state it2))
     = mk3 zero
           (fadd (atan2f z d) (roi_pitch_offset roi1))
           (wrap_pi (fadd (fsub bearing (gpos_yaw gpos2)) (roi_yaw_offset roi1))).
Proof.
  intros D1 D2 D3 Hm1 Hs Hm2 Hv. cbv zeta.
  assert (Hp : pitch_fixed_angle (_control_data (i_state it1)) = MINUS_TEN
               /\ pitch_angle_offset (_control_data (i_state it1)) = roi_pitch_offset roi1
               /\ yaw_angle_offset (_control_data (i_state it1)) = roi_yaw_offset roi1).
  { rewrite Hs. unfold on_vehicle_roi. cbv zeta.
    replace (roi_mode roi1 =? ROI_NONE) with false
      by (symmetry; apply Z.eqb_neq; congruence).
    replace (roi_mode roi1 =? ROI_WPNEXT) with true
      by (symmetry; apply Z.eqb_eq; exact Hm1).
    rewrite transform_eq. cbv zeta. cbn. auto. }
  destruct Hp as (P1 & P2 & P3).
  unfold on_vehicle_roi. cbv zeta.
  replace (roi_mode roi2 =? ROI_NONE) with false
    by (symmetry; apply Z.eqb_neq; congruence).
  replace (roi_mode roi2 =? ROI_WPNEXT) with false
    by (symmetry; apply Z.eqb_neq; congruence).
  replace (roi_mode roi2 =? ROI_LOCATION) with true
    by (symmetry; apply Z.eqb_eq; exact Hm2).
  rewrite transform_eq. cbv zeta.
  cbn [i_state i_control_data with_roi with_control_data _control_data
       _projection_reference _is_roi_set _cur_roi_mode _mav_sys_id _mav_comp_id
       _gimbal_device_attitude_status set_gimbal_shutter_retract
       type angles frames lon lat altitude roll_angle pitch_fixed_angle
       pitch_angle_offset yaw_angle_offset stabilize_axis gimbal_shutter_retract].
  rewrite P1, P2, P3.
  change (fge MINUS_TEN (fneg M_PI_F)) with false. cbv iota.
  rewrite (to_float_of_float (roi_alt roi2) Hv).
  unfold _calculate_pitch.
  destruct (map_projection_project
              (if map_projection_initialized (_projection_reference (i_state it1))
               then _projection_reference (i_state it1)
               else map_projection_init (_projection_reference (i_state it1))
                      (gpos_lat gpos2) (gpos_lon gpos2)) (roi_lat roi2) (roi_lon roi2))
    as [x1 y1].
  destruct (map_projection_project
              (if map_projection_initialized (_projection_reference (i_state it1))
               then _projection_reference (i_state it1)
               else map_projection_init (_projection_reference (i_state it1))
                      (gpos_lat gpos2) (gpos_lon gpos2)) (gpos_lat gpos2) (gpos_lon gpos2))
    as [x2 y2].
  cbn [fst snd]. rewrite Hm2. auto.
Qed.

(** X19.  An attitude-set event is never dropped: whatever the update that
    reads it goes on to do (poll on because another branch asked for it,
    time out, or return the error of a failing poll), it hands out the
    record.  The return value of an update is 0 unless the last poll it
    asked for failed, and then it is that poll's [- errno]: a record can
    come with a negative return value. *)
Theorem gv_attitude_event_is_handed_out (s : State) (device_flags : option Z)
  (timeout_ms : Z) (env : list Poll) (r : Result) :
  update_impl s device_flags timeout_ms env = Some r ->
  exists pre,
    env = pre ++ r_pending r
    /\ (existsb delivers_attitude pre = true -> r_control_data r = true)
    /\ (r_ret r = 0
        \/ exists pre' q, pre = pre' ++ [q] /\ ret q < 0 /\ r_ret r = - errno q).
Proof.
  intros H. apply update_impl_after_polls in H.
  destruct H as (pre & E & A & _ & R). exists pre.
  split; [exact E|]. split; [|exact R].
  intros Hd.
  pose proof (after_polls_control_data pre
                (fst (_stream_gimbal_manager_status s device_flags)) false []
                (or_intror Hd)) as Hc.
  rewrite A in Hc. exact Hc.
Qed.

End GimbalV2More.

Section GimbalV2Iterations.
Context {K : Constants} {P : Platform}.
Import InputMavlinkGimbalV2 GimbalV2Polls.

(** X23.  One iteration of the gimbal-manager adapter summed up.  It asks
    for another poll exactly when the poll brings an ROI event whose mode
    is not accepted, or a changed position setpoint while the mode
    remembered after the ROI branch is not [ROI_WPNEXT], or a command
    that is not an attitude command for the adapter.  It sets
    [*control_data] when it was set before, or when the poll brings an
    attitude-set event, an ROI event whose mode is accepted, a changed
    position setpoint while the next waypoint is followed, or an attitude
    command for the adapter.  The two are independent: an iteration can
    set [*control_data] and ask for another poll. *)
Theorem gv_iteration_outcome (s : State) (out : bool)
  (acks : list vehicle_command_ack_s) (p : Poll) :
  0 < ret p ->
  let it := on_poll s out acks p in
  i_exit_loop it = negb (asks_for_more s p)
  /\ i_control_data it = out || hands_out s p
  /\ i_acks it = acks ++ acknowledged s p.
Proof.
  intros Hr. cbv zeta.
  destruct (on_poll_flags s out acks p) as [A B].
  split; [exact A|]. split; [exact B|]. now apply on_poll_acks.
Qed.

Lemma set_attitude_handler_twice (b : bool) (cd : ControlData) (flags : Z)
  (pa pr ya yr ra rr : float) :
  b && flag_set flags GIMBAL_MANAGER_FLAGS_NUDGE
  && negb (flag_set flags GIMBAL_MANAGER_FLAGS_OVERRIDE) = false ->
  _set_control_data_from_set_attitude b
    (_set_control_data_from_set_attitude b cd flags pa pr ya yr ra rr)
    flags pa pr ya yr ra rr
  = _set_control_data_from_set_attitude b cd flags pa pr ya yr ra rr.
Proof.
  intros H. unfold _set_control_data_from_set_attitude.
  destruct (flag_set flags GIMBAL_MANAGER_FLAGS_RETRACT); [reflexivity|].
  destruct (flag_set flags GIMBAL_MANAGER_FLAGS_NEUTRAL); [reflexivity|].
  destruct (flag_set flags GIMBAL_MANAGER_FLAGS_NONE); [reflexivity|].
  pose proof (assign_angles_payload b cd flags pa ya ra) as P1.
  destruct (apply_rates_payload (assign_angles b cd flags pa ya ra) pr yr rr) as [P2 _].
  destruct (apply_locks_payload
              (apply_rates (assign_angles b cd flags pa ya ra) pr yr rr) flags)
    as [P3 _].
  pose proof (same_payload_trans _ _ _ P1 (same_payload_trans _ _ _ P2 P3)) as P4.
  clear P1 P2 P3. revert P4.
  generalize (apply_locks (apply_rates (assign_angles b cd flags pa ya ra) pr yr rr)
                flags) at 1 2.
  intros c1 (_ & _ & E3 & E4 & E5 & E6 & E7 & E8 & E9).
  rewrite (assign_angles_replaces b c1 flags pa ya ra H).
  rewrite (assign_angles_replaces b cd flags pa ya ra H).
  now rewrite E3, E4, E5, E6, E7, E8, E9.
Qed.

(** X24.  An attitude-set event that does not add (no target set, or no
    nudge flag, or the override flag) can be repeated: handling the same
    event a second time leaves the iteration as the first time left it.
    The nudge that adds is the one event that cannot. *)
Theorem gv_set_attitude_twice (it : Iter) (sa : gimbal_manager_set_attitude_s) :
  _is_roi_set (i_state it) && flag_set (sa_flags sa) GIMBAL_MANAGER_FLAGS_NUDGE
  && negb (flag_set (sa_flags sa) GIMBAL_MANAGER_FLAGS_OVERRIDE) = false ->
  on_set_attitude (on_set_attitude it sa) sa = on_set_attitude it sa.
Proof.
  intros H. unfold on_set_attitude. cbv zeta.
  cbn [i_state i_acks i_exit_loop with_control_data _control_data _is_roi_set
       _mav_sys_id _mav_comp_id _projection_reference _cur_roi_mode
       _gimbal_device_attitude_status].
  rewrite (set_attitude_handler_twice _ _ _ _ _ _ _ _ _ H). reflexivity.
Qed.

End GimbalV2Iterations.

(** ** The request for the device information *)

Section RequestProperties.
Context {K : Constants} {P : Platform} {R : RequestConstants}.

(** X20.  The request for [GIMBAL_DEVICE_INFORMATION] that a gimbal-manager
    adapter publishes on the [vehicle_command] topic is a broadcast that
    names the adapter as its source.  Every gimbal-manager adapter that
    reads it from the topic, the sender included, finds it addressed to
    itself and passes it over: no record, no acknowledgement, more
    polling.  A reply addressed to the source of the request is one the
    sender accepts as addressed to it. *)
Theorem request_gimbal_device_information_routing (s : InputMavlinkGimbalV2.State) :
  VEHICLE_CMD_REQUEST_MESSAGE <> VEHICLE_CMD_DO_GIMBAL_MANAGER_ATTITUDE ->
  let request := published_command (_request_gimbal_device_information s) in
  (forall s', InputMavlinkGimbalV2.addressed s' request)
  /\ (forall it,
        InputMavlinkGimbalV2.on_vehicle_command it request
        = InputMavlinkGimbalV2.mkIter (InputMavlinkGimbalV2.i_state it)
            (InputMavlinkGimbalV2.i_control_data it)
            (InputMavlinkGimbalV2.i_acks it) false)
  /\ (forall reply,
        target_system reply = source_system request ->
        target_component reply = source_component request ->
        InputMavlinkGimbalV2.addressed s reply).
Proof.
  intros Hd. cbv zeta. split; [|split].
  - intros s'. unfold InputMavlinkGimbalV2.addressed. cbn. auto.
  - intros it. unfold InputMavlinkGimbalV2.on_vehicle_command. cbv zeta.
    destruct (negb _ || negb _); [reflexivity|].
    cbn [published_command _request_gimbal_device_information command].
    replace (VEHICLE_CMD_REQUEST_MESSAGE =? VEHICLE_CMD_DO_GIMBAL_MANAGER_ATTITUDE)
      with false by (symmetry; apply Z.eqb_neq; exact Hd).
    reflexivity.
  - intros reply H1 H2. unfold InputMavlinkGimbalV2.addressed.
    cbn in H1, H2. auto.
Qed.

End RequestProperties.

(** ** Subscriptions *)

(** X21.  [initialize] of the gimbal-manager adapter subscribes to its four
    topics in a fixed order and stops behind the first subscription that
    fails: it then returns the negated [errno] of that call, and neither
    subscribes to the topics that follow nor sets the rate limit.  When
    all four succeed it sets the interval of the command subscription to
    10 ms and returns 0. *)
Theorem gv_initialize_stops_at_first_failure (orb : Topic -> Subscribed)
  (h : GimbalV2Handles.Handles) :
  let topics := [ORB_vehicle_roi; ORB_position_setpoint_triplet;
                 ORB_gimbal_manager_set_attitude; ORB_vehicle_command] in
  let failed := find (fun t => sub_fd (orb t) <? 0) topics in
  fst (fst (GimbalV2Handles.initialize orb h))
  = match failed with
    | Some t => - sub_errno (orb t)
    | None => 0
    end
  /\ snd (GimbalV2Handles.initialize orb h)
     = map orb_subscribe (attempted orb topics)
       ++ match failed with
          | Some _ => []
          | None => [orb_set_interval (sub_fd (orb ORB_vehicle_command)) 10]
          end.
Proof.
  cbv zeta. unfold GimbalV2Handles.initialize. cbv zeta.
  cbn [GimbalV2Handles._vehicle_roi_sub GimbalV2Handles._position_setpoint_triplet_sub
       GimbalV2Handles._gimbal_manager_set_attitude_sub
       GimbalV2Handles._vehicle_command_sub find attempted map].
  destruct (sub_fd (orb ORB_vehicle_roi) <? 0); [split; reflexivity|].
  destruct (sub_fd (orb ORB_position_setpoint_triplet) <? 0); [split; reflexivity|].
  destruct (sub_fd (orb ORB_gimbal_manager_set_attitude) <? 0); [split; reflexivity|].
  destruct (sub_fd (orb ORB_vehicle_command) <? 0); split; reflexivity.
Qed.

(** X22.  No descriptor is lost: whether [initialize] succeeded or stopped
    at a failure, the destructor gives back exactly the descriptors that
    [initialize] obtained, each once and in the order they were obtained,
    provided the descriptors [initialize] did not get to were negative
    before, as the destructor expects of an unused one. *)
Theorem destructor_releases_what_initialize_acquired (orb : Topic -> Subscribed) :
  (forall h,
      ROIHandles._position_setpoint_triplet_sub h < 0 ->
      released (ROIHandles.destructor (snd (fst (ROIHandles.initialize orb h))))
      = acquired orb (snd (ROIHandles.initialize orb h)))
  /\ (forall h,
        released (CmdMountHandles.destructor (snd (fst (CmdMountHandles.initialize orb h))))
        = acquired orb (snd (CmdMountHandles.initialize orb h)))
  /\ (forall h,
        GimbalV2Handles._position_setpoint_triplet_sub h < 0 ->
        GimbalV2Handles._gimbal_manager_set_attitude_sub h < 0 ->
        GimbalV2Handles._vehicle_command_sub h < 0 ->
        released (GimbalV2Handles.destructor (snd (fst (GimbalV2Handles.initialize orb h))))
        = acquired orb (snd (GimbalV2Handles.initialize orb h))).
Proof.
  assert (L : forall z, (z <? 0) = negb (0 <=? z)).
  { intros z. destruct (Z.ltb_spec z 0), (Z.leb_spec 0 z); try reflexivity; lia. }
  assert (N : forall z, z < 0 -> (0 <=? z) = false)
    by (intros z Hz; apply Z.leb_gt; exact Hz).
  split; [|split].
  - intros h H2. unfold ROIHandles.initialize, ROIHandles.destructor. cbv zeta.
    cbn [ROIHandles._vehicle_roi_sub ROIHandles._position_setpoint_triplet_sub].
    rewrite !L.
    destruct (0 <=? sub_fd (orb ORB_vehicle_roi)) eqn:E1; cbn [negb fst snd].
    + destruct (0 <=? sub_fd (orb ORB_position_setpoint_triplet)) eqn:E2;
        cbn [negb fst snd ROIHandles._vehicle_roi_sub
             ROIHandles._position_setpoint_triplet_sub];
        unfold acquired, released; cbn [flat_map app]; rewrite ?E1, ?E2; reflexivity.
    + cbn [ROIHandles._vehicle_roi_sub ROIHandles._position_setpoint_triplet_sub].
      unfold acquired, released. cbn [flat_map app]. rewrite E1, (N _ H2). reflexivity.
  - intros h. unfold CmdMountHandles.initialize, CmdMountHandles.destructor. cbv zeta.
    cbn [CmdMountHandles._vehicle_command_sub]. rewrite !L.
    destruct (0 <=? sub_fd (orb ORB_vehicle_command)) eqn:E1;
      cbn [negb fst snd CmdMountHandles._vehicle_command_sub];
      unfold acquired, released; cbn [flat_map app]; rewrite ?E1; reflexivity.
  - intros h H2 H3 H4.
    unfold GimbalV2Handles.initialize, GimbalV2Handles.destructor. cbv zeta.
    cbn [GimbalV2Handles._vehicle_roi_sub GimbalV2Handles._position_setpoint_triplet_sub
         GimbalV2Handles._gimbal_manager_set_attitude_sub
         GimbalV2Handles._vehicle_command_sub].
    rewrite !L.
    destruct (0 <=? sub_fd (orb ORB_vehicle_roi)) eqn:E1; cbn [negb].
    2: { cbn [fst snd GimbalV2Handles._vehicle_roi_sub
              GimbalV2Handles._position_setpoint_triplet_sub
              GimbalV2Handles._gimbal_manager_set_attitude_sub
              GimbalV2Handles._vehicle_command_sub].
         unfold acquired, released. cbn [flat_map app].
         rewrite E1, (N _ H2), (N _ H3), (N _ H4). reflexivity. }
    destruct (0 <=? sub_fd (orb ORB_position_setpoint_triplet)) eqn:E2; cbn [negb].
    2: { cbn [fst snd GimbalV2Handles._vehicle_roi_sub
              GimbalV2Handles._position_setpoint_triplet_sub
              GimbalV2Handles._gimbal_manager_set_attitude_sub
              GimbalV2Handles._vehicle_command_sub].
         unfold acquired, released. cbn [flat_map app].
         rewrite E1, E2, (N _ H3), (N _ H4). reflexivity. }
    destruct (0 <=? sub_fd (orb ORB_gimbal_manager_set_attitude)) eqn:E3; cbn [negb].
    2: { cbn [fst snd GimbalV2Handles._vehicle_roi_sub
              GimbalV2Handles._position_setpoint_triplet_sub
              GimbalV2Handles._gimbal_manager_set_attitude_sub
              GimbalV2Handles._vehicle_command_sub].
         unfold acquired, released. cbn [flat_map app].
         rewrite E1, E2, E3, (N _ H4). reflexivity. }
    destruct (0 <=? sub_fd (orb ORB_vehicle_command)) eqn:E4; cbn [negb];
      cbn [fst snd GimbalV2Handles._vehicle_roi_sub
           GimbalV2Handles._position_setpoint_triplet_sub
           GimbalV2Handles._gimbal_manager_set_attitude_sub
           GimbalV2Handles._vehicle_command_sub];
      unfold acquired, released; cbn [flat_map app];
      rewrite E1, E2, E3, E4; reflexivity.
Qed.

(** ** The further statements at concrete inputs *)

(** X1 at the largest [unsigned int]: the pending command is not read. *)
Lemma timeout_of_uint_max_polls_nothing :
  InputMavlinkCmdMount.update_impl (K := px4_constants) (P := px4_platform)
    cm_state0 4294967295 [cm_poll cmd_mavlink_targeting]
  = Some (InputMavlinkCmdMount.mkResult 0 false cm_state0 []
            [cm_poll cmd_mavlink_targeting]).
Proof.
  refine (proj1 (update_with_timeout_beyond_int_polls_nothing
                   (K := px4_constants) (P := px4_platform) 4294967295 _)
            cm_state0 [cm_poll cmd_mavlink_targeting]).
  cbn. lia.
Defined.

(** X2 at a timeout of 3 ms and four polls of 2 ms that each bring a
    command for component 5. *)
Lemma three_milliseconds_of_polls :
  exists r,
    InputMavlinkCmdMount.update_impl (K := px4_constants) (P := px4_platform)
      cm_state0 3
      [cm_poll cmd_for_component_5; cm_poll cmd_for_component_5;
       cm_poll cmd_for_component_5; cm_poll cmd_for_component_5] = Some r
    /\ Z.of_nat 4 - Z.of_nat (length (InputMavlinkCmdMount.r_pending r)) <= 3 + 1.
Proof.
  refine (proj1 (update_returns_within_budget
                   (K := px4_constants) (P := px4_platform) 3 _)
            cm_state0
            [cm_poll cmd_for_component_5; cm_poll cmd_for_component_5;
             cm_poll cmd_for_component_5; cm_poll cmd_for_component_5] _ _).
  - cbn. lia.
  - repeat constructor; unfold takes_a_millisecond; cbn; lia.
  - cbn. lia.
Defined.

(** X3 at three commands for component 5 that arrive within half a
    millisecond each, ahead of a command for the adapter. *)
Lemma three_quick_commands_are_free :
  InputMavlinkCmdMount.update_impl (K := px4_constants) (P := px4_platform)
    cm_state0 100
    ([cm_poll_quick cmd_for_component_5; cm_poll_quick cmd_for_component_5;
      cm_poll_quick cmd_for_component_5] ++ [cm_poll cmd_mavlink_targeting])
  = InputMavlinkCmdMount.update_impl (K := px4_constants) (P := px4_platform)
      cm_state0 100 [cm_poll cmd_mavlink_targeting].
Proof.
  refine (proj1 (polls_within_a_millisecond_cost_nothing
                   (K := px4_constants) (P := px4_platform) 100 _)
            cm_state0 _ _ _).
  - cbn. lia.
  - repeat constructor; unfold within_a_millisecond; cbn; try lia;
      exists cmd_for_component_5; split; reflexivity.
Defined.

(** X4 at the retract request: one acknowledgement, to system 255,
    component 190. *)
Lemma retract_request_is_acknowledged_once :
  (InputMavlinkCmdMount.r_acks cm_result_retract = []
   /\ InputMavlinkCmdMount.r_control_data cm_result_retract = false)
  \/ exists pre p cmd,
       [cm_poll cmd_retract] = pre ++ p :: InputMavlinkCmdMount.r_pending cm_result_retract
       /\ 0 < InputMavlinkCmdMount.ret p
       /\ InputMavlinkCmdMount.vehicle_command p = Some cmd
       /\ InputMavlinkCmdMount.addressed cm_state0 cmd
       /\ (command cmd = 205 \/ command cmd = 204)
       /\ InputMavlinkCmdMount.r_ret cm_result_retract = 0
       /\ InputMavlinkCmdMount.r_acks cm_result_retract
          = [mk_vehicle_command_ack (command cmd) 0 (source_system cmd)
               (source_component cmd)].
Proof.
  exact (cm_record_is_acknowledged (K := px4_constants) (P := px4_platform)
           cm_state0 100 [cm_poll cmd_retract] cm_result_retract eq_refl).
Defined.

(** X5 at a command that is no mount command, addressed to the adapter
    whose record has the retract flag set, and followed by a time-out:
    no record, and the flag is cleared. *)
Lemma other_command_clears_retract_flag :
  InputMavlinkCmdMount.r_state cm_result_other = cm_state_retracted
  \/ InputMavlinkCmdMount.r_state cm_result_other
     = InputMavlinkCmdMount.mkState
         (set_gimbal_shutter_retract
            (InputMavlinkCmdMount._control_data cm_state_retracted) false) 1 1.
Proof.
  exact (cm_update_without_record (K := px4_constants) (P := px4_platform)
           cm_state_retracted 100 [cm_poll cmd_other; cm_poll_timeout] cm_result_other
           eq_refl eq_refl).
Defined.

(** X6 at param3 = 1, param5 = 1 and param6 = 2: the second axis is
    stabilised, the first frame is angular-rate, the second absolute, the
    third body-relative; the latitude 0 of the record is overwritten. *)
Lemma configure_one_and_two :
  InputMavlinkCmdMount.update_loop (K := px4_constants) (P := px4_platform)
    [cm_poll cmd_configure] cm_state0 100 false []
  = Some (InputMavlinkCmdMount.mkResult 0 true
            (InputMavlinkCmdMount.mkState
               (mkControlData Neutral (mk3 zero zero zero)
                  (mk3 AngularRate AngleAbsoluteFrame AngleBodyFrame)
                  (Some (S754_zero false)) None zero zero zero zero zero
                  (mk3 false true false) false) 1 1)
            [mk_vehicle_command_ack 204 0 255 190] []).
Proof.
  refine (cm_mount_configure (K := px4_constants) (P := px4_platform)
            cm_state0 100 false [] (cm_poll cmd_configure) cmd_configure []
            _ _ _ eq_refl _ eq_refl).
  - discriminate.
  - lia.
  - cbn. lia.
  - split; [reflexivity|left; reflexivity].
Defined.

(** X7 at latitude param5 = 1, longitude param6 = 2, altitude
    param4 = 10. *)
Lemma gps_point_one_two_ten :
  InputMavlinkCmdMount.update_loop (K := px4_constants) (P := px4_platform)
    [cm_poll cmd_gps_point] cm_state0 100 false []
  = Some (InputMavlinkCmdMount.mkResult 0 true
            (InputMavlinkCmdMount.mkState
               (mkControlData LonLat (px4_aliased_angles d_2 d_1)
                  (px4_aliased_frames d_1)
                  (Some d_2) (Some d_1) f_10 zero MINUS_TEN zero zero
                  (mk3 false false false) false) 1 1)
            [mk_vehicle_command_ack 205 0 255 190] []).
Proof.
  refine (cm_gps_point (K := px4_constants) (P := px4_platform)
            cm_state0 100 false [] (cm_poll cmd_gps_point) cmd_gps_point []
            px4_mount_modes_distinct _ _ eq_refl _ eq_refl eq_refl).
  - lia.
  - cbn. lia.
  - split; [reflexivity|left; reflexivity].
Defined.

(** X8 at an [ROI_WPNEXT] event with offsets (1, 2, 3) while the setpoint
    is (2, 1, 10), and a setpoint that then changes to (1, 2, 20). *)
Lemma wpnext_then_new_setpoint :
  InputMavlinkROI.update_impl (K := px4_constants) (P := px4_platform)
    roi_state0 100 (roi_poll_event roi_wpnext setpoint_a)
  = (0, true,
     InputMavlinkROI.mkState
       (mkControlData LonLat (px4_aliased_angles d_2 d_1) (px4_aliased_frames d_1)
          (Some d_2) (Some d_1) f_10 f_1 MINUS_TEN f_2 f_3
          (mk3 false false false) false) 1)
  /\ InputMavlinkROI.update_impl (K := px4_constants) (P := px4_platform)
       (InputMavlinkROI.mkState
          (mkControlData LonLat (px4_aliased_angles d_2 d_1) (px4_aliased_frames d_1)
             (Some d_2) (Some d_1) f_10 f_1 MINUS_TEN f_2 f_3
             (mk3 false false false) false) 1)
       100 (roi_poll_setpoint setpoint_b)
     = (0, true,
        InputMavlinkROI.mkState
          (mkControlData LonLat (px4_aliased_angles d_1 d_2) (px4_aliased_frames d_2)
             (Some d_1) (Some d_2) f_20 f_1 MINUS_TEN f_2 f_3
             (mk3 false false false) false) 1).
Proof.
  refine (roi_wpnext_follows_setpoint (K := px4_constants) (P := px4_platform)
            roi_state0 100 100 (roi_poll_event roi_wpnext setpoint_a)
            (roi_poll_setpoint setpoint_b) roi_wpnext
            _ _ eq_refl eq_refl _ eq_refl eq_refl).
  - discriminate.
  - cbn. lia.
  - cbn. lia.
Defined.

(** X9 at an [ROI_TARGET] event (mode 4) that reaches the ROI adapter
    while it follows the next waypoint: no record, and the mode
    remembered is 4. *)
Lemma roi_target_ends_following :
  InputMavlinkROI.update_impl (K := px4_constants) (P := px4_platform)
    (InputMavlinkROI.mkState cd0 1) 100 (roi_poll_event roi_target setpoint_a)
  = (0, false,
     InputMavlinkROI.mkState (set_gimbal_shutter_retract cd0 false) 4).
Proof.
  refine (proj1 (unsupported_roi_mode (K := px4_constants) (P := px4_platform)
                   roi_target _ _ _)
            (InputMavlinkROI.mkState cd0 1) 100 (roi_poll_event roi_target setpoint_a)
            _ eq_refl);
    try discriminate.
  cbn. lia.
Defined.

(** Puts the result of an update in place of the result asked for. *)
Ltac give_result_of U :=
  let o := eval vm_compute in U in
  match o with Some ?x => exists x end.

Ltac give_result :=
  match goal with
  | |- exists r, ?U = Some r /\ _ => give_result_of U
  end.

(** X10 at an attitude command that arrives together with an
    [ROI_TARGET] event, which keeps the loop polling, and a second one in
    the next poll: two acknowledgements. *)
Lemma two_attitude_commands_two_acknowledgements :
  exists r,
    InputMavlinkGimbalV2.update_impl (K := px4_constants) (P := px4_platform)
      gv_state0 None 100
      [gv_poll_roi_and_command roi_target cmd_gimbal_attitude;
       gv_poll_command cmd_gimbal_attitude] = Some r
    /\ InputMavlinkGimbalV2.r_pending r = []
    /\ InputMavlinkGimbalV2.r_acks r
       = [mk_vehicle_command_ack 1000 0 255 190; mk_vehicle_command_ack 1000 0 255 190].
Proof.
  give_result.
  match goal with
  | |- ?U = Some ?r /\ _ => assert (E : U = Some r) by reflexivity
  end.
  split; [exact E|]. split; [reflexivity|].
  destruct (gv_acknowledges_every_attitude_command
              (K := px4_constants) (P := px4_platform) _ _ _ _ _ E) as (pre & E1 & E2).
  cbn [InputMavlinkGimbalV2.r_pending] in E1. rewrite app_nil_r in E1. subst pre.
  rewrite E2. reflexivity.
Defined.

(** X11 at an update that handles an [ROI_WPNEXT] event: the altitude of
    the record and its stabilisation flags are those of before, the
    longitude and the latitude are 0 as before or overwritten, the type
    is [Angle], the fixed pitch is [-10.f]. *)
Lemma wpnext_update_stores_no_position :
  exists r,
    InputMavlinkGimbalV2.update_impl (K := px4_constants) (P := px4_platform)
      gv_state0 None 100 [gv_poll_roi roi_wpnext] = Some r
    /\ InputMavlinkGimbalV2._mav_sys_id (InputMavlinkGimbalV2.r_state r) = 1
    /\ InputMavlinkGimbalV2._mav_comp_id (InputMavlinkGimbalV2.r_state r) = 1
    /\ (lon (InputMavlinkGimbalV2._control_data (InputMavlinkGimbalV2.r_state r))
        = Some (S754_zero false)
        \/ lon (InputMavlinkGimbalV2._control_data (InputMavlinkGimbalV2.r_state r))
           = None)
    /\ (lat (InputMavlinkGimbalV2._control_data (InputMavlinkGimbalV2.r_state r))
        = Some (S754_zero false)
        \/ lat (InputMavlinkGimbalV2._control_data (InputMavlinkGimbalV2.r_state r))
           = None)
    /\ altitude (InputMavlinkGimbalV2._control_data (InputMavlinkGimbalV2.r_state r))
       = zero
    /\ stabilize_axis (InputMavlinkGimbalV2._control_data (InputMavlinkGimbalV2.r_state r))
       = mk3 false false false
    /\ (type (InputMavlinkGimbalV2._control_data (InputMavlinkGimbalV2.r_state r))
        = LonLat -> Neutral = LonLat)
    /\ (pitch_fixed_angle
          (InputMavlinkGimbalV2._control_data (InputMavlinkGimbalV2.r_state r)) = zero
        \/ pitch_fixed_angle
             (InputMavlinkGimbalV2._control_data (InputMavlinkGimbalV2.r_state r))
           = MINUS_TEN).
Proof.
  give_result.
  match goal with
  | |- ?U = Some ?r /\ _ => assert (E : U = Some r) by reflexivity
  end.
  split; [exact E|].
  exact (gv_update_keeps (K := px4_constants) (P := px4_platform) _ _ _ _ _ E).
Defined.

(** X12 at an adapter whose reference is initialised and an
    [ROI_LOCATION] event whose pitch is computed. *)
Lemma anchored_reference_stays :
  exists r,
    InputMavlinkGimbalV2.update_impl (K := px4_constants) (P := px4_platform)
      gv_state_anchored None 100 [gv_poll_roi roi_location] = Some r
    /\ InputMavlinkGimbalV2._projection_reference (InputMavlinkGimbalV2.r_state r)
       = Some (d_1, d_2).
Proof.
  give_result.
  match goal with
  | |- ?U = Some ?r /\ _ => assert (E : U = Some r) by reflexivity
  end.
  split; [exact E|].
  exact (gv_projection_reference_is_set_once (K := px4_constants) (P := px4_platform)
           gv_state_anchored _ _ _ _ eq_refl E).
Defined.

(** X13 at device flags 7 received by an update, and an update after it
    that receives none. *)
Lemma device_flags_seven_twice :
  exists r1 r2,
    InputMavlinkGimbalV2.update_impl (K := px4_constants) (P := px4_platform)
      gv_state0 (Some 7) 100 [gv_poll_timeout] = Some r1
    /\ InputMavlinkGimbalV2.update_impl (K := px4_constants) (P := px4_platform)
         (InputMavlinkGimbalV2.r_state r1) None 100 [gv_poll_timeout] = Some r2
    /\ InputMavlinkGimbalV2.r_status r1 = mk_manager_status 7 0
    /\ InputMavlinkGimbalV2.r_status r2 = mk_manager_status 7 0.
Proof.
  give_result_of (InputMavlinkGimbalV2.update_impl (K := px4_constants) (P := px4_platform)
                    gv_state0 (Some 7) 100 [gv_poll_timeout]).
  match goal with
  | |- exists r2, ?U1 = Some ?r1 /\ _ =>
      assert (E1 : U1 = Some r1) by reflexivity;
      give_result_of (InputMavlinkGimbalV2.update_impl
                        (K := px4_constants) (P := px4_platform)
                        (InputMavlinkGimbalV2.r_state r1) None 100 [gv_poll_timeout])
  end.
  split; [exact E1|].
  match goal with
  | |- ?U = Some ?r /\ _ => assert (E2 : U = Some r) by reflexivity
  end.
  split; [exact E2|].
  exact (gv_status_carries_last_device_flags (K := px4_constants) (P := px4_platform)
           _ _ _ _ _ _ _ _ E1 E2).
Defined.

(** X14 at an attitude-set event with a yaw rate that arrives together
    with an [ROI_LOCATION] event. *)
Lemma attitude_with_location_is_lost :
  InputMavlinkGimbalV2.on_poll (K := px4_constants) (P := px4_platform)
    gv_state0 false [] (gv_poll_attitude_and_roi sa_yaw_rate roi_location)
  = InputMavlinkGimbalV2.on_poll (K := px4_constants) (P := px4_platform)
      gv_state0 false []
      (GimbalV2Polls.without_set_attitude
         (gv_poll_attitude_and_roi sa_yaw_rate roi_location)).
Proof.
  refine (gv_lon_lat_target_overwrites_attitude (K := px4_constants) (P := px4_platform)
            gv_state0 false [] (gv_poll_attitude_and_roi sa_yaw_rate roi_location)
            roi_location eq_refl _ _).
  - discriminate.
  - right. reflexivity.
Defined.

(** X15 at an event with the nudge and the override flag on a set target
    whose channels hold (1, 2, 3): the angles (1, 10, 20) replace them. *)
Lemma nudge_with_override_replaces :
  angles (InputMavlinkGimbalV2._control_data
            (InputMavlinkGimbalV2.i_state
               (InputMavlinkGimbalV2.on_set_attitude
                  (K := px4_constants) (P := px4_platform)
                  (InputMavlinkGimbalV2.mkIter gv_state_target false [] true)
                  sa_nudge_override)))
  = mk3 f_1 f_10 f_20.
Proof.
  exact (gv_set_attitude_channels (K := px4_constants) (P := px4_platform)
           (InputMavlinkGimbalV2.mkIter gv_state_target false [] true)
           sa_nudge_override eq_refl eq_refl eq_refl).
Defined.

(** X16 at an event with the retract flag: the record is handed out and
    the adapter is as it was. *)
Lemma retract_event_changes_nothing :
  exists r,
    InputMavlinkGimbalV2.update_impl (K := px4_constants) (P := px4_platform)
      gv_state_target None 100 [gv_poll_attitude sa_retract] = Some r
    /\ InputMavlinkGimbalV2.r_control_data r = true
    /\ InputMavlinkGimbalV2.r_state r = gv_state_target.
Proof.
  refine (gv_set_attitude_flags_without_angles (K := px4_constants) (P := px4_platform)
            gv_state_target None 100 (gv_poll_attitude sa_retract) sa_retract [] _ _ _).
  - cbn. lia.
  - repeat split; cbn; lia.
  - left. reflexivity.
Defined.

(** X17 at an [ROI_WPNEXT] event with offsets (1, 2, 3): channel 0 is 0,
    whatever the roll offset; the pitch is what [atan2f] gives (here not
    a number) plus 2, the yaw is the bearing (here 0) plus 3. *)
Lemma wpnext_target_ignores_roll_offset :
  angles (InputMavlinkGimbalV2._control_data
            (InputMavlinkGimbalV2.i_state
               (InputMavlinkGimbalV2.on_vehicle_roi
                  (K := px4_constants) (P := px4_platform)
                  (InputMavlinkGimbalV2.mkIter gv_state0 false [] true)
                  roi_wpnext setpoint_a gv_position0)))
  = mk3 zero (fadd nan f_2) (fadd (fsub zero zero) f_3).
Proof.
  pose proof (gv_wpnext_target (K := px4_constants) (P := px4_platform)
                (InputMavlinkGimbalV2.mkIter gv_state0 false [] true)
                roi_wpnext setpoint_a gv_position0) as H.
  cbv zeta in H.
  destruct H as (_ & _ & _ & _ & _ & _ & H & _);
    [discriminate|reflexivity|reflexivity|].
  exact H.
Defined.

(** X18 at an [ROI_LOCATION] event after an [ROI_WPNEXT] event with
    offsets (1, 2, 3): the pitch offset 2 and the yaw offset 3 are still
    added. *)
Lemma location_after_wpnext_adds_offsets :
  angles (InputMavlinkGimbalV2._control_data
            (InputMavlinkGimbalV2.i_state
               (InputMavlinkGimbalV2.on_vehicle_roi
                  (K := px4_constants) (P := px4_platform)
                  (InputMavlinkGimbalV2.on_vehicle_roi
                     (K := px4_constants) (P := px4_platform)
                     (InputMavlinkGimbalV2.mkIter gv_state0 false [] true)
                     roi_wpnext setpoint_a gv_position0)
                  roi_location setpoint_a gv_position0)))
  = mk3 zero (fadd nan f_2) (fadd (fsub zero zero) f_3).
Proof.
  pose proof (gv_location_target_keeps_wpnext_offsets
                (K := px4_constants) (P := px4_platform)
                (InputMavlinkGimbalV2.mkIter gv_state0 false [] true)
                (InputMavlinkGimbalV2.on_vehicle_roi
                   (K := px4_constants) (P := px4_platform)
                   (InputMavlinkGimbalV2.mkIter gv_state0 false [] true)
                   roi_wpnext setpoint_a gv_position0)
                roi_wpnext roi_location setpoint_a setpoint_a gv_position0 gv_position0)
    as H.
  cbv zeta in H.
  destruct H as (_ & _ & _ & H);
    [discriminate|discriminate|discriminate|reflexivity|reflexivity|reflexivity
    |reflexivity|].
  exact H.
Defined.

(** X19 at an attitude-set event that arrives together with a command
    for component 5, which keeps the loop polling, and a poll that then
    fails with [errno] 4: the record is handed out with the return
    value -4. *)
Lemma record_with_negative_return_value :
  exists r,
    InputMavlinkGimbalV2.update_impl (K := px4_constants) (P := px4_platform)
      gv_state0 None 100
      [gv_poll_attitude_and_command sa_yaw_rate cmd_gimbal_attitude_for_5;
       gv_poll_failure] = Some r
    /\ InputMavlinkGimbalV2.r_ret r = -4
    /\ InputMavlinkGimbalV2.r_control_data r = true.
Proof.
  give_result.
  match goal with
  | |- ?U = Some ?r /\ _ => assert (E : U = Some r) by reflexivity
  end.
  split; [exact E|]. split; [reflexivity|].
  destruct (gv_attitude_event_is_handed_out
              (K := px4_constants) (P := px4_platform) _ _ _ _ _ E) as (pre & E1 & E2 & _).
  cbn [InputMavlinkGimbalV2.r_pending] in E1. rewrite app_nil_r in E1. subst pre.
  apply E2. reflexivity.
Defined.

(** X20 at the adapter of system 1, component 1: it passes over its own
    request. *)
Lemma own_request_is_passed_over :
  InputMavlinkGimbalV2.on_vehicle_command (K := px4_constants) (P := px4_platform)
    (InputMavlinkGimbalV2.mkIter gv_state0 true [] true)
    (published_command
       (_request_gimbal_device_information (K := px4_constants) (P := px4_platform)
          (R := px4_request_constants) gv_state0))
  = InputMavlinkGimbalV2.mkIter gv_state0 true [] false.
Proof.
  refine (proj1 (proj2 (request_gimbal_device_information_routing
                          (K := px4_constants) (P := px4_platform)
                          (R := px4_request_constants) gv_state0 _))
            (InputMavlinkGimbalV2.mkIter gv_state0 true [] true)).
  discriminate.
Defined.

(** X21 when the third subscription fails with [errno] 12: the return
    value is -12, and the command topic is not subscribed. *)
Lemma initialize_with_third_failure :
  fst (fst (GimbalV2Handles.initialize orb_third_fails gv_handles0)) = -12
  /\ snd (GimbalV2Handles.initialize orb_third_fails gv_handles0)
     = [orb_subscribe ORB_vehicle_roi; orb_subscribe ORB_position_setpoint_triplet;
        orb_subscribe ORB_gimbal_manager_set_attitude].
Proof.
  exact (gv_initialize_stops_at_first_failure orb_third_fails gv_handles0).
Defined.

(** X22 when the third subscription fails: the destructor gives back the
    descriptors 3 and 4. *)
Lemma two_descriptors_given_back :
  released (GimbalV2Handles.destructor
              (snd (fst (GimbalV2Handles.initialize orb_third_fails gv_handles0))))
  = [3; 4].
Proof.
  refine (proj2 (proj2 (destructor_releases_what_initialize_acquired orb_third_fails))
            gv_handles0 _ _ _); cbn; lia.
Defined.

(** X23 at an attitude-set event that arrives together with a command
    for component 5: the iteration sets [*control_data] and asks for
    another poll, and acknowledges nothing. *)
Lemma attitude_event_with_foreign_command :
  InputMavlinkGimbalV2.i_exit_loop
    (InputMavlinkGimbalV2.on_poll (K := px4_constants) (P := px4_platform)
       gv_state0 false []
       (gv_poll_attitude_and_command sa_yaw_rate cmd_gimbal_attitude_for_5)) = false
  /\ InputMavlinkGimbalV2.i_control_data
       (InputMavlinkGimbalV2.on_poll (K := px4_constants) (P := px4_platform)
          gv_state0 false []
          (gv_poll_attitude_and_command sa_yaw_rate cmd_gimbal_attitude_for_5)) = true
  /\ InputMavlinkGimbalV2.i_acks
       (InputMavlinkGimbalV2.on_poll (K := px4_constants) (P := px4_platform)
          gv_state0 false []
          (gv_poll_attitude_and_command sa_yaw_rate cmd_gimbal_attitude_for_5)) = [].
Proof.
  refine (gv_iteration_outcome (K := px4_constants) (P := px4_platform)
            gv_state0 false []
            (gv_poll_attitude_and_command sa_yaw_rate cmd_gimbal_attitude_for_5) _).
  cbn. lia.
Defined.

(** X24 at an event without a flag, on a set target. *)
Lemma same_attitude_event_twice :
  InputMavlinkGimbalV2.on_set_attitude (K := px4_constants) (P := px4_platform)
    (InputMavlinkGimbalV2.on_set_attitude (K := px4_constants) (P := px4_platform)
       (InputMavlinkGimbalV2.mkIter gv_state_target false [] true) sa_yaw_rate)
    sa_yaw_rate
  = InputMavlinkGimbalV2.on_set_attitude (K := px4_constants) (P := px4_platform)
      (InputMavlinkGimbalV2.mkIter gv_state_target false [] true) sa_yaw_rate.
Proof.
  exact (gv_set_attitude_twice (K := px4_constants) (P := px4_platform)
           (InputMavlinkGimbalV2.mkIter gv_state_target false [] true) sa_yaw_rate
           eq_refl).
Defined.
